(** * AzionVectorStore: a shallow embedding of the vector store component

    Source: src/templates/typescript/azion-react-agent/src/langchain-components/AzionVectorStore.ts

    JavaScript strings are sequences of UTF-16 code units, arrays are lists,
    objects used as records of properties are association lists in property
    enumeration order, exceptions are an explicit [Throw] outcome, and the
    calls to the database service are threaded through a small state and
    exception monad that records every call.

    Embedded: the batch chunker ([createInsertChunks], [getStringBytes]),
    the statement builder ([escapeQuotes], [createInsertString],
    [createInsertStatement], [extractMetadataColumns], [createStatements],
    [generateFilters], [generateMetadata] and the two query texts), the
    result merger ([removeDuplicates]), the schema provisioner
    ([setupDatabase], [handleDatabase], [handleTables], [areTablesSetup],
    [setupTables]) and the search operations with their row decoding.
    Counts and quotas are natural numbers.  Logging and the settling delay
    of [setupDatabase] are left out; so is the write path above the
    chunker ([addDocuments], [addVectors], [insertChunks]). *)

From Stdlib Require Import String Ascii List ZArith NArith Lia Bool QArith.
From Stdlib Require Import DecimalString.
Import ListNotations.

Set Implicit Arguments.
Local Open Scope Z_scope.

(** ** JavaScript strings *)

(** A string is its sequence of UTF-16 code units. *)
Definition jsstring : Type := list N.

(** An ASCII literal of the source, as code units. *)
Definition lit (s : string) : jsstring :=
  map N_of_ascii (list_ascii_of_string s).

Definition LF : jsstring := [10%N].

(** [a === b] on strings. *)
Fixpoint jsstring_eqb (a b : jsstring) : bool :=
  match a, b with
  | [], [] => true
  | x :: a', y :: b' => (x =? y)%N && jsstring_eqb a' b'
  | _, _ => false
  end.

(** [Array.prototype.join] on an array of strings. *)
Fixpoint join (sep : jsstring) (l : list jsstring) : jsstring :=
  match l with
  | [] => []
  | x :: rest =>
      match rest with
      | [] => x
      | _ :: _ => x ++ sep ++ join sep rest
      end
  end.

Definition is_high_surrogate (c : N) : bool :=
  ((0xD800 <=? c) && (c <=? 0xDBFF))%N.

Definition is_low_surrogate (c : N) : bool :=
  ((0xDC00 <=? c) && (c <=? 0xDFFF))%N.

(** [new TextEncoder().encode(str).length]: the length of the UTF-8
    encoding.  A surrogate pair is one code point of four bytes, a lone
    surrogate is replaced by U+FFFD (three bytes). *)
Fixpoint utf8_length (s : jsstring) : Z :=
  match s with
  | [] => 0
  | c :: rest =>
      if (c <? 0x80)%N then 1 + utf8_length rest
      else if (c <? 0x800)%N then 2 + utf8_length rest
      else if is_high_surrogate c then
        match rest with
        | d :: rest' =>
            if is_low_surrogate d then 4 + utf8_length rest'
            else 3 + utf8_length rest
        | [] => 3
        end
      else 3 + utf8_length rest
  end.

(** ** Batch chunker *)

Definition getStringBytes (str : jsstring) : Z := utf8_length str.

Definition maxChunkLength : Z := 1000.

(** [0.8 * 1024 * 1024].  The double computed by the source lies strictly
    between 838860 and 838861, like this rational, so every comparison with
    a byte count (an integer) has the same outcome. *)
Definition maxMbSize : Q := (0.8 * 1024 * 1024)%Q.

Definition Qlt_bool (a b : Q) : bool := negb (Qle_bool b a).

(** The variables of [createInsertChunks] that its loop updates. *)
Record chunker : Type := mkChunker {
  insertChunk : list (list jsstring);
  array : list jsstring;
  originalStatements : list jsstring
}.

(** One iteration of the body of [for (const statement of originalStatements)]. *)
Definition chunk_step (st : chunker) (statement : jsstring) : chunker :=
  let totalStringBytes :=
    getStringBytes statement + getStringBytes (join (lit " ") (array st)) in
  if Qlt_bool maxMbSize (inject_Z totalStringBytes)
     || (maxChunkLength <? Z.of_nat (length (array st)) + 1)
  then
    mkChunker (insertChunk st ++ [array st])
              [statement]
              (tl (originalStatements st))
  else
    let array' := array st ++ [statement] in
    mkChunker
      (if Z.of_nat (length (originalStatements st)) =? 1
       then insertChunk st ++ [array'] else insertChunk st)
      array'
      (tl (originalStatements st)).

(** The [for ... of] loop walks the array that [originalStatements] named
    when the loop started; the assignments to the variable inside the body
    do not change what is iterated. *)
Definition chunk_for_of (st : chunker) : chunker :=
  fold_left chunk_step (originalStatements st) st.

(** [while (originalStatements.length > 0) { for ... }], with [fuel] bounding
    the number of rounds; [None] is fuel exhaustion. *)
Fixpoint chunk_while (fuel : nat) (st : chunker) : option chunker :=
  if 0 <? Z.of_nat (length (originalStatements st)) then
    match fuel with
    | O => None
    | S fuel' => chunk_while fuel' (chunk_for_of st)
    end
  else Some st.

Definition createInsertChunks (fuel : nat) (statements : list jsstring)
  : option (list (list jsstring)) :=
  let totalSize := getStringBytes (join (lit " ") statements) in
  if Qlt_bool (inject_Z totalSize) maxMbSize
     && (Z.of_nat (length statements) <? maxChunkLength)
  then Some [statements]
  else
    option_map insertChunk (chunk_while fuel (mkChunker [] [] statements)).

(** The closed form of [createInsertChunks]: the early return, or one round
    of the [for ... of] loop, after which [originalStatements] is empty. *)
Definition chunked (statements : list jsstring) : list (list jsstring) :=
  let totalSize := getStringBytes (join (lit " ") statements) in
  if Qlt_bool (inject_Z totalSize) maxMbSize
     && (Z.of_nat (length statements) <? maxChunkLength)
  then [statements]
  else insertChunk (chunk_for_of (mkChunker [] [] statements)).

(** ** Exceptions *)

Inductive exn : Type :=
  | TypeError
  | SyntaxError
  | Error (message : jsstring).

Inductive result (A : Type) : Type :=
  | Ok (a : A)
  | Throw (e : exn).

Arguments Ok {A} a.
Arguments Throw {A} e.

Definition result_bind {A B : Type} (r : result A) (k : A -> result B)
  : result B :=
  match r with
  | Ok a => k a
  | Throw e => Throw e
  end.

(** [Array.prototype.map] with a callback that may throw: elements are
    visited left to right with their index, the first exception escapes. *)
Fixpoint mapi_result {A B : Type} (f : A -> nat -> result B) (index : nat)
  (l : list A) : result (list B) :=
  match l with
  | [] => Ok []
  | x :: rest =>
      result_bind (f x index) (fun y =>
      result_bind (mapi_result f (S index) rest) (fun ys => Ok (y :: ys)))
  end.

(** ** More string operations *)

Definition DQUOTE : jsstring := [34%N].
Definition SQUOTE : jsstring := [39%N].
Definition BACKSLASH : jsstring := [92%N].

(** [str.replace(/c/g, by)] for a single literal character [c]. *)
Definition replace_char (c : N) (by_ : jsstring) (str : jsstring) : jsstring :=
  flat_map (fun x => if (x =? c)%N then by_ else [x]) str.

(** [str.split(sep)] for a one-character separator: a piece per occurrence
    of the separator, plus one; the empty string gives one empty piece. *)
Fixpoint split (sep : N) (str : jsstring) : list jsstring :=
  match str with
  | [] => [[]]
  | c :: rest =>
      if (c =? sep)%N then [] :: split sep rest
      else
        match split sep rest with
        | w :: ws => (c :: w) :: ws
        | [] => [[c]]
        end
  end.

Definition in_range (lo hi c : N) : bool := ((lo <=? c) && (c <=? hi))%N.

(** The class [a-zA-Z0-9]. *)
Definition is_alnum (c : N) : bool :=
  in_range 97 122 c || in_range 65 90 c || in_range 48 57 c.

(** The white space class of regular expressions: the white space and line terminator code units. *)
Definition is_space (c : N) : bool :=
  in_range 9 13 c || (c =? 32)%N || (c =? 0xA0)%N || (c =? 0x1680)%N
  || in_range 0x2000 0x200A c || (c =? 0x2028)%N || (c =? 0x2029)%N
  || (c =? 0x202F)%N || (c =? 0x205F)%N || (c =? 0x3000)%N
  || (c =? 0xFEFF)%N.

(** Decimal rendering of a count (a non-negative integer number). *)
Definition count_toString (n : nat) : jsstring :=
  lit (NilZero.string_of_uint (Nat.to_uint n)).

Definition hex_digit (d : N) : N :=
  if (d <? 10)%N then (48 + d)%N else (87 + d)%N.

(** A [u] escape with four lowercase hexadecimal digits. *)
Definition unicode_escape (c : N) : jsstring :=
  BACKSLASH ++ lit "u" ++ [hex_digit ((c / 4096) mod 16); hex_digit ((c / 256) mod 16);
               hex_digit ((c / 16) mod 16); hex_digit (c mod 16)]%N.

(** [QuoteJSONString] without the enclosing quotes: the characters of a
    string as [JSON.stringify] writes them. *)
Fixpoint JSON_escape (s : jsstring) : jsstring :=
  match s with
  | [] => []
  | c :: rest =>
      if (c =? 8)%N then BACKSLASH ++ lit "b" ++ JSON_escape rest
      else if (c =? 9)%N then BACKSLASH ++ lit "t" ++ JSON_escape rest
      else if (c =? 10)%N then BACKSLASH ++ lit "n" ++ JSON_escape rest
      else if (c =? 12)%N then BACKSLASH ++ lit "f" ++ JSON_escape rest
      else if (c =? 13)%N then BACKSLASH ++ lit "r" ++ JSON_escape rest
      else if (c =? 34)%N then BACKSLASH ++ DQUOTE ++ JSON_escape rest
      else if (c =? 92)%N then BACKSLASH ++ BACKSLASH ++ JSON_escape rest
      else if (c <? 32)%N then unicode_escape c ++ JSON_escape rest
      else if is_high_surrogate c then
        match rest with
        | d :: rest' =>
            if is_low_surrogate d then c :: d :: JSON_escape rest'
            else unicode_escape c ++ JSON_escape rest
        | [] => unicode_escape c
        end
      else if is_low_surrogate c then unicode_escape c ++ JSON_escape rest
      else c :: JSON_escape rest
  end.

Definition QuoteJSONString (s : jsstring) : jsstring :=
  DQUOTE ++ JSON_escape s ++ DQUOTE.

(** ** Values, rows and the statement builder *)

Section Store.

(** Numbers are IEEE 754 doubles in the source.  Nothing below looks inside
    a number that is not a count, so the type, its printing (the [ToString]
    of a number) and its finiteness test are parameters of the model. *)
Variable number : Type.
Variable Number_toString : number -> jsstring.
Variable Number_isFinite : number -> bool.

#[local] Set Warnings "-register-all".

(** The JSON-like fragment of JavaScript values. *)
Inductive JSValue : Type :=
  | JSUndefined
  | JSNull
  | JSBoolean (b : bool)
  | JSNumber (n : number)
  | JSString (s : jsstring)
  | JSArray (elements : list JSValue)
  | JSObject (properties : list (jsstring * JSValue)).

(** A [Record<string, any>]: the own properties in enumeration order. *)
Definition object : Type := list (jsstring * JSValue).

(** [o[key]]. *)
Fixpoint get (o : object) (key : jsstring) : JSValue :=
  match o with
  | [] => JSUndefined
  | (k, v) :: rest => if jsstring_eqb k key then v else get rest key
  end.

(** [Object.keys(o)]. *)
Definition keys (o : object) : list jsstring := map fst o.

(** [a ?? b]. *)
Definition nullish (a b : JSValue) : JSValue :=
  match a with
  | JSUndefined | JSNull => b
  | _ => a
  end.

(** The conversion to string of a template literal [`${value}`]. *)
Fixpoint ToString (value : JSValue) : jsstring :=
  match value with
  | JSUndefined => lit "undefined"
  | JSNull => lit "null"
  | JSBoolean b => if b then lit "true" else lit "false"
  | JSNumber n => Number_toString n
  | JSString s => s
  | JSArray elements =>
      join (lit ",")
        (map (fun e => match e with
                       | JSUndefined | JSNull => []
                       | _ => ToString e
                       end) elements)
  | JSObject _ => lit "[object Object]"
  end.

(** [JSON.stringify(value)]; [None] is the result [undefined]. *)
Fixpoint JSON_stringify (value : JSValue) : option jsstring :=
  match value with
  | JSUndefined => None
  | JSNull => Some (lit "null")
  | JSBoolean b => Some (if b then lit "true" else lit "false")
  | JSNumber n =>
      Some (if Number_isFinite n then Number_toString n else lit "null")
  | JSString s => Some (QuoteJSONString s)
  | JSArray elements =>
      Some (lit "[" ++
            join (lit ",")
              (map (fun e => match JSON_stringify e with
                             | Some s => s
                             | None => lit "null"
                             end) elements)
            ++ lit "]")
  | JSObject properties =>
      Some (lit "{" ++
            join (lit ",")
              (flat_map (fun p => match JSON_stringify (snd p) with
                                  | Some s => [QuoteJSONString (fst p) ++ lit ":" ++ s]
                                  | None => []
                                  end) properties)
            ++ lit "}")
  end.

(** [rowsInterface]. *)
Record rowsInterface : Type := mkRow {
  content : jsstring;
  embedding : list number;
  metadata : object
}.

(** The fields of the class. *)
Record AzionVectorStore : Type := mkStore {
  tableName : jsstring;
  dbName : jsstring;
  expandedMetadata : bool
}.

(** [escapeQuotes(value)].  The parameter is declared a string, but the
    callers pass values of type [any]: only a string has a [replace] method
    that does this, on every other value of the fragment the call
    [value.replace(...)] is a [TypeError]. *)
Definition escapeQuotes (value : JSValue) : result jsstring :=
  match value with
  | JSString s => Ok (replace_char 34 (lit " ") (replace_char 39 (lit " ") s))
  | _ => Throw TypeError
  end.

(** [columnNames[index] === name]. *)
Definition column_is (columnNames : list jsstring) (index : nat)
  (name : jsstring) : bool :=
  match nth_error columnNames index with
  | Some c => jsstring_eqb c name
  | None => false
  end.

Definition createInsertString (this : AzionVectorStore)
  (columnNames : list jsstring) (values : list JSValue) : result jsstring :=
  if expandedMetadata this then
    result_bind
      (mapi_result
         (fun value index =>
            if column_is columnNames index (lit "embedding")
            then Ok (lit "vector('[" ++ ToString value ++ lit "]')")
            else result_bind (escapeQuotes value)
                   (fun escaped => Ok (SQUOTE ++ escaped ++ SQUOTE)))
         0%nat values)
      (fun rendered =>
         Ok (lit "INSERT INTO " ++ tableName this ++ lit " ("
             ++ join (lit ", ") columnNames ++ lit ") " ++ LF
             ++ lit "      VALUES (" ++ join (lit ", ") rendered ++ lit ")"))
  else
    result_bind
      (mapi_result
         (fun value index =>
            if column_is columnNames index (lit "embedding")
            then Ok (lit "vector('[" ++ ToString value ++ lit "]')")
            else if column_is columnNames index (lit "metadata")
            then Ok (SQUOTE ++ ToString value ++ SQUOTE)
            else result_bind (escapeQuotes value)
                   (fun escaped => Ok (SQUOTE ++ escaped ++ SQUOTE)))
         0%nat values)
      (fun rendered =>
         Ok (lit "INSERT INTO " ++ tableName this ++ lit " ("
             ++ join (lit ", ") columnNames ++ lit ") " ++ LF
             ++ lit "    VALUES (" ++ join (lit ", ") rendered ++ lit ")")).

(** [JSON.stringify(row.metadata)] as a value: a string, or [undefined]. *)
Definition JSON_stringify_value (value : JSValue) : JSValue :=
  match JSON_stringify value with
  | Some s => JSString s
  | None => JSUndefined
  end.

Definition createInsertStatement (this : AzionVectorStore)
  (row : rowsInterface) (metadataColumns : list jsstring) : result jsstring :=
  if expandedMetadata this then
    let columnNames := [lit "content"; lit "embedding"] ++ metadataColumns in
    let values :=
      [JSString (content row); JSArray (map JSNumber (embedding row))]
      ++ map (fun col => nullish (get (metadata row) col) JSNull)
             metadataColumns in
    createInsertString this columnNames values
  else
    let columnNames := [lit "content"; lit "embedding"; lit "metadata"] in
    let values :=
      [JSString (content row); JSArray (map JSNumber (embedding row));
       JSON_stringify_value (JSObject (metadata row))] in
    createInsertString this columnNames values.

(** [array.includes(x)] on an array of strings. *)
Definition includes (l : list jsstring) (x : jsstring) : bool :=
  existsb (jsstring_eqb x) l.

Definition extractMetadataColumns (rows : list rowsInterface)
  : list jsstring :=
  fold_left
    (fun metadataColumns row =>
       fold_left
         (fun cols key => if includes cols key then cols else cols ++ [key])
         (keys (metadata row)) metadataColumns)
    rows [].

Definition createStatements (this : AzionVectorStore)
  (rows : list rowsInterface) : result (list jsstring) :=
  let metadataColumns := extractMetadataColumns rows in
  mapi_result (fun row _ => createInsertStatement this row metadataColumns)
    0%nat rows.

(** ** Filters and the text of the queries *)

Inductive Operator : Type :=
  | OpEq | OpNe | OpGt | OpLtGt | OpLt
  | OpGe | OpLe
  | OpLike | OpNotLike
  | OpIn | OpNotIn
  | OpIsNull | OpIsNotNull.

(** The string literal each member of the union type [Operator] stands for. *)
Definition Operator_text (op : Operator) : jsstring :=
  match op with
  | OpEq => lit "=" | OpNe => lit "!=" | OpGt => lit ">"
  | OpLtGt => lit "<>" | OpLt => lit "<"
  | OpGe => lit ">=" | OpLe => lit "<="
  | OpLike => lit "LIKE" | OpNotLike => lit "NOT LIKE"
  | OpIn => lit "IN" | OpNotIn => lit "NOT IN"
  | OpIsNull => lit "IS NULL" | OpIsNotNull => lit "IS NOT NULL"
  end.

(** [toUpperCase] on the ASCII letters, all that an operator contains. *)
Definition toUpperCase (s : jsstring) : jsstring :=
  map (fun c => if in_range 97 122 c then (c - 32)%N else c) s.

Record AzionFilter : Type := mkFilter {
  operator : Operator;
  column : jsstring;
  value : jsstring
}.

Definition renderFilter (f : AzionFilter) : jsstring :=
  if includes [lit "IN"; lit "NOT IN"] (toUpperCase (Operator_text (operator f)))
  then column f ++ lit " " ++ Operator_text (operator f)
       ++ lit " (" ++ value f ++ lit ")"
  else column f ++ lit " " ++ Operator_text (operator f)
       ++ lit " '" ++ value f ++ lit "'".

(** [generateFilters(filters)]; [None] is an absent argument. *)
Definition generateFilters (filters : option (list AzionFilter)) : jsstring :=
  match filters with
  | None => []
  | Some [] => []
  | Some fs => lit "AND " ++ join (lit " AND ") (map renderFilter fs)
  end.

Definition generateMetadata (this : AzionVectorStore)
  (metadataItems : option (list jsstring)) (searchType : jsstring)
  : jsstring :=
  match metadataItems with
  | None =>
      lit "json_object('searchtype', '" ++ searchType ++ lit "') as metadata"
  | Some items =>
      if expandedMetadata this then
        lit "json_object('searchtype','" ++ searchType ++ lit "',"
        ++ join (lit ", ")
             (map (fun item => lit "'" ++ item ++ lit "', " ++ item) items)
        ++ lit ") as metadata"
      else
        lit "json_patch(json_object("
        ++ join (lit ", ")
             (map (fun item => lit "'" ++ item ++ lit "', metadata->>'$."
                               ++ item ++ lit "'") items)
        ++ lit "), '{" ++ DQUOTE ++ lit "searchtype" ++ DQUOTE ++ lit ":"
        ++ DQUOTE ++ searchType ++ DQUOTE ++ lit "}') as metadata"
  end.

(** The text of [`${vector}`] for an array of numbers. *)
Definition vector_text (vector : list number) : jsstring :=
  ToString (JSArray (map JSNumber vector)).

(** The query text that [similaritySearchVectorWithScore] builds. *)
Definition similarityQuery (this : AzionVectorStore) (vector : list number)
  (k : nat) (filter : option (list AzionFilter))
  (metadataItems : option (list jsstring)) : jsstring :=
  let metadata := generateMetadata this metadataItems (lit "similarity") in
  let filters := generateFilters filter in
  LF ++ lit "      SELECT id, content, " ++ metadata
  ++ lit ", 1 - vector_distance_cos(embedding, vector('["
  ++ vector_text vector ++ lit "]')) as similarity" ++ LF
  ++ lit "      FROM " ++ tableName this ++ lit "  " ++ LF
  ++ lit "      WHERE rowid IN vector_top_k('" ++ tableName this
  ++ lit "_idx', vector('[" ++ vector_text vector ++ lit "]'), "
  ++ count_toString k ++ lit ") " ++ filters.

(** [query.replace(/[^a-zA-Z0-9\s]/g, '').split(' ').join(' OR ')]. *)
Definition matchPattern (query : jsstring) : jsstring :=
  join (lit " OR ")
    (split 32 (List.filter (fun c => is_alnum c || is_space c) query)).

Record fullTextSearchOptions : Type := mkFtsOptions {
  fts_kfts : nat;
  fts_filter : option (list AzionFilter);
  fts_metadataItems : option (list jsstring)
}.

(** The query text that [AzionFullTextSearch] builds. *)
Definition fullTextQuery (this : AzionVectorStore) (query : jsstring)
  (options : fullTextSearchOptions) : jsstring :=
  let metadata :=
    generateMetadata this (fts_metadataItems options) (lit "fulltextsearch") in
  let filters := generateFilters (fts_filter options) in
  LF ++ lit "      SELECT id, content, " ++ metadata
  ++ lit ", rank as bm25_similarity" ++ LF
  ++ lit "      FROM " ++ tableName this ++ lit "_fts  " ++ LF
  ++ lit "      WHERE " ++ tableName this ++ lit "_fts MATCH '"
  ++ matchPattern query ++ lit "' " ++ filters ++ LF
  ++ lit "      LIMIT " ++ count_toString (fts_kfts options).

(** ** Documents and the result merger *)

(** A [Document] as the store reads it: [pageContent] is [None] when the
    object a caller hands over has none, [id] is optional. *)
Record Document : Type := mkDocument {
  pageContent : option jsstring;
  doc_metadata : object;
  id : option jsstring
}.

(** [new Document({pageContent, metadata, id})], the constructor of the
    documents library: a content that is [undefined] becomes the empty
    string, so a constructed document always has a content. *)
Definition new_Document (content : option jsstring) (metadata : object)
  (identifier : option jsstring) : Document :=
  mkDocument
    (Some (match content with Some text => text | None => [] end))
    metadata identifier.

(** [doc.metadata.searchtype === tag]. *)
Definition searchtype_is (doc : Document) (tag : jsstring) : bool :=
  match get (doc_metadata doc) (lit "searchtype") with
  | JSString s => jsstring_eqb s tag
  | _ => false
  end.

Definition id_eqb (a b : option jsstring) : bool :=
  match a, b with
  | Some x, Some y => jsstring_eqb x y
  | None, None => true
  | _, _ => false
  end.

(** The variables of [removeDuplicates] that its loop updates; [seenIds] is
    the set, kept as the list of its elements. *)
Record merger : Type := mkMerger {
  uniqueResults : list (Document * number);
  seenIds : list (option jsstring);
  similarityCount : nat;
  ftsCount : nat
}.

(** [seenIds.has(id)]. *)
Definition has (seen : list (option jsstring)) (x : option jsstring) : bool :=
  existsb (id_eqb x) seen.

(** The body of the loop of [removeDuplicates] before its [break] test. *)
Definition merge_step (kfts kvector : nat) (st : merger)
  (result : Document * number) : merger :=
  if negb (has (seenIds st) (id (fst result))) then
    if searchtype_is (fst result) (lit "similarity")
       && (similarityCount st <? kvector)%nat
    then mkMerger (uniqueResults st ++ [result])
                  (id (fst result) :: seenIds st)
                  (S (similarityCount st)) (ftsCount st)
    else if searchtype_is (fst result) (lit "fulltextsearch")
            && (ftsCount st <? kfts)%nat
    then mkMerger (uniqueResults st ++ [result])
                  (id (fst result) :: seenIds st)
                  (similarityCount st) (S (ftsCount st))
    else st
  else st.

(** The loop, leaving at the [break]. *)
Fixpoint merge_loop (kfts kvector : nat) (results : list (Document * number))
  (st : merger) : merger :=
  match results with
  | [] => st
  | result :: rest =>
      let st' := merge_step kfts kvector st result in
      let maxItems := (kfts + kvector)%nat in
      if (similarityCount st' + ftsCount st' =? maxItems)%nat then st'
      else merge_loop kfts kvector rest st'
  end.

Definition removeDuplicates (results : list (Document * number))
  (kfts kvector : nat) : list (Document * number) :=
  uniqueResults (merge_loop kfts kvector results (mkMerger [] [] 0 0)).

(** ** The database service and the operations that call it *)

(** The error object of a response of the service. *)
Record AzionError : Type := mkError {
  message : jsstring;
  operation : jsstring
}.

(** [AzionDatabaseResponse<T>]: [data] and [error], either may be absent. *)
Record AzionDatabaseResponse (T : Type) : Type := mkResponse {
  data : option T;
  error : option AzionError
}.

(** A [QueryResult], reduced to the two properties the store reads. *)
Record QueryResult : Type := mkQueryResult {
  columns : option (list jsstring);
  rows : option (list (list JSValue))
}.

(** The data of [useQuery] and [getTables]. *)
Record AzionDatabaseQueryResponse : Type := mkQueryData {
  results : option (list QueryResult)
}.

(** The data of [getDatabases], each database reduced to its name. *)
Record AzionDatabaseCollections : Type := mkCollections {
  databases : option (list jsstring)
}.

(** The service is outside the component: a state [DB] of its own and one
    transition per function of the module [azion/sql]. *)
Variable DB : Type.

Record AzionSQL : Type := mkSQL {
  getDatabases : DB -> AzionDatabaseResponse AzionDatabaseCollections * DB;
  createDatabase : jsstring -> DB -> AzionDatabaseResponse unit * DB;
  getTables : jsstring -> DB -> AzionDatabaseResponse AzionDatabaseQueryResponse * DB;
  useExecute : jsstring -> list jsstring -> DB -> AzionDatabaseResponse unit * DB;
  useQuery : jsstring -> list jsstring -> DB
             -> AzionDatabaseResponse AzionDatabaseQueryResponse * DB
}.

Variable sql : AzionSQL.

(** The embeddings provider, the decoding of a result row ([Number(v)] and
    [JSON.parse]) and the number literals are outside the component too. *)
Variable embedQuery : jsstring -> list number.
Variable Number_of : JSValue -> number.
Variable Number_literal : Z -> number.
Variable JSON_parse : jsstring -> result object.

(** The calls to the service, as they are recorded. *)
Inductive call : Type :=
  | GetDatabases
  | CreateDatabase (name : jsstring)
  | GetTables (name : jsstring)
  | UseExecute (name : jsstring) (statements : list jsstring)
  | UseQuery (name : jsstring) (statements : list jsstring).

(** The state an operation runs in: the service and the calls made so far. *)
Record world : Type := mkWorld {
  db : DB;
  calls : list call
}.

(** An operation returns or throws, and leaves a new state either way. *)
Definition M (A : Type) : Type := world -> result A * world.

Definition ret {A : Type} (a : A) : M A := fun w => (Ok a, w).

Definition bind {A B : Type} (m : M A) (k : A -> M B) : M B :=
  fun w =>
    match m w with
    | (Ok a, w') => k a w'
    | (Throw e, w') => (Throw e, w')
    end.

Definition lift {A : Type} (r : result A) : M A := fun w => (r, w).

Notation "x <- m ;; k" := (bind m (fun x => k))
  (at level 100, m at next level, right associativity).
Notation "m ;;; k" := (bind m (fun _ => k))
  (at level 100, right associativity).

Definition invoke {A : Type} (c : call) (f : DB -> A * DB) : M A :=
  fun w => let (a, db') := f (db w) in (Ok a, mkWorld db' (calls w ++ [c])).

(** [errorHandler(error, message)]: throws when there is an error. *)
Definition errorHandler (err : option AzionError) (msg : jsstring)
  : result unit :=
  match err with
  | Some e => Throw (Error (message e))
  | None => Ok tt
  end.

Inductive Mode : Type := ModeVector | ModeHybrid.

(** [tables.includes(name)] on the table names of a listing. *)
Definition includes_name (tables : list JSValue) (name : jsstring) : bool :=
  existsb (fun t => match t with
                    | JSString s => jsstring_eqb s name
                    | _ => false
                    end) tables.

Definition areTablesSetup (this : AzionVectorStore)
  (tables : option (list JSValue)) (mode : Mode) : bool :=
  match tables with
  | None => false
  | Some ts =>
      match mode with
      | ModeHybrid =>
          includes_name ts (tableName this)
          && includes_name ts (tableName this ++ lit "_fts")
      | ModeVector => includes_name ts (tableName this)
      end
  end.

Definition getEmbeddingsDimensions : nat := length (embedQuery (lit "test")).

(** The text interpolated for the metadata columns: [plain] in the
    plain-metadata mode, else the columns each rendered by [f], after a comma
    when there are any. *)
Definition metadata_clause (this : AzionVectorStore) (cols : list jsstring)
  (f : jsstring -> jsstring) (plain : jsstring) : jsstring :=
  if expandedMetadata this then
    match cols with
    | [] => []
    | _ :: _ => lit "," ++ join (lit ",") (map f cols)
    end
  else plain.

Definition createTableStatement (this : AzionVectorStore)
  (cols : list jsstring) : jsstring :=
  LF ++ lit "        CREATE TABLE " ++ tableName this ++ lit " (" ++ LF
  ++ lit "            id INTEGER PRIMARY KEY AUTOINCREMENT," ++ LF
  ++ lit "            content TEXT NOT NULL," ++ LF
  ++ lit "            embedding F32_BLOB("
  ++ count_toString getEmbeddingsDimensions ++ lit ")" ++ LF
  ++ lit "            "
  ++ metadata_clause this cols (fun key => key ++ lit " TEXT")
       (lit ",metadata JSON") ++ LF
  ++ lit "        );".

Definition createIndexStatement (this : AzionVectorStore) : jsstring :=
  LF ++ lit "        CREATE INDEX " ++ tableName this ++ lit "_idx ON "
  ++ tableName this ++ lit " (" ++ LF
  ++ lit "            libsql_vector_idx(embedding, 'metric=cosine', 'compress_neighbors=float8', 'max_neighbors=20')"
  ++ LF ++ lit "        )".

Definition createFtsStatement (this : AzionVectorStore)
  (cols : list jsstring) : jsstring :=
  LF ++ lit "        CREATE VIRTUAL TABLE IF NOT EXISTS " ++ tableName this
  ++ lit "_fts USING fts5(" ++ LF
  ++ lit "            content," ++ LF
  ++ lit "            id UNINDEXED" ++ LF
  ++ lit "            "
  ++ metadata_clause this cols (fun key => key) (lit ",metadata")
  ++ lit "," ++ LF
  ++ lit "            tokenize = 'porter'" ++ LF
  ++ lit "        )".

Definition createTriggersStatements (this : AzionVectorStore)
  (cols : list jsstring) : list jsstring :=
  [ lit "CREATE TRIGGER IF NOT EXISTS insert_into_" ++ tableName this
    ++ lit "_fts " ++ LF
    ++ lit "        AFTER INSERT ON " ++ tableName this ++ LF
    ++ lit "        BEGIN" ++ LF
    ++ lit "            INSERT INTO " ++ tableName this
    ++ lit "_fts(id, content "
    ++ metadata_clause this cols (fun key => key) (lit ",metadata")
    ++ lit ")" ++ LF
    ++ lit "            VALUES(new.id, new.content "
    ++ metadata_clause this cols (fun key => lit "new." ++ key)
         (lit ",new.metadata")
    ++ lit ");" ++ LF
    ++ lit "        END";
    lit "CREATE TRIGGER IF NOT EXISTS update_" ++ tableName this
    ++ lit "_fts " ++ LF
    ++ lit "        AFTER UPDATE ON " ++ tableName this ++ LF
    ++ lit "        BEGIN" ++ LF
    ++ lit "            UPDATE " ++ tableName this ++ lit "_fts " ++ LF
    ++ lit "            SET content = new.content" ++ LF
    ++ lit "            "
    ++ metadata_clause this cols (fun key => key ++ lit " = new." ++ key)
         (lit ",metadata = new.metadata") ++ LF
    ++ lit "            WHERE id = old.id;" ++ LF
    ++ lit "        END";
    lit "CREATE TRIGGER IF NOT EXISTS delete_" ++ tableName this
    ++ lit "_fts" ++ LF
    ++ lit "        AFTER DELETE ON " ++ tableName this ++ LF
    ++ lit "        BEGIN" ++ LF
    ++ lit "            DELETE FROM " ++ tableName this
    ++ lit "_fts WHERE id = old.id;" ++ LF
    ++ lit "        END" ].

(** The statement batch of [setupTables]: all of it in hybrid mode, its
    first two statements in vector mode. *)
Definition allStatements (this : AzionVectorStore) (mode : Mode)
  (cols : list jsstring) : list jsstring :=
  let all :=
    [createTableStatement this cols; createIndexStatement this;
     createFtsStatement this cols] ++ createTriggersStatements this cols in
  match mode with
  | ModeVector => firstn 2 all
  | ModeHybrid => all
  end.

Definition setupTables (this : AzionVectorStore) (mode : Mode)
  (cols : list jsstring) : M (AzionDatabaseResponse jsstring) :=
  let batch := allStatements this mode cols in
  r <- invoke (UseExecute (dbName this) batch)
         (useExecute sql (dbName this) batch) ;;
  lift (errorHandler (error r) (lit "Error setting up tables")) ;;;
  ret (mkResponse (Some (lit "Database setup successfully")) None).

(** [dataTables?.results?.[0]?.rows?.map(row => row[1])]. *)
Definition listed_tables
  (r : AzionDatabaseResponse AzionDatabaseQueryResponse)
  : option (list JSValue) :=
  match data r with
  | Some d =>
      match results d with
      | Some (first :: _) =>
          match rows first with
          | Some rs => Some (map (fun row => nth 1 row JSUndefined) rs)
          | None => None
          end
      | _ => None
      end
  | None => None
  end.

Definition handleTables (this : AzionVectorStore) (mode : Mode)
  (cols : list jsstring) : M unit :=
  r <- invoke (GetTables (dbName this)) (getTables sql (dbName this)) ;;
  lift (errorHandler (error r) (lit "Error getting tables")) ;;;
  let tables := listed_tables r in
  if negb (areTablesSetup this tables mode) then
    s <- setupTables this mode cols ;;
    lift (errorHandler (error s) (lit "Error setting up tables"))
  else ret tt.

Definition handleDatabase (this : AzionVectorStore) : M unit :=
  r <- invoke GetDatabases (getDatabases sql) ;;
  lift (errorHandler (error r) (lit "Error getting databases")) ;;;
  let found :=
    match data r with
    | Some d =>
        match databases d with
        | Some names => includes names (dbName this)
        | None => false
        end
    | None => false
    end in
  if negb found then
    c <- invoke (CreateDatabase (dbName this))
           (createDatabase sql (dbName this)) ;;
    lift (errorHandler (error c) (lit "Error creating database"))
  else ret tt.

Record AzionSetupOptions : Type := mkSetupOptions {
  setup_columns : list jsstring;
  setup_mode : Mode
}.

(** [setupDatabase(setupOptions)].  The settling delay between the two
    steps passes no information and is not represented. *)
Definition setupDatabase (this : AzionVectorStore)
  (setupOptions : AzionSetupOptions) : M unit :=
  handleDatabase this ;;;
  handleTables this (setup_mode setupOptions) (setup_columns setupOptions).

(** ** The search operations *)

Record SearchEmbeddingsResponse : Type := mkSearchResponse {
  resp_id : number;
  resp_content : jsstring;
  resp_similarity : number;
  resp_metadata : object
}.

(** The callback of [queryResult.rows.map] in [mapRows]; a missing column
    of the row reads as [undefined], and [JSON.parse] may throw. *)
Definition mapRow (row : list JSValue) : result SearchEmbeddingsResponse :=
  result_bind (JSON_parse (ToString (nth 2 row JSUndefined)))
    (fun parsed =>
       Ok (mkSearchResponse (Number_of (nth 0 row JSUndefined))
             (ToString (nth 1 row JSUndefined))
             (Number_of (nth 3 row JSUndefined))
             parsed)).

Definition mapRows (rs : option (list QueryResult))
  : result (list SearchEmbeddingsResponse) :=
  match rs with
  | None => Ok []
  | Some queryResults =>
      result_bind
        (mapi_result
           (fun queryResult _ =>
              match rows queryResult, columns queryResult with
              | Some rws, Some _ => mapi_result (fun row _ => mapRow row) 0%nat rws
              | _, _ => Ok []
              end)
           0%nat queryResults)
        (fun mapped => Ok (concat mapped))
  end.

Definition mapSearches (searches : list SearchEmbeddingsResponse)
  : list (Document * number) :=
  map (fun resp =>
         (mkDocument (Some (resp_content resp)) (resp_metadata resp)
            (Some (Number_toString (resp_id resp))),
          resp_similarity resp))
      searches.

(** The error of a response as a value: the object, or [undefined]. *)
Definition error_value (err : option AzionError) : JSValue :=
  match err with
  | Some e => JSObject [(lit "message", JSString (message e));
                        (lit "operation", JSString (operation e))]
  | None => JSUndefined
  end.

Definition searchError (err : option AzionError) : list (Document * number) :=
  [ (new_Document (JSON_stringify (error_value err))
       [(lit "searchtype", JSString (lit "error"))] None,
     Number_literal 0) ].

Definition similaritySearchVectorWithScore (this : AzionVectorStore)
  (vector : list number) (k : nat) (filter : option (list AzionFilter))
  (metadataItems : option (list jsstring)) : M (list (Document * number)) :=
  let query := similarityQuery this vector k filter metadataItems in
  r <- invoke (UseQuery (dbName this) [query])
         (useQuery sql (dbName this) [query]) ;;
  match data r with
  | None =>
      lift (errorHandler (error r) (lit "Error performing similarity search")) ;;;
      ret (searchError (error r))
  | Some d =>
      searches <- lift (mapRows (results d)) ;;
      ret (mapSearches searches)
  end.

Definition AzionFullTextSearch (this : AzionVectorStore) (query : jsstring)
  (options : fullTextSearchOptions) : M (list (Document * number)) :=
  let text := fullTextQuery this query options in
  r <- invoke (UseQuery (dbName this) [text])
         (useQuery sql (dbName this) [text]) ;;
  match data r with
  | None =>
      lift (errorHandler (error r) (lit "Error performing full-text search")) ;;;
      ret (searchError (error r))
  | Some d =>
      searches <- lift (mapRows (results d)) ;;
      ret (mapSearches searches)
  end.

Record hybridSearchOptions : Type := mkHybridOptions {
  hyb_kfts : nat;
  hyb_kvector : nat;
  hyb_filter : option (list AzionFilter);
  hyb_metadataItems : option (list jsstring)
}.

Definition AzionHybridSearch (this : AzionVectorStore) (query : jsstring)
  (options : hybridSearchOptions) : M (list (Document * number)) :=
  let vector := embedQuery query in
  ftsResults <-
    AzionFullTextSearch this query
      (mkFtsOptions (hyb_kfts options) (hyb_filter options)
         (hyb_metadataItems options)) ;;
  vectorResults <-
    similaritySearchVectorWithScore this vector (hyb_kvector options)
      (hyb_filter options) (hyb_metadataItems options) ;;
  ret (removeDuplicates (ftsResults ++ vectorResults)
         (hyb_kfts options) (hyb_kvector options)).

Record similaritySearchOptions : Type := mkSimilarityOptions {
  sim_kvector : nat;
  sim_filter : option (list AzionFilter);
  sim_metadataItems : option (list jsstring)
}.

Definition AzionSimilaritySearch (this : AzionVectorStore) (query : jsstring)
  (options : similaritySearchOptions) : M (list (Document * number)) :=
  let vector := embedQuery query in
  similaritySearchVectorWithScore this vector (sim_kvector options)
    (sim_filter options) (sim_metadataItems options).

End Store.

Arguments JSUndefined {number}.
Arguments JSNull {number}.
Arguments JSBoolean {number} b.
Arguments JSString {number} s.
Arguments mkDocument {number} pageContent doc_metadata id.
Arguments mkResponse {T} data error.
Arguments mkQueryData {number} results.
Arguments mkQueryResult {number} columns rows.
Arguments mkWorld {DB} db calls.
Arguments GetDatabases : clear implicits.

(** ** Reference definitions, in the words of the specification *)

(** Every single-quote and double-quote character replaced by a space. *)
Definition strip_quotes (s : jsstring) : jsstring :=
  map (fun c => if (c =? 39)%N || (c =? 34)%N then 32%N else c) s.

(** A chunk of two statements or more is within 838861 bytes: 838860, the
    largest byte count not above [maxMbSize], and the one separator that the
    loop of [createInsertChunks] leaves out of its sum. *)
Definition chunk_size_ok (c : list jsstring) : Prop :=
  (length c <= 1)%nat \/ getStringBytes (join (lit " ") c) <= 838861.

Section MergeDefinitions.

Variable number : Type.

(** The identifier of a result and whether it carries a tag. *)
Definition result_id (r : Document number * number) : option jsstring :=
  id (fst r).

Definition tagged (tag : jsstring) (r : Document number * number) : bool :=
  searchtype_is (fst r) tag.

(** What the loop of [removeDuplicates] keeps true of its variables. *)
Definition merge_inv (kfts kvector : nat) (st : merger number) : Prop :=
  (similarityCount st <= kvector)%nat
  /\ (ftsCount st <= kfts)%nat
  /\ length (List.filter (tagged (lit "similarity")) (uniqueResults st))
     = similarityCount st
  /\ length (List.filter (tagged (lit "fulltextsearch")) (uniqueResults st))
     = ftsCount st
  /\ length (uniqueResults st) = (similarityCount st + ftsCount st)%nat
  /\ seenIds st = rev (map result_id (uniqueResults st))
  /\ NoDup (seenIds st).

(** The results of the worked example of the merger: a document that has
    only its tag and its identifier. *)
Definition tagged_result (tag : jsstring) (score : number)
  (identifier : jsstring) : Document number * number :=
  (mkDocument (Some identifier) [(lit "searchtype", JSString tag)]
     (Some identifier), score).

Definition example_fulltext (score : number)
  : list (Document number * number) :=
  map (tagged_result (lit "fulltextsearch") score)
    [lit "1"; lit "2"; lit "3"].

Definition example_similarity (score : number)
  : list (Document number * number) :=
  map (tagged_result (lit "similarity") score)
    [lit "2"; lit "4"; lit "5"].

End MergeDefinitions.

(** ** Traces, and two instances of the service for the examples *)

Definition is_UseExecute (c : call) : bool :=
  match c with
  | UseExecute _ _ => true
  | _ => false
  end.

(** No statement batch is executed in a sequence of calls. *)
Definition no_execute (trace : list call) : Prop :=
  Forall (fun c => is_UseExecute c = false) trace.

(** The listing of the service in state [d] reports the tables that
    [mode] requires for the store. *)
Definition tables_reported (number DB : Type) (sql : AzionSQL number DB)
  (this : AzionVectorStore) (mode : Mode) (d : DB) : Prop :=
  areTablesSetup this (listed_tables (fst (getTables sql (dbName this) d))) mode
  = true.

(** A service whose every call fails with the error [e]. *)
Definition failing_sql (number : Type) (e : AzionError)
  : AzionSQL number unit :=
  @mkSQL number unit
    (fun d => (mkResponse None (Some e), d))
    (fun _ d => (mkResponse None (Some e), d))
    (fun _ d => (mkResponse None (Some e), d))
    (fun _ _ d => (mkResponse None (Some e), d))
    (fun _ _ d => (mkResponse None (Some e), d)).

(** A service that keeps the names of its databases and tables in memory. *)
Record memory : Type := mkMemory {
  memory_databases : list jsstring;
  memory_tables : list jsstring
}.

Fixpoint skip_spaces (s : jsstring) : jsstring :=
  match s with
  | c :: rest => if is_space c then skip_spaces rest else s
  | [] => []
  end.

Fixpoint strip_prefix (prefix s : jsstring) : option jsstring :=
  match prefix, s with
  | [], _ => Some s
  | x :: prefix', y :: s' =>
      if (x =? y)%N then strip_prefix prefix' s' else None
  | _ :: _, [] => None
  end.

Fixpoint first_word (s : jsstring) : jsstring :=
  match s with
  | c :: rest => if is_space c then [] else c :: first_word rest
  | [] => []
  end.

(** The table that a table-creating statement names, if it is one. *)
Definition created_table (statement : jsstring) : list jsstring :=
  let text := skip_spaces statement in
  match strip_prefix (lit "CREATE TABLE ") text with
  | Some rest => [first_word rest]
  | None =>
      match strip_prefix (lit "CREATE VIRTUAL TABLE IF NOT EXISTS ") text with
      | Some rest => [first_word rest]
      | None => []
      end
  end.

Definition memory_sql (number : Type) : AzionSQL number memory :=
  @mkSQL number memory
    (fun m =>
       (mkResponse (Some (mkCollections (Some (memory_databases m)))) None, m))
    (fun name m =>
       (mkResponse (Some tt) None,
        mkMemory (memory_databases m ++ [name]) (memory_tables m)))
    (fun _ m =>
       (mkResponse
          (Some (mkQueryData
                   (Some [mkQueryResult
                            (Some [lit "schema"; lit "name"])
                            (Some (map (fun t => [JSString (lit "table");
                                                  JSString t])
                                     (memory_tables m)))])))
          None, m))
    (fun _ statements m =>
       (mkResponse (Some tt) None,
        mkMemory (memory_databases m)
          (memory_tables m ++ flat_map created_table statements)))
    (fun _ _ m => (mkResponse (Some (mkQueryData (Some []))) None, m)).

(** The pieces of a text between the characters that [p] selects. *)
Fixpoint split_by (p : N -> bool) (str : jsstring) : list jsstring :=
  match str with
  | [] => [[]]
  | c :: rest =>
      if p c then [] :: split_by p rest
      else
        match split_by p rest with
        | w :: ws => (c :: w) :: ws
        | [] => [[c]]
        end
  end.

(** The words of a text: its maximal runs of characters that are not white
    space. *)
Definition words (str : jsstring) : list jsstring :=
  List.filter (fun w => negb (jsstring_eqb w [])) (split_by is_space str).

(** The full-text pattern in the words of the specification: the characters
    that are neither alphanumeric nor white space are stripped, and the
    words that remain are joined with [" OR "]. *)
Definition spec_matchPattern (query : jsstring) : jsstring :=
  join (lit " OR ")
    (words (List.filter (fun c => is_alnum c || is_space c) query)).

(** A text whose only white space is the space character, with exactly one
    space between two words and none at either end. *)
Definition single_spaced (str : jsstring) : Prop :=
  (forall c, In c str -> is_space c = true -> c = 32%N)
  /\ Forall (fun w => w <> []) (split 32 str).

(** Integers as the numbers of the examples, printed in decimal. *)
Definition Z_toString (z : Z) : jsstring :=
  lit (NilZero.string_of_int (Z.to_int z)).

(** ** The write path *)

Section WritePath.

Variable number : Type.
Variable Number_toString : number -> jsstring.
Variable Number_isFinite : number -> bool.
Variable DB : Type.
Variable sql : AzionSQL number DB.

(** The batch call of the embeddings provider; a text is [None] when the
    document it comes from has no content. *)
Variable embedDocuments : list (option jsstring) -> list (list number).

(** [mapRowsFromDocuments(vectors, documents)]: a row per vector, with the
    document at the same index; a vector without a document is a
    [TypeError] ([documents[idx]] is [undefined]).  The type [Document]
    declares [pageContent] a string; for a document without content, which
    that type excludes, the [TypeError] that the first use of the row's
    content would be ([escapeQuotes] on [undefined]) is raised here, where
    the row is built: [addVectors] makes no call to the service before its
    statements are all generated, so it behaves the same either way. *)
Definition mapRowsFromDocuments (vectors : list (list number))
  (documents : list (Document number)) : result (list (rowsInterface number)) :=
  mapi_result
    (fun embedding idx =>
       match nth_error documents idx with
       | None => Throw TypeError
       | Some doc =>
           match pageContent doc with
           | Some text => Ok (mkRow text embedding (doc_metadata doc))
           | None => Throw TypeError
           end
       end)
    0%nat vectors.

(** [insertChunks(chunks)]: one [useExecute] call per chunk, in order; the
    first error is thrown and ends the loop. *)
Fixpoint insertChunks (this : AzionVectorStore) (chunks : list (list jsstring))
  : M DB unit :=
  match chunks with
  | [] => ret tt
  | chunk :: rest =>
      bind (invoke (UseExecute (dbName this) chunk)
              (useExecute sql (dbName this) chunk))
        (fun r =>
           bind (lift (errorHandler (error r) (lit "Error inserting chunk")))
             (fun _ => insertChunks this rest))
  end.

(** [addVectors(vectors, documents, options)]; the argument [options] is
    not read.  [None] is fuel exhaustion in [createInsertChunks]. *)
Definition addVectors (fuel : nat) (this : AzionVectorStore)
  (vectors : list (list number)) (documents : list (Document number))
  (options : option (list jsstring)) (w : world DB)
  : option (result unit * world DB) :=
  match mapRowsFromDocuments vectors documents with
  | Throw e => Some (Throw e, w)
  | Ok rows =>
      match createStatements Number_toString Number_isFinite this rows with
      | Throw e => Some (Throw e, w)
      | Ok insertStatements =>
          match createInsertChunks fuel insertStatements with
          | None => None
          | Some chunks => Some (insertChunks this chunks w)
          end
      end
  end.

(** [addDocuments(documents, options)]. *)
Definition addDocuments (fuel : nat) (this : AzionVectorStore)
  (documents : list (Document number)) (options : option (list jsstring))
  (w : world DB) : option (result unit * world DB) :=
  let texts := map (fun doc => pageContent doc) documents in
  let embeddings := embedDocuments texts in
  addVectors fuel this embeddings documents options w.

End WritePath.

(** ** More reference definitions *)

(** [l1] is [l2] with some elements left out, the others in their order. *)
Inductive sublist (A : Type) : list A -> list A -> Prop :=
  | sublist_nil : sublist [] []
  | sublist_skip : forall x l1 l2, sublist l1 l2 -> sublist l1 (x :: l2)
  | sublist_keep : forall x l1 l2, sublist l1 l2 -> sublist (x :: l1) (x :: l2).

(** A service whose every call answers with neither data nor error. *)
Definition silent_sql (number : Type) : AzionSQL number unit :=
  @mkSQL number unit
    (fun d => (mkResponse None None, d))
    (fun _ d => (mkResponse None None, d))
    (fun _ d => (mkResponse None None, d))
    (fun _ _ d => (mkResponse None None, d))
    (fun _ _ d => (mkResponse None None, d)).

(** A service whose every query answers with one result made of the given
    rows, and whose other calls answer with neither data nor error. *)
Definition fixed_sql (number : Type) (answer : list (list (JSValue number)))
  : AzionSQL number unit :=
  @mkSQL number unit
    (fun d => (mkResponse None None, d))
    (fun _ d => (mkResponse None None, d))
    (fun _ d => (mkResponse None None, d))
    (fun _ _ d => (mkResponse None None, d))
    (fun _ _ d =>
       (mkResponse
          (Some (mkQueryData
                   (Some [mkQueryResult
                            (Some [lit "id"; lit "content"; lit "metadata";
                                   lit "similarity"])
                            (Some answer)])))
          None, d)).

(** [Number(v)] on the integers of the examples; they apply it to number
    values only. *)
Definition Z_of_value (v : JSValue Z) : Z :=
  match v with
  | JSNumber n => n
  | _ => 0
  end.

(** The rows that [mapRows] decodes: those of the query results that have
    both [rows] and [columns], in order. *)
Definition result_rows (number : Type)
  (rs : option (list (QueryResult number))) : list (list (JSValue number)) :=
  match rs with
  | None => []
  | Some queryResults =>
      flat_map (fun queryResult =>
                  match rows queryResult, columns queryResult with
                  | Some rws, Some _ => rws
                  | _, _ => []
                  end) queryResults
  end.

(** * Properties *)

(** *** Strings and byte sizes *)

Lemma jsstring_eqb_eq (a b : jsstring) : jsstring_eqb a b = true <-> a = b.
Proof.
  revert b. induction a as [|x a IH]; intros [|y b]; cbn [jsstring_eqb];
    try (split; [discriminate | discriminate]); [tauto|].
  rewrite andb_true_iff, N.eqb_eq, IH. split.
  - intros [-> ->]. reflexivity.
  - intro H. injection H as -> ->. split; reflexivity.
Qed.

Lemma jsstring_eqb_refl (a : jsstring) : jsstring_eqb a a = true.
Proof. now apply jsstring_eqb_eq. Qed.

Lemma utf8_length_nonneg (s : jsstring) : 0 <= utf8_length s.
Proof.
  assert (H : forall n s, (length s <= n)%nat -> 0 <= utf8_length s).
  { intro n. induction n as [|n IH]; intros [|c rest] Hlen;
      cbn [length] in Hlen; try lia; cbn [utf8_length]; try lia.
    assert (Hr : 0 <= utf8_length rest) by (apply IH; lia).
    destruct (c <? 128)%N; [lia|].
    destruct (c <? 2048)%N; [lia|].
    destruct (is_high_surrogate c); [|lia].
    destruct rest as [|d rest']; [lia|].
    destruct (is_low_surrogate d); [|lia].
    assert (0 <= utf8_length rest') by (apply IH; cbn [length] in Hlen; lia).
    lia. }
  eapply H. reflexivity.
Qed.

(** A separator that is not a surrogate cuts the string for the encoder:
    the sizes of the two sides add up. *)
Lemma utf8_length_app_space (a b : jsstring) :
  utf8_length (a ++ 32%N :: b) = utf8_length a + 1 + utf8_length b.
Proof.
  assert (H : forall n a, (length a <= n)%nat ->
            utf8_length (a ++ 32%N :: b) = utf8_length a + 1 + utf8_length b).
  { intro n. induction n as [|n IH]; intros [|c rest] Hlen; simpl in Hlen; try lia.
    - reflexivity.
    - reflexivity.
    - assert (Hr : utf8_length (rest ++ 32%N :: b)
                   = utf8_length rest + 1 + utf8_length b) by (apply IH; lia).
      cbn [app utf8_length].
      destruct (c <? 128)%N; [lia|].
      destruct (c <? 2048)%N; [lia|].
      destruct (is_high_surrogate c); [|lia].
      destruct rest as [|d rest']; cbn [app] in *.
      + replace (is_low_surrogate 32) with false by reflexivity.
        change (utf8_length []) with 0 in Hr. lia.
      + destruct (is_low_surrogate d); [|lia].
        rewrite IH by (cbn [length] in Hlen; lia). lia. }
  eapply H. reflexivity.
Qed.

Lemma utf8_length_repeat_ascii (c : N) (n : nat) :
  (c <? 128)%N = true -> utf8_length (repeat c n) = Z.of_nat n.
Proof.
  intro Hc. induction n as [|n IH].
  - reflexivity.
  - cbn [repeat utf8_length]. rewrite Hc, IH. lia.
Qed.

Lemma over_maxMbSize (z : Z) : Qlt_bool maxMbSize (inject_Z z) = (838860 <? z).
Proof.
  unfold Qlt_bool, Qle_bool, maxMbSize. cbn.
  destruct (z * 10 <=? 8388608) eqn:E1; destruct (838860 <? z) eqn:E2;
    cbn; try reflexivity; lia.
Qed.

Lemma under_maxMbSize (z : Z) : Qlt_bool (inject_Z z) maxMbSize = (z <=? 838860).
Proof.
  unfold Qlt_bool, Qle_bool, maxMbSize. cbn.
  destruct (8388608 <=? z * 10) eqn:E1; destruct (z <=? 838860) eqn:E2;
    cbn; try reflexivity; lia.
Qed.

(** *** The loop of the chunker *)

Lemma chunk_step_originalStatements (st : chunker) (s : jsstring) :
  originalStatements (chunk_step st s) = tl (originalStatements st).
Proof.
  unfold chunk_step.
  destruct (Qlt_bool _ _ || _); reflexivity.
Qed.

Lemma chunk_fold_originalStatements (l : list jsstring) (st : chunker) :
  originalStatements (fold_left chunk_step l st)
  = skipn (length l) (originalStatements st).
Proof.
  revert st. induction l as [|s l IH]; intro st.
  - reflexivity.
  - cbn [fold_left length]. rewrite IH, chunk_step_originalStatements.
    destruct (originalStatements st); [now rewrite skipn_nil | reflexivity].
Qed.

Lemma chunk_for_of_done (st : chunker) :
  originalStatements (chunk_for_of st) = [].
Proof.
  unfold chunk_for_of. rewrite chunk_fold_originalStatements.
  apply skipn_all.
Qed.

(** One round of the [while] loop is enough, whatever the statements. *)
Lemma chunk_while_returns (fuel : nat) (st : chunker) :
  chunk_while (S fuel) st
  = Some (if 0 <? Z.of_nat (length (originalStatements st))
          then chunk_for_of st else st).
Proof.
  cbn [chunk_while].
  destruct (0 <? Z.of_nat (length (originalStatements st))); [|reflexivity].
  destruct fuel; cbn [chunk_while]; now rewrite chunk_for_of_done.
Qed.

Lemma createInsertChunks_returns (fuel : nat) (statements : list jsstring) :
  createInsertChunks (S fuel) statements = Some (chunked statements).
Proof.
  unfold createInsertChunks, chunked.
  destruct (Qlt_bool _ _ && _) eqn:E; [reflexivity|].
  rewrite chunk_while_returns. cbn [originalStatements option_map].
  destruct statements as [|s l]; [|reflexivity].
  discriminate E.
Qed.

Lemma join_snoc (sep : jsstring) (l : list jsstring) (s : jsstring) :
  join sep (l ++ [s])
  = match l with [] => s | _ :: _ => join sep l ++ sep ++ s end.
Proof.
  induction l as [|x l IH]; [reflexivity|].
  cbn [app join]. destruct l as [|y l]; [reflexivity|].
  cbn [app] in *. rewrite IH. now rewrite <- !app_assoc.
Qed.

Lemma getStringBytes_join_snoc (l : list jsstring) (s : jsstring) :
  getStringBytes (join (lit " ") (l ++ [s]))
  = match l with
    | [] => getStringBytes s
    | _ :: _ => getStringBytes (join (lit " ") l) + 1 + getStringBytes s
    end.
Proof.
  rewrite join_snoc. destruct l as [|x l]; [reflexivity|].
  unfold getStringBytes. change (lit " ") with [32%N].
  cbn [app]. apply utf8_length_app_space.
Qed.

(** The first statement, when it fits and is not the only one, opens the
    first chunk. *)
Lemma chunk_step_first (a : jsstring) (next : jsstring)
  (rest : list jsstring) :
  getStringBytes a <= 838860 ->
  chunk_step (mkChunker [] [] (a :: next :: rest)) a
  = mkChunker [] [a] (next :: rest).
Proof.
  intro Hfit. unfold chunk_step.
  cbn [array insertChunk originalStatements join length tl app].
  rewrite over_maxMbSize. change (getStringBytes []) with 0.
  replace (838860 <? getStringBytes a + 0) with false
    by (symmetry; apply Z.ltb_ge; lia).
  replace (maxChunkLength <? Z.of_nat 0 + 1) with false by reflexivity.
  replace (Z.of_nat (S (S (length rest))) =? 1) with false
    by (symmetry; apply Z.eqb_neq; lia).
  reflexivity.
Qed.

Lemma getStringBytes_join_pair (a b : jsstring) :
  getStringBytes (join (lit " ") [a; b])
  = getStringBytes a + 1 + getStringBytes b.
Proof.
  change [a; b] with ([a] ++ [b]). now rewrite getStringBytes_join_snoc.
Qed.

(** Two statements whose sizes add up to 838860 bytes stay together, and
    the separator makes the chunk one byte longer than that. *)
Lemma chunked_pair_at_limit (a b : jsstring) :
  getStringBytes a + getStringBytes b = 838860 ->
  chunked [a; b] = [[a; b]]
  /\ getStringBytes (join (lit " ") [a; b]) = 838861.
Proof.
  intro Hsum.
  assert (Ha := utf8_length_nonneg a). assert (Hb := utf8_length_nonneg b).
  unfold getStringBytes in Ha, Hb; fold (getStringBytes a) in Ha;
    fold (getStringBytes b) in Hb.
  assert (Hjoin : getStringBytes (join (lit " ") [a; b]) = 838861)
    by (rewrite getStringBytes_join_pair; lia).
  split; [|exact Hjoin].
  unfold chunked. rewrite Hjoin, under_maxMbSize.
  replace (838861 <=? 838860) with false by reflexivity. cbn [andb].
  unfold chunk_for_of. cbn [originalStatements fold_left].
  rewrite chunk_step_first by lia.
  unfold chunk_step.
  cbn [array insertChunk originalStatements join length tl app].
  rewrite over_maxMbSize.
  replace (838860 <? getStringBytes b + getStringBytes a) with false
    by (symmetry; apply Z.ltb_ge; lia).
  reflexivity.
Qed.

(** Two statements that do not fit together: the first chunk is closed at
    the second statement, which is the last, and nothing closes the chunk
    that the second statement opens. *)
Lemma chunked_pair_overflow (a b : jsstring) :
  getStringBytes a <= 838860 ->
  838860 < getStringBytes a + getStringBytes b ->
  chunked [a; b] = [[a]].
Proof.
  intros Hfit Hover.
  unfold chunked. rewrite getStringBytes_join_pair, under_maxMbSize.
  replace (getStringBytes a + 1 + getStringBytes b <=? 838860) with false
    by (symmetry; apply Z.leb_gt; lia).
  cbn [andb].
  unfold chunk_for_of. cbn [originalStatements fold_left].
  rewrite chunk_step_first by lia.
  unfold chunk_step.
  cbn [array insertChunk originalStatements join length tl app].
  rewrite over_maxMbSize.
  replace (838860 <? getStringBytes b + getStringBytes a) with true
    by (symmetry; apply Z.ltb_lt; lia).
  reflexivity.
Qed.

(** What the loop has put into chunks once it has walked [l], the
    statements still to come when it starts in [st]: all of them, or all but
    the last one. *)
Lemma chunk_fold_concat (l : list jsstring) (st : chunker) :
  originalStatements st = l ->
  l <> [] ->
  let done := concat (insertChunk st) ++ array st in
  concat (insertChunk (fold_left chunk_step l st)) = done ++ l
  \/ concat (insertChunk (fold_left chunk_step l st)) = done ++ removelast l.
Proof.
  revert st. induction l as [|s l IH]; intros st Horig Hne; [congruence|].
  cbn zeta. cbn [fold_left].
  assert (Hnext := chunk_step_originalStatements st s).
  rewrite Horig in Hnext. cbn [tl] in Hnext.
  destruct l as [|s' l].
  - (* [s] is the last statement *)
    cbn [fold_left]. unfold chunk_step. rewrite Horig.
    destruct (Qlt_bool _ _ || _); cbn [insertChunk length Z.of_nat Pos.of_succ_nat Z.eqb Pos.eqb removelast].
    + right. rewrite concat_app. cbn [concat]. now rewrite !app_nil_r.
    + left. rewrite concat_app. cbn [concat]. now rewrite !app_nil_r, app_assoc.
  - specialize (IH (chunk_step st s) Hnext ltac:(discriminate)).
    cbn zeta in IH.
    assert (Hdone : concat (insertChunk (chunk_step st s)) ++ array (chunk_step st s)
                    = (concat (insertChunk st) ++ array st) ++ [s]).
    { unfold chunk_step. rewrite Horig.
      destruct (Qlt_bool _ _ || _); cbn [insertChunk array].
      - rewrite concat_app. cbn [concat]. now rewrite app_nil_r.
      - replace (Z.of_nat (length (s :: s' :: l)) =? 1) with false
          by (symmetry; apply Z.eqb_neq; cbn [length]; lia).
        now rewrite app_assoc. }
    rewrite Hdone in IH.
    destruct IH as [IH | IH]; [left | right]; rewrite IH, <- app_assoc;
      reflexivity.
Qed.

(** The chunks, put end to end, are the input or the input without its
    last statement. *)
Lemma chunked_concat (statements : list jsstring) :
  concat (chunked statements) = statements
  \/ concat (chunked statements) = removelast statements.
Proof.
  unfold chunked.
  destruct (Qlt_bool _ _ && _) eqn:E.
  - left. cbn [concat]. apply app_nil_r.
  - destruct statements as [|s l]; [discriminate E|].
    apply (@chunk_fold_concat (s :: l) (mkChunker [] [] (s :: l)));
      [reflexivity | discriminate].
Qed.

(** Every chunk, closed or open, holds at most 1000 statements. *)
Lemma chunk_step_count (st : chunker) (s : jsstring) :
  Forall (fun c => (length c <= 1000)%nat) (insertChunk st) ->
  (length (array st) <= 1000)%nat ->
  Forall (fun c => (length c <= 1000)%nat) (insertChunk (chunk_step st s))
  /\ (length (array (chunk_step st s)) <= 1000)%nat.
Proof.
  intros Hic Harr. unfold chunk_step.
  destruct (Qlt_bool _ _) eqn:Esize; cbn [orb].
  - cbn [insertChunk array length]. split; [|lia].
    apply Forall_app. split; [assumption | now constructor].
  - destruct (maxChunkLength <? _) eqn:Ecount.
    + cbn [insertChunk array length]. split; [|lia].
      apply Forall_app. split; [assumption | now constructor].
    + apply Z.ltb_ge in Ecount. unfold maxChunkLength in Ecount.
      assert (Hlen : (length (array st ++ [s]) <= 1000)%nat)
        by (rewrite length_app; cbn [length]; lia).
      cbn [insertChunk array]. split; [|exact Hlen].
      destruct (_ =? 1); [|assumption].
      apply Forall_app. split; [assumption | now constructor].
Qed.

Lemma chunk_fold_count (l : list jsstring) (st : chunker) :
  Forall (fun c => (length c <= 1000)%nat) (insertChunk st) ->
  (length (array st) <= 1000)%nat ->
  Forall (fun c => (length c <= 1000)%nat)
    (insertChunk (fold_left chunk_step l st)).
Proof.
  revert st. induction l as [|s l IH]; intros st Hic Harr; [assumption|].
  cbn [fold_left]. destruct (@chunk_step_count st s Hic Harr) as [H1 H2].
  now apply IH.
Qed.

Lemma chunked_count (statements chunk : list jsstring) :
  In chunk (chunked statements) -> (length chunk <= 1000)%nat.
Proof.
  unfold chunked.
  destruct (Qlt_bool _ _ && _) eqn:E.
  - intros [<- | []]. apply andb_prop in E. destruct E as [_ E].
    apply Z.ltb_lt in E. unfold maxChunkLength in E. lia.
  - intro Hin.
    assert (H := @chunk_fold_count statements (mkChunker [] [] statements)
                   (Forall_nil _) ltac:(cbn; lia)).
    rewrite Forall_forall in H. now apply H.
Qed.

Lemma chunk_step_size (st : chunker) (s : jsstring) :
  Forall chunk_size_ok (insertChunk st) ->
  chunk_size_ok (array st) ->
  Forall chunk_size_ok (insertChunk (chunk_step st s))
  /\ chunk_size_ok (array (chunk_step st s)).
Proof.
  intros Hic Harr. unfold chunk_step.
  destruct (Qlt_bool _ _) eqn:Esize; cbn [orb].
  - cbn [insertChunk array]. split; [|left; cbn; lia].
    apply Forall_app. split; [assumption | now constructor].
  - destruct (maxChunkLength <? _) eqn:Ecount.
    + cbn [insertChunk array]. split; [|left; cbn; lia].
      apply Forall_app. split; [assumption | now constructor].
    + rewrite over_maxMbSize in Esize. apply Z.ltb_ge in Esize.
      assert (Hnew : chunk_size_ok (array st ++ [s])).
      { right. rewrite getStringBytes_join_snoc.
        destruct (array st) as [|x l] eqn:Earr.
        - change (getStringBytes (join (lit " ") [])) with 0 in Esize. lia.
        - lia. }
      cbn [insertChunk array]. split; [|exact Hnew].
      destruct (_ =? 1); [|assumption].
      apply Forall_app. split; [assumption | now constructor].
Qed.

Lemma chunk_fold_size (l : list jsstring) (st : chunker) :
  Forall chunk_size_ok (insertChunk st) ->
  chunk_size_ok (array st) ->
  Forall chunk_size_ok (insertChunk (fold_left chunk_step l st)).
Proof.
  revert st. induction l as [|s l IH]; intros st Hic Harr; [assumption|].
  cbn [fold_left]. destruct (@chunk_step_size st s Hic Harr) as [H1 H2].
  now apply IH.
Qed.

Lemma chunked_size (statements chunk : list jsstring) :
  In chunk (chunked statements) ->
  (length chunk <= 1)%nat \/ getStringBytes (join (lit " ") chunk) <= 838861.
Proof.
  unfold chunked.
  destruct (Qlt_bool _ _ && _) eqn:E.
  - intros [<- | []]. apply andb_prop in E. destruct E as [E _].
    rewrite under_maxMbSize in E. apply Z.leb_le in E. right. lia.
  - intro Hin.
    assert (H := @chunk_fold_size statements (mkChunker [] [] statements)
                   (Forall_nil _) ltac:(left; cbn; lia)).
    rewrite Forall_forall in H. now apply H.
Qed.

Lemma singleton_chunk_loses (a b : jsstring) : concat [[a]] <> [a; b].
Proof. cbn [concat app]. intro H. discriminate H. Qed.

(** C1 (the code departs from the claim).  Two inputs on which the chunks of
    [createInsertChunks] do not add up to the input: 1001 statements, where
    the count limit closes the first chunk at the last statement, and two
    statements of 524288 bytes, where the size limit does.  In both the last
    statement opens a chunk that is never closed, and is in no chunk. *)
Theorem createInsertChunks_drops_last_statement :
  forall fuel : nat,
    (let statements := repeat (lit "a") 1000 ++ [lit "b"] in
     createInsertChunks (S fuel) statements = Some [repeat (lit "a") 1000]
     /\ concat [repeat (lit "a") 1000] <> statements
     /\ ~ In (lit "b") (concat [repeat (lit "a") 1000]))
    /\
    (let s1 : jsstring := repeat 97%N (N.to_nat 524288) in
     let s2 : jsstring := repeat 98%N (N.to_nat 524288) in
     createInsertChunks (S fuel) [s1; s2] = Some [[s1]]
     /\ concat [[s1]] <> [s1; s2]).
Proof.
  intro fuel. split.
  - cbn zeta. rewrite createInsertChunks_returns. split; [|split].
    + apply f_equal. vm_compute. reflexivity.
    + intro H. apply (f_equal (@length _)) in H. vm_compute in H. discriminate H.
    + intro H. cbn [concat] in H. rewrite app_nil_r in H.
      apply repeat_spec in H. discriminate H.
  - intros s1 s2. rewrite createInsertChunks_returns. split.
    + apply f_equal. apply chunked_pair_overflow.
      * unfold getStringBytes, s1.
        rewrite utf8_length_repeat_ascii by reflexivity. rewrite N_nat_Z. lia.
      * unfold getStringBytes, s1, s2.
        rewrite !utf8_length_repeat_ascii by reflexivity. rewrite N_nat_Z. lia.
    + apply singleton_chunk_loses.
Qed.

(** C4 (the code departs from the claim).  A statement of 838859 bytes and a
    statement of one byte make one chunk of two statements whose joined size
    is 838861 bytes, above [maxMbSize]. *)
Theorem createInsertChunks_chunk_above_maxMbSize :
  forall fuel : nat,
    let s1 : jsstring := repeat 97%N (N.to_nat 838859) in
    let s2 : jsstring := lit "b" in
    createInsertChunks (S fuel) [s1; s2] = Some [[s1; s2]]
    /\ getStringBytes (join (lit " ") [s1; s2]) = 838861
    /\ Qlt_bool maxMbSize (inject_Z 838861) = true
    /\ getStringBytes s1 = 838859 /\ getStringBytes s2 = 1.
Proof.
  intros fuel s1 s2.
  assert (H1 : getStringBytes s1 = 838859).
  { unfold getStringBytes, s1.
    rewrite utf8_length_repeat_ascii by reflexivity. now rewrite N_nat_Z. }
  assert (H2 : getStringBytes s2 = 1) by reflexivity.
  destruct (@chunked_pair_at_limit s1 s2) as [Hc Hj]; [lia|].
  rewrite createInsertChunks_returns.
  split; [apply f_equal; exact Hc|]. split; [exact Hj|]. split; [reflexivity|].
  split; assumption.
Qed.

(** *** The statement builder *)

Lemma replace_char_map (c : N) (s : jsstring) :
  replace_char c (lit " ") s = map (fun x => if (x =? c)%N then 32%N else x) s.
Proof.
  unfold replace_char. induction s as [|x s IH]; [reflexivity|].
  cbn [flat_map map]. rewrite IH. now destruct (x =? c)%N.
Qed.

Lemma escapeQuotes_strip (number : Type) (s : jsstring) :
  escapeQuotes (@JSString number s) = Ok (strip_quotes s).
Proof.
  unfold escapeQuotes, strip_quotes. rewrite !replace_char_map, map_map.
  f_equal. apply map_ext. intro x.
  destruct (x =? 39)%N eqn:E39; cbn [orb]; [reflexivity|].
  reflexivity.
Qed.



Lemma Some_inj (A : Type) (a b : A) : Some a = Some b -> a = b.
Proof. intro H. now injection H. Qed.

Lemma Ok_inj (A : Type) (a b : A) : Ok a = Ok b -> a = b.
Proof. intro H. now injection H. Qed.

Ltac text_eq := repeat rewrite <- app_assoc; reflexivity.

Lemma skipn_cons_nth (A : Type) (n : nat) (l : list A) (x : A) (r : list A) :
  skipn n l = x :: r -> nth_error l n = Some x /\ skipn (S n) l = r.
Proof.
  revert l. induction n as [|n IH]; intros [|y l] H; cbn in H; try discriminate H.
  - injection H as -> ->. split; reflexivity.
  - destruct (IH l H) as [H1 H2]. split; assumption.
Qed.

Section StatementFacts.

Variable number : Type.
Variable Number_toString : number -> jsstring.
Variable Number_isFinite : number -> bool.


(** In the plain-metadata mode the statement is fully determined: the
    metadata literal is the JSON text between single quotes, as it is. *)
Lemma createInsertStatement_plain (tbl dbn : jsstring)
  (row : rowsInterface number) (metadataColumns : list jsstring) :
  exists json : jsstring,
    JSON_stringify Number_toString Number_isFinite (JSObject (metadata row))
    = Some json
    /\ createInsertStatement Number_toString Number_isFinite
         (mkStore tbl dbn false) row metadataColumns
       = Ok (lit "INSERT INTO " ++ tbl
             ++ lit " (content, embedding, metadata) " ++ LF
             ++ lit "    VALUES ('" ++ strip_quotes (content row)
             ++ lit "', vector('[" ++ vector_text Number_toString (embedding row)
             ++ lit "]'), '" ++ json ++ lit "')").
Proof.
  eexists. split; [cbn [JSON_stringify]; reflexivity|].
  unfold createInsertStatement, createInsertString, JSON_stringify_value.
  cbn [expandedMetadata tableName JSON_stringify mapi_result].
  change (column_is [lit "content"; lit "embedding"; lit "metadata"] 0
            (lit "embedding")) with false.
  change (column_is [lit "content"; lit "embedding"; lit "metadata"] 0
            (lit "metadata")) with false.
  change (column_is [lit "content"; lit "embedding"; lit "metadata"] 1
            (lit "embedding")) with true.
  change (column_is [lit "content"; lit "embedding"; lit "metadata"] 2
            (lit "embedding")) with false.
  change (column_is [lit "content"; lit "embedding"; lit "metadata"] 2
            (lit "metadata")) with true.
  cbn iota. rewrite escapeQuotes_strip. cbn [result_bind ToString].
  apply f_equal. unfold vector_text.
  change (join (lit ", ") [lit "content"; lit "embedding"; lit "metadata"])
    with (lit "content, embedding, metadata").
  cbn [join]. text_eq.
Qed.


(** C10.  In the plain-metadata mode the metadata is written into the
    statement as the JSON text of the row's metadata, between single quotes
    and with no sanitization; for the metadata [{topic: "it's"}] the single
    quote of the value stands unescaped inside the quoted literal, while the
    same quote in the content has become a space. *)
Theorem createInsertStatement_plain_metadata_verbatim :
  forall (tbl dbn : jsstring) (metadataColumns : list jsstring),
    (forall row : rowsInterface number,
       exists json : jsstring,
         JSON_stringify Number_toString Number_isFinite
           (JSObject (metadata row)) = Some json
         /\ createInsertStatement Number_toString Number_isFinite
              (mkStore tbl dbn false) row metadataColumns
            = Ok (lit "INSERT INTO " ++ tbl
                  ++ lit " (content, embedding, metadata) " ++ LF
                  ++ lit "    VALUES ('" ++ strip_quotes (content row)
                  ++ lit "', vector('["
                  ++ vector_text Number_toString (embedding row)
                  ++ lit "]'), '" ++ json ++ lit "')"))
    /\ (forall vector : list number,
          createInsertStatement Number_toString Number_isFinite
            (mkStore tbl dbn false)
            (mkRow (lit "it's") vector
               [(lit "topic", JSString (lit "it's"))])
            metadataColumns
          = Ok (lit "INSERT INTO " ++ tbl
                ++ lit " (content, embedding, metadata) " ++ LF
                ++ lit "    VALUES ('it s', vector('["
                ++ vector_text Number_toString vector
                ++ lit "]'), '{" ++ DQUOTE ++ lit "topic" ++ DQUOTE
                ++ lit ":" ++ DQUOTE ++ lit "it's" ++ DQUOTE ++ lit "}')")).
Proof.
  intros tbl dbn metadataColumns. split.
  - intro row. apply createInsertStatement_plain.
  - intro vector.
    destruct (createInsertStatement_plain tbl dbn
                (mkRow (lit "it's") vector
                   [(lit "topic", JSString (lit "it's"))]) metadataColumns)
      as [json [Hjson H]].
    rewrite H. apply f_equal.
    cbn [JSON_stringify] in Hjson. apply Some_inj in Hjson. subst json.
    cbn [content embedding metadata].
    change (strip_quotes (lit "it's")) with (lit "it s").
    change (flat_map _ [(lit "topic", @JSString number (lit "it's"))])
      with [QuoteJSONString (lit "topic") ++ lit ":" ++ QuoteJSONString (lit "it's")].
    change (QuoteJSONString (lit "topic")) with (DQUOTE ++ lit "topic" ++ DQUOTE).
    change (QuoteJSONString (lit "it's")) with (DQUOTE ++ lit "it's" ++ DQUOTE).
    cbn [join]. text_eq.
Qed.

(** The values of the declared columns, when each is a string in the row's
    metadata: every one is escaped and quoted. *)
Lemma render_declared_columns (md : object number)
  (columnNames cols texts : list jsstring) (index : nat) :
  skipn index columnNames = cols ->
  ~ In (lit "embedding") cols ->
  map (get md) cols = map JSString texts ->
  mapi_result
    (fun (value : JSValue number) (index : nat) =>
       if column_is columnNames index (lit "embedding")
       then Ok (lit "vector('[" ++ ToString Number_toString value ++ lit "]')")
       else result_bind (escapeQuotes value)
              (fun escaped => Ok (SQUOTE ++ escaped ++ SQUOTE)))
    index (map (fun col => nullish (get md col) JSNull) cols)
  = Ok (map (fun t => SQUOTE ++ strip_quotes t ++ SQUOTE) texts).
Proof.
  revert texts index.
  induction cols as [|col cols IH]; intros texts index Hskip Hno Hget.
  - destruct texts; [reflexivity | discriminate Hget].
  - destruct texts as [|t texts]; [discriminate Hget|].
    cbn [map] in Hget. injection Hget as Hcol Hrest.
    destruct (skipn_cons_nth _ _ Hskip) as [Hnth Hnext].
    cbn [map mapi_result]. unfold column_is at 1. rewrite Hnth.
    destruct (jsstring_eqb col (lit "embedding")) eqn:E.
    + apply jsstring_eqb_eq in E. subst col. exfalso. apply Hno. now left.
    + rewrite Hcol. cbn [nullish]. rewrite escapeQuotes_strip.
      cbn [result_bind].
      rewrite (IH texts (S index) Hnext); [reflexivity | | exact Hrest].
      intro Hin. apply Hno. now right.
Qed.

(** In the expanded-metadata mode, a row whose metadata holds a string for
    every declared column gets the statement that lists the columns and
    renders each value escaped and quoted. *)
Lemma createInsertStatement_expanded (tbl dbn : jsstring)
  (row : rowsInterface number) (metadataColumns texts : list jsstring) :
  ~ In (lit "embedding") metadataColumns ->
  map (get (metadata row)) metadataColumns = map JSString texts ->
  createInsertStatement Number_toString Number_isFinite
    (mkStore tbl dbn true) row metadataColumns
  = Ok (lit "INSERT INTO " ++ tbl ++ lit " ("
        ++ join (lit ", ")
             ([lit "content"; lit "embedding"] ++ metadataColumns)
        ++ lit ") " ++ LF ++ lit "      VALUES ("
        ++ join (lit ", ")
             ([SQUOTE ++ strip_quotes (content row) ++ SQUOTE;
               lit "vector('[" ++ vector_text Number_toString (embedding row)
               ++ lit "]')"]
              ++ map (fun t => SQUOTE ++ strip_quotes t ++ SQUOTE) texts)
        ++ lit ")").
Proof.
  intros Hno Hget.
  unfold createInsertStatement, createInsertString.
  cbn [expandedMetadata tableName app mapi_result].
  change (column_is (lit "content" :: lit "embedding" :: metadataColumns) 0
            (lit "embedding")) with false.
  change (column_is (lit "content" :: lit "embedding" :: metadataColumns) 1
            (lit "embedding")) with true.
  cbn iota. rewrite escapeQuotes_strip. cbn [result_bind].
  rewrite (@render_declared_columns (metadata row)
             (lit "content" :: lit "embedding" :: metadataColumns)
             metadataColumns texts 2 eq_refl Hno Hget).
  cbn [result_bind]. reflexivity.
Qed.

(** C7 (the code departs from the claim).  In the expanded-metadata mode a
    declared column that a row's metadata lacks is looked up as [null], and
    the escaper then fails on it: no statement is generated for the row, nor
    for the batch it is in. *)
Theorem createInsertStatement_missing_key_TypeError :
  forall (tbl dbn content1 content2 : jsstring) (e1 e2 : list number),
    let this := mkStore tbl dbn true in
    let row1 := mkRow content1 e1 [(lit "topic", JSString (lit "x"))] in
    let row2 := mkRow content2 e2 [] in
    extractMetadataColumns [row1; row2] = [lit "topic"]
    /\ nullish (get (metadata row2) (lit "topic")) JSNull = JSNull
    /\ createInsertStatement Number_toString Number_isFinite this row2
         [lit "topic"] = Throw TypeError
    /\ createStatements Number_toString Number_isFinite this [row1; row2]
       = Throw TypeError.
Proof.
  intros tbl dbn content1 content2 e1 e2 this row1 row2.
  split; [reflexivity|]. split; [reflexivity|]. split; reflexivity.
Qed.

End StatementFacts.


(** *** The result merger *)

Lemma id_eqb_eq (a b : option jsstring) : id_eqb a b = true <-> a = b.
Proof.
  destruct a as [x|], b as [y|]; cbn [id_eqb];
    try (split; [discriminate | discriminate]); [|tauto].
  rewrite jsstring_eqb_eq. split; [now intros -> | now intros [= ->]].
Qed.

Lemma has_In (seen : list (option jsstring)) (x : option jsstring) :
  has seen x = true <-> In x seen.
Proof.
  unfold has. rewrite existsb_exists. split.
  - intros [y [Hin Heq]]. apply id_eqb_eq in Heq. now subst.
  - intro Hin. exists x. split; [assumption | now apply id_eqb_eq].
Qed.

Section MergeFacts.

Variable number : Type.

Lemma searchtype_unique (doc : Document number) (a b : jsstring) :
  searchtype_is doc a = true -> searchtype_is doc b = true -> a = b.
Proof.
  unfold searchtype_is.
  destruct (get (doc_metadata doc) (lit "searchtype")); try discriminate.
  rewrite !jsstring_eqb_eq. congruence.
Qed.

Lemma merge_inv_init (kfts kvector : nat) :
  merge_inv kfts kvector (mkMerger (number:=number) [] [] 0 0).
Proof.
  unfold merge_inv. cbn. repeat split; try lia. constructor.
Qed.

Lemma merge_step_inv (kfts kvector : nat) (st : merger number)
  (result : Document number * number) :
  merge_inv kfts kvector st ->
  merge_inv kfts kvector (merge_step kfts kvector st result).
Proof.
  intros (Hs & Hf & Hcs & Hcf & Hlen & Hseen & Hnd).
  unfold merge_step.
  destruct (has (seenIds st) (id (fst result))) eqn:Ehas; cbn [negb];
    [repeat split; assumption|].
  assert (Hfresh : ~ In (id (fst result)) (seenIds st)).
  { intro Hin. apply has_In in Hin. congruence. }
  destruct (searchtype_is (fst result) (lit "similarity")) eqn:Esim;
    cbn [andb].
  - destruct (similarityCount st <? kvector)%nat eqn:Equota.
    + apply Nat.ltb_lt in Equota.
      assert (Enot : tagged (lit "fulltextsearch") result = false).
      { unfold tagged. destruct (searchtype_is _ (lit "fulltextsearch")) eqn:E;
          [|reflexivity].
        pose proof (searchtype_unique _ _ _ Esim E) as Habs. discriminate Habs. }
      unfold merge_inv.
      cbn [uniqueResults seenIds similarityCount ftsCount].
      rewrite !filter_app, !length_app, map_app, rev_app_distr.
      cbn [List.filter map rev app length]. unfold tagged at 2 4.
      fold (tagged (lit "fulltextsearch") result).
      rewrite Esim, Enot. cbn [length].
      repeat split; try lia.
      * now rewrite Hseen.
      * now constructor.
    + destruct (searchtype_is (fst result) (lit "fulltextsearch")) eqn:Efts.
      * pose proof (searchtype_unique _ _ _ Esim Efts) as Habs.
        discriminate Habs.
      * cbn [andb]. repeat split; assumption.
  - destruct (searchtype_is (fst result) (lit "fulltextsearch")) eqn:Efts;
      cbn [andb]; [|repeat split; assumption].
    destruct (ftsCount st <? kfts)%nat eqn:Equota; [|repeat split; assumption].
    apply Nat.ltb_lt in Equota.
    unfold merge_inv.
    cbn [uniqueResults seenIds similarityCount ftsCount].
    rewrite !filter_app, !length_app, map_app, rev_app_distr.
    cbn [List.filter map rev app length]. unfold tagged at 2 4.
    rewrite Esim, Efts. cbn [length].
    repeat split; try lia.
    + now rewrite Hseen.
    + now constructor.
Qed.

Lemma merge_loop_inv (kfts kvector : nat)
  (results : list (Document number * number)) (st : merger number) :
  merge_inv kfts kvector st ->
  merge_inv kfts kvector (merge_loop kfts kvector results st).
Proof.
  revert st. induction results as [|result rest IH]; intros st Hinv;
    [assumption|].
  cbn [merge_loop]. cbn zeta.
  pose proof (merge_step_inv result Hinv) as Hstep.
  destruct (_ =? _)%nat; [assumption | now apply IH].
Qed.

(** C3.  For every combined result sequence and quotas, the output of
    [removeDuplicates] has at most [kfts + kvector] results, no two of them
    with the same document id, at most [kvector] of them tagged
    [similarity] and at most [kfts] tagged [fulltextsearch]. *)
Theorem removeDuplicates_quotas :
  forall (results : list (Document number * number)) (kfts kvector : nat),
    let merged := removeDuplicates results kfts kvector in
    (length merged <= kfts + kvector)%nat
    /\ NoDup (map (fun r => id (fst r)) merged)
    /\ (length (List.filter
                  (fun r => searchtype_is (fst r) (lit "similarity")) merged)
        <= kvector)%nat
    /\ (length (List.filter
                  (fun r => searchtype_is (fst r) (lit "fulltextsearch")) merged)
        <= kfts)%nat.
Proof.
  intros results kfts kvector merged.
  destruct (merge_loop_inv results (merge_inv_init kfts kvector))
    as (Hs & Hf & Hcs & Hcf & Hlen & Hseen & Hnd).
  fold (removeDuplicates results kfts kvector) in *. fold merged in Hcs, Hcf, Hlen, Hseen.
  split; [lia|]. split.
  - rewrite Hseen in Hnd. apply NoDup_rev in Hnd.
    now rewrite rev_involutive in Hnd.
  - split.
    + change (fun r : Document number * number =>
                searchtype_is (fst r) (lit "similarity"))
        with (tagged (number:=number) (lit "similarity")). lia.
    + change (fun r : Document number * number =>
                searchtype_is (fst r) (lit "fulltextsearch"))
        with (tagged (number:=number) (lit "fulltextsearch")). lia.
Qed.

(** C5, as the code has it.  Full-text results with ids 1, 2, 3 followed by
    similarity results with ids 2, 4, 5, under the quotas 2 and 2, merge
    into the ids 1, 2, 4, 5: id 2 is taken by the full-text channel, which
    comes first, id 3 finds the full-text quota used up, and the similarity
    channel then fills its own quota with 4 and 5, at which point the two
    counts add up to 4 and the loop stops. *)
Theorem removeDuplicates_example :
  forall score : number,
    let merged :=
      removeDuplicates (example_fulltext score ++ example_similarity score)
        2 2 in
    map (fun r => id (fst r)) merged
    = [Some (lit "1"); Some (lit "2"); Some (lit "4"); Some (lit "5")]
    /\ map (fun r => searchtype_is (fst r) (lit "fulltextsearch")) merged
       = [true; true; false; false]
    /\ map (fun r => searchtype_is (fst r) (lit "similarity")) merged
       = [false; false; true; true].
Proof.
  intro score. cbv zeta. split; [|split]; vm_compute; reflexivity.
Qed.

End MergeFacts.

(** C5, as the claim has it: the merged output is not the ids 1, 2, 4. *)
Lemma removeDuplicates_example_not_three :
  map (fun r => id (fst r))
    (removeDuplicates (example_fulltext 0 ++ example_similarity 0) 2 2)
  <> [Some (lit "1"); Some (lit "2"); Some (lit "4")].
Proof. vm_compute. discriminate. Qed.

(** *** Calls to the service *)

Lemma no_execute_app (t1 t2 : list call) :
  no_execute t1 -> no_execute t2 -> no_execute (t1 ++ t2).
Proof. unfold no_execute. intros H1 H2. apply Forall_app. now split. Qed.

Section ServiceFacts.

Variable number : Type.
Variable Number_toString : number -> jsstring.
Variable Number_isFinite : number -> bool.
Variable DB : Type.
Variable sql : AzionSQL number DB.
Variable embedQuery : jsstring -> list number.
Variable Number_of : JSValue number -> number.
Variable Number_literal : Z -> number.
Variable JSON_parse : jsstring -> result (object number).

Lemma invoke_run (A : Type) (c : call) (f : DB -> A * DB) (w : world DB) :
  invoke c f w = (Ok (fst (f (db w))), mkWorld (snd (f (db w))) (calls w ++ [c])).
Proof. unfold invoke. now destruct (f (db w)). Qed.

Lemma includes_name_In (tables : list (JSValue number)) (name : jsstring) :
  In (JSString name) tables -> includes_name tables name = true.
Proof.
  intro Hin. unfold includes_name. apply existsb_exists.
  exists (JSString name). split; [assumption | apply jsstring_eqb_refl].
Qed.

(** A listing that holds the required names counts as set up. *)
Lemma areTablesSetup_present (this : AzionVectorStore) (mode : Mode)
  (tables : list (JSValue number)) :
  In (JSString (tableName this)) tables ->
  (mode = ModeHybrid -> In (JSString (tableName this ++ lit "_fts")) tables) ->
  areTablesSetup this (Some tables) mode = true.
Proof.
  intros Hmain Hfts. unfold areTablesSetup. destruct mode.
  - now apply includes_name_In.
  - rewrite !includes_name_In; auto.
Qed.

(** What [handleTables] does, by the answer of the listing. *)
Lemma handleTables_run (this : AzionVectorStore) (mode : Mode)
  (cols : list jsstring) (w : world DB) :
  let r := fst (getTables sql (dbName this) (db w)) in
  let w1 := mkWorld (snd (getTables sql (dbName this) (db w)))
              (calls w ++ [GetTables (dbName this)]) in
  handleTables sql embedQuery this mode cols w
  = match error r with
    | Some e => (Throw (Error (message e)), w1)
    | None =>
        if areTablesSetup this (listed_tables r) mode then (Ok tt, w1)
        else
          let batch := allStatements embedQuery this mode cols in
          let x := useExecute sql (dbName this) batch (db w1) in
          let w2 := mkWorld (snd x)
                      (calls w1 ++ [UseExecute (dbName this) batch]) in
          match error (fst x) with
          | Some e => (Throw (Error (message e)), w2)
          | None => (Ok tt, w2)
          end
    end.
Proof.
  cbv zeta. unfold handleTables, bind at 1. rewrite invoke_run.
  unfold bind at 1, lift, errorHandler.
  destruct (error (fst (getTables sql (dbName this) (db w)))) as [e|];
    [reflexivity|].
  destruct (areTablesSetup this _ mode); cbn [negb]; [reflexivity|].
  unfold bind at 1, setupTables, bind at 1. rewrite invoke_run.
  unfold bind at 1, lift, errorHandler. cbn [db calls].
  destruct (error (fst (useExecute sql (dbName this) _ _))) as [e|];
    reflexivity.
Qed.

Lemma handleDatabase_run (this : AzionVectorStore) (w : world DB) :
  let r := fst (getDatabases sql (db w)) in
  let w1 := mkWorld (snd (getDatabases sql (db w)))
              (calls w ++ [GetDatabases]) in
  exists (outcome : result unit) (extra : list call) (d : DB),
    handleDatabase sql this w
    = (outcome, mkWorld d (calls w ++ GetDatabases :: extra))
    /\ no_execute extra
    /\ (d = snd (getDatabases sql (db w))
        \/ d = snd (createDatabase sql (dbName this)
                      (snd (getDatabases sql (db w))))).
Proof.
  cbv zeta. unfold handleDatabase, bind at 1. rewrite invoke_run.
  unfold bind at 1, lift, errorHandler.
  destruct (error (fst (getDatabases sql (db w)))) as [e|].
  - exists (Throw (Error (message e))), [], (snd (getDatabases sql (db w))).
    split; [reflexivity|]. split; [constructor | now left].
  - match goal with |- context [negb ?b] => destruct b end; cbn [negb].
    + exists (Ok tt), [], (snd (getDatabases sql (db w))).
      split; [reflexivity|]. split; [constructor | now left].
    + unfold bind at 1. rewrite invoke_run. cbn [db calls].
      destruct (error (fst (createDatabase sql (dbName this) _))) as [e|].
      * eexists (Throw (Error (message e))), [CreateDatabase (dbName this)], _.
        rewrite <- app_assoc. split; [reflexivity|].
        split; [repeat constructor | now right].
      * eexists (Ok tt), [CreateDatabase (dbName this)], _.
        rewrite <- app_assoc. split; [reflexivity|].
        split; [repeat constructor | now right].
Qed.

(** The listing reports the tables: nothing is created. *)
Lemma handleTables_skips_creation (this : AzionVectorStore) (mode : Mode)
  (cols : list jsstring) (w : world DB) :
  error (fst (getTables sql (dbName this) (db w))) = None ->
  tables_reported sql this mode (db w) ->
  handleTables sql embedQuery this mode cols w
  = (Ok tt, mkWorld (snd (getTables sql (dbName this) (db w)))
              (calls w ++ [GetTables (dbName this)])).
Proof.
  intros Herr Hrep. rewrite handleTables_run. cbv zeta.
  rewrite Herr. unfold tables_reported in Hrep. now rewrite Hrep.
Qed.

Section Idempotence.

Variable this : AzionVectorStore.
Variable setupOptions : AzionSetupOptions.

(** What the store is assumed to do: once the creation batch has been
    executed without error the listing reports the tables, and no other
    call of the service makes a reported table disappear. *)
Hypothesis creation_is_listed :
  forall d : DB,
    let x := useExecute sql (dbName this)
               (allStatements embedQuery this (setup_mode setupOptions)
                  (setup_columns setupOptions)) d in
    error (fst x) = None ->
    tables_reported sql this (setup_mode setupOptions) (snd x).

Hypothesis listing_is_kept :
  forall d : DB,
    tables_reported sql this (setup_mode setupOptions) d ->
    tables_reported sql this (setup_mode setupOptions)
      (snd (getDatabases sql d))
    /\ (forall name, tables_reported sql this (setup_mode setupOptions)
                       (snd (createDatabase sql name d)))
    /\ (forall name, tables_reported sql this (setup_mode setupOptions)
                       (snd (getTables sql name d))).

Lemma setupDatabase_reported (w : world DB) :
  tables_reported sql this (setup_mode setupOptions) (db w) ->
  forall (outcome : result unit) (w' : world DB),
    setupDatabase sql embedQuery this setupOptions w = (outcome, w') ->
    exists new : list call, calls w' = calls w ++ new /\ no_execute new.
Proof.
  intros Hrep outcome w' Hrun.
  unfold setupDatabase, bind in Hrun.
  destruct (handleDatabase_run this w) as (o & extra & d & Hdb & Hextra & Hd).
  rewrite Hdb in Hrun.
  assert (Hrep_d : tables_reported sql this (setup_mode setupOptions) d).
  { destruct (listing_is_kept Hrep) as (H1 & H2 & _).
    destruct Hd as [-> | ->]; [exact H1|].
    destruct (listing_is_kept H1) as (_ & H3 & _). apply H3. }
  destruct o as [[]|e].
  - rewrite handleTables_run in Hrun. cbv zeta in Hrun. cbn [db calls] in Hrun.
    unfold tables_reported in Hrep_d. rewrite Hrep_d in Hrun.
    exists ((GetDatabases :: extra) ++ [GetTables (dbName this)]).
    split.
    + destruct (error _); injection Hrun as _ <-; cbn [calls];
        now rewrite <- app_assoc.
    + apply no_execute_app; [|repeat constructor].
      constructor; [reflexivity | exact Hextra].
  - injection Hrun as _ <-. exists (GetDatabases :: extra).
    split; [reflexivity|]. constructor; [reflexivity | exact Hextra].
Qed.

Lemma setupDatabase_success_reported (w w1 : world DB) :
  setupDatabase sql embedQuery this setupOptions w = (Ok tt, w1) ->
  tables_reported sql this (setup_mode setupOptions) (db w1).
Proof.
  intro Hrun. unfold setupDatabase, bind in Hrun.
  destruct (handleDatabase_run this w) as (o & extra & d & Hdb & _ & _).
  rewrite Hdb in Hrun. destruct o as [[]|e]; [|discriminate Hrun].
  rewrite handleTables_run in Hrun. cbv zeta in Hrun. cbn [db calls] in Hrun.
  destruct (error (fst (getTables sql (dbName this) d))); [discriminate Hrun|].
  destruct (areTablesSetup this _ (setup_mode setupOptions)) eqn:Eset.
  - injection Hrun as <-. cbn [db].
    assert (Hrep : tables_reported sql this (setup_mode setupOptions) d)
      by exact Eset.
    destruct (listing_is_kept Hrep) as (_ & _ & H). apply H.
  - destruct (error (fst (useExecute sql (dbName this) _ _))) eqn:Eexec;
      [discriminate Hrun|].
    injection Hrun as <-. cbn [db].
    now apply creation_is_listed.
Qed.

(** C6.  Table creation is idempotent.  When the listing reports the
    required table (and the shadow table in hybrid mode) and no error,
    [handleTables] makes the listing call only and returns; if the service
    reports the tables when [setupDatabase] starts, no statement batch is
    executed in that call; and after a first [setupDatabase] has returned, a
    second one with the same options executes no statement batch. *)
Theorem setupDatabase_idempotent :
  (forall (mode : Mode) (cols : list jsstring) (w : world DB)
          (tables : list (JSValue number)),
      let r := fst (getTables sql (dbName this) (db w)) in
      error r = None ->
      listed_tables r = Some tables ->
      In (JSString (tableName this)) tables ->
      (mode = ModeHybrid ->
       In (JSString (tableName this ++ lit "_fts")) tables) ->
      handleTables sql embedQuery this mode cols w
      = (Ok tt, mkWorld (snd (getTables sql (dbName this) (db w)))
                  (calls w ++ [GetTables (dbName this)])))
  /\ (forall (w : world DB) (outcome : result unit) (w' : world DB),
        tables_reported sql this (setup_mode setupOptions) (db w) ->
        setupDatabase sql embedQuery this setupOptions w = (outcome, w') ->
        exists new : list call, calls w' = calls w ++ new /\ no_execute new)
  /\ (forall (w w1 : world DB) (outcome : result unit) (w2 : world DB),
        setupDatabase sql embedQuery this setupOptions w = (Ok tt, w1) ->
        setupDatabase sql embedQuery this setupOptions w1 = (outcome, w2) ->
        exists new : list call, calls w2 = calls w1 ++ new /\ no_execute new).
Proof.
  split; [|split].
  - intros mode cols w tables r Herr Hlist Hmain Hfts.
    apply handleTables_skips_creation; [exact Herr|].
    unfold tables_reported. fold r. rewrite Hlist.
    now apply areTablesSetup_present.
  - intros w outcome w' Hrep Hrun. eapply setupDatabase_reported; eassumption.
  - intros w w1 outcome w2 Hfirst Hsecond.
    eapply setupDatabase_reported; [|eassumption].
    eapply setupDatabase_success_reported; eassumption.
Qed.

End Idempotence.

(** *** Failing queries *)

Lemma similaritySearch_run (this : AzionVectorStore) (vector : list number)
  (k : nat) (filter : option (list AzionFilter))
  (metadataItems : option (list jsstring)) (w : world DB) :
  let query := similarityQuery Number_toString this vector k filter
                 metadataItems in
  let x := useQuery sql (dbName this) [query] (db w) in
  let w1 := mkWorld (snd x) (calls w ++ [UseQuery (dbName this) [query]]) in
  similaritySearchVectorWithScore Number_toString Number_isFinite sql
    Number_of Number_literal JSON_parse this vector k filter metadataItems w
  = match data (fst x), error (fst x) with
    | None, Some e => (Throw (Error (message e)), w1)
    | None, None =>
        (Ok (searchError Number_toString Number_isFinite Number_literal None),
         w1)
    | Some d, _ =>
        match mapRows Number_toString Number_of JSON_parse (results d) with
        | Ok searches => (Ok (mapSearches Number_toString searches), w1)
        | Throw e => (Throw e, w1)
        end
    end.
Proof.
  cbv zeta. unfold similaritySearchVectorWithScore, bind at 1.
  rewrite invoke_run.
  destruct (data (fst (useQuery sql (dbName this) _ (db w)))) as [d|].
  - unfold bind, lift, ret. now destruct (mapRows _ _ _ (results d)).
  - unfold bind, lift, ret, errorHandler.
    now destruct (error (fst (useQuery sql (dbName this) _ (db w)))).
Qed.

Lemma fullTextSearch_run (this : AzionVectorStore) (query : jsstring)
  (options : fullTextSearchOptions) (w : world DB) :
  let text := fullTextQuery this query options in
  let x := useQuery sql (dbName this) [text] (db w) in
  let w1 := mkWorld (snd x) (calls w ++ [UseQuery (dbName this) [text]]) in
  AzionFullTextSearch Number_toString Number_isFinite sql
    Number_of Number_literal JSON_parse this query options w
  = match data (fst x), error (fst x) with
    | None, Some e => (Throw (Error (message e)), w1)
    | None, None =>
        (Ok (searchError Number_toString Number_isFinite Number_literal None),
         w1)
    | Some d, _ =>
        match mapRows Number_toString Number_of JSON_parse (results d) with
        | Ok searches => (Ok (mapSearches Number_toString searches), w1)
        | Throw e => (Throw e, w1)
        end
    end.
Proof.
  cbv zeta. unfold AzionFullTextSearch, bind at 1.
  rewrite invoke_run.
  destruct (data (fst (useQuery sql (dbName this) _ (db w)))) as [d|].
  - unfold bind, lift, ret. now destruct (mapRows _ _ _ (results d)).
  - unfold bind, lift, ret, errorHandler.
    now destruct (error (fst (useQuery sql (dbName this) _ (db w)))).
Qed.

(** When the query call answers with an error and no data, every search
    operation throws an [Error] that carries the message of the service:
    [errorHandler] runs before [searchError], and throws. *)
Lemma search_failure_throws :
  forall (this : AzionVectorStore) (e : AzionError),
    (forall (name : jsstring) (statements : list jsstring) (d : DB),
        data (fst (useQuery sql name statements d)) = None
        /\ error (fst (useQuery sql name statements d)) = Some e) ->
    (forall vector k filter metadataItems (w : world DB),
        fst (similaritySearchVectorWithScore Number_toString Number_isFinite
               sql Number_of Number_literal JSON_parse this vector k filter
               metadataItems w)
        = Throw (Error (message e)))
    /\ (forall query options (w : world DB),
          fst (AzionFullTextSearch Number_toString Number_isFinite sql
                 Number_of Number_literal JSON_parse this query options w)
          = Throw (Error (message e)))
    /\ (forall query options (w : world DB),
          fst (AzionHybridSearch Number_toString Number_isFinite sql
                 embedQuery Number_of Number_literal JSON_parse this query
                 options w)
          = Throw (Error (message e)))
    /\ (forall query options (w : world DB),
          fst (AzionSimilaritySearch Number_toString Number_isFinite sql
                 embedQuery Number_of Number_literal JSON_parse this query
                 options w)
          = Throw (Error (message e))).
Proof.
  intros this e Hfail.
  assert (Hsim : forall vector k filter metadataItems (w : world DB),
             fst (similaritySearchVectorWithScore Number_toString
                    Number_isFinite sql Number_of Number_literal JSON_parse
                    this vector k filter metadataItems w)
             = Throw (Error (message e))).
  { intros. rewrite similaritySearch_run. cbv zeta.
    destruct (Hfail (dbName this)
                [similarityQuery Number_toString this vector k filter
                   metadataItems] (db w)) as [-> ->].
    reflexivity. }
  assert (Hfts : forall query options (w : world DB),
             fst (AzionFullTextSearch Number_toString Number_isFinite sql
                    Number_of Number_literal JSON_parse this query options w)
             = Throw (Error (message e))).
  { intros. rewrite fullTextSearch_run. cbv zeta.
    destruct (Hfail (dbName this) [fullTextQuery this query options] (db w))
      as [-> ->].
    reflexivity. }
  split; [exact Hsim|]. split; [exact Hfts|]. split.
  - intros query options w. unfold AzionHybridSearch, bind at 1.
    specialize (Hfts query
                  (mkFtsOptions (hyb_kfts options) (hyb_filter options)
                     (hyb_metadataItems options)) w).
    destruct (AzionFullTextSearch _ _ _ _ _ _ _ _ _ w) as [[docs|e'] w1];
      cbn [fst] in *; [discriminate Hfts | exact Hfts].
  - intros query options w. unfold AzionSimilaritySearch. apply Hsim.
Qed.

End ServiceFacts.

(** C2 (the code departs from the claim).  Against a service whose query
    call fails with the error [e], the similarity search, the full-text
    search, the hybrid search and the similarity search by text all throw
    [Error (message e)]; none returns the synthetic error result. *)
Theorem search_failure_raises :
  forall (number : Type) (Number_toString : number -> jsstring)
         (Number_isFinite : number -> bool)
         (embedQuery : jsstring -> list number)
         (Number_of : JSValue number -> number) (Number_literal : Z -> number)
         (JSON_parse : jsstring -> result (object number))
         (this : AzionVectorStore) (e : AzionError),
    let sql := failing_sql number e in
    (forall vector k filter metadataItems (w : world unit),
        fst (similaritySearchVectorWithScore Number_toString Number_isFinite
               sql Number_of Number_literal JSON_parse this vector k filter
               metadataItems w)
        = Throw (Error (message e)))
    /\ (forall query options (w : world unit),
          fst (AzionFullTextSearch Number_toString Number_isFinite sql
                 Number_of Number_literal JSON_parse this query options w)
          = Throw (Error (message e)))
    /\ (forall query options (w : world unit),
          fst (AzionHybridSearch Number_toString Number_isFinite sql
                 embedQuery Number_of Number_literal JSON_parse this query
                 options w)
          = Throw (Error (message e)))
    /\ (forall query options (w : world unit),
          fst (AzionSimilaritySearch Number_toString Number_isFinite sql
                 embedQuery Number_of Number_literal JSON_parse this query
                 options w)
          = Throw (Error (message e))).
Proof.
  intros. apply search_failure_throws. intros name statements d.
  split; reflexivity.
Qed.

(** *** The service kept in memory *)

Lemma memory_reported (number : Type) (this : AzionVectorStore) (mode : Mode)
  (m : memory) :
  In (tableName this) (memory_tables m) ->
  (mode = ModeHybrid -> In (tableName this ++ lit "_fts") (memory_tables m)) ->
  tables_reported (memory_sql number) this mode m.
Proof.
  intros Hmain Hfts. unfold tables_reported.
  cbn [memory_sql getTables fst listed_tables data results rows].
  rewrite map_map. cbn [nth].
  apply areTablesSetup_present.
  - now apply in_map.
  - intro Hmode. now apply in_map, Hfts.
Qed.

Lemma memory_reported_tables (number : Type) (this : AzionVectorStore)
  (mode : Mode) (m m' : memory) :
  memory_tables m = memory_tables m' ->
  tables_reported (memory_sql number) this mode m ->
  tables_reported (memory_sql number) this mode m'.
Proof.
  unfold tables_reported.
  cbn [memory_sql getTables fst listed_tables data results rows].
  now intros ->.
Qed.

(** C6, on the service kept in memory: a first [setupDatabase] on an empty
    service creates the tables, a second one with the same options makes
    the two listing calls and executes nothing. *)
Lemma setupDatabase_idempotent_witness :
  let this := mkStore (lit "documents") (lit "mydb") false in
  let setupOptions :=
    mkSetupOptions [lit "topic"; lit "language"] ModeHybrid in
  let embed := fun _ : jsstring => [0; 0; 0] in
  let w0 := mkWorld (mkMemory [] []) [] in
  exists (w1 : world memory) (outcome : result unit) (w2 : world memory)
         (new : list call),
    setupDatabase (memory_sql Z) embed this setupOptions w0 = (Ok tt, w1)
    /\ setupDatabase (memory_sql Z) embed this setupOptions w1 = (outcome, w2)
    /\ calls w2 = calls w1 ++ new
    /\ no_execute new.
Proof.
  intros this setupOptions embed w0.
  assert (Hcreated :
            forall d : memory,
              let x := useExecute (memory_sql Z) (dbName this)
                         (allStatements embed this (setup_mode setupOptions)
                            (setup_columns setupOptions)) d in
              error (fst x) = None ->
              tables_reported (memory_sql Z) this (setup_mode setupOptions)
                (snd x)).
  { intros d x _. apply memory_reported.
    - cbn [x memory_sql useExecute snd memory_tables].
      apply in_or_app. right. vm_compute. left. reflexivity.
    - intros _. cbn [x memory_sql useExecute snd memory_tables].
      apply in_or_app. right. vm_compute. right. left. reflexivity. }
  assert (Hkept :
            forall d : memory,
              tables_reported (memory_sql Z) this (setup_mode setupOptions) d ->
              tables_reported (memory_sql Z) this (setup_mode setupOptions)
                (snd (getDatabases (memory_sql Z) d))
              /\ (forall name,
                    tables_reported (memory_sql Z) this
                      (setup_mode setupOptions)
                      (snd (createDatabase (memory_sql Z) name d)))
              /\ (forall name,
                    tables_reported (memory_sql Z) this
                      (setup_mode setupOptions)
                      (snd (getTables (memory_sql Z) name d)))).
  { intros d Hd. split; [exact Hd|]. split; intro name.
    - now apply (memory_reported_tables (m := d)).
    - exact Hd. }
  destruct (setupDatabase (memory_sql Z) embed this setupOptions w0)
    as [o1 w1] eqn:E1.
  assert (Ho1 : o1 = Ok tt).
  { apply (f_equal fst) in E1. vm_compute in E1. now symmetry. }
  subst o1.
  destruct (setupDatabase (memory_sql Z) embed this setupOptions w1)
    as [outcome w2] eqn:E2.
  destruct (proj2 (proj2 (@setupDatabase_idempotent Z memory (memory_sql Z)
                            embed this setupOptions Hcreated Hkept))
              w0 w1 outcome w2 E1 E2) as [new [Hcalls Hnew]].
  exists w1, outcome, w2, new.
  split; [reflexivity|]. split; [exact E2|]. split; assumption.
Defined.

(** *** The full-text query *)

Lemma split_by_space (str : jsstring) :
  (forall c, In c str -> is_space c = true -> c = 32%N) ->
  split_by is_space str = split 32 str.
Proof.
  induction str as [|c rest IH]; intro Honly; [reflexivity|].
  cbn [split_by split].
  rewrite IH by (intros x Hx; apply Honly; now right).
  destruct (is_space c) eqn:Esp.
  - rewrite (Honly c (or_introl eq_refl) Esp). reflexivity.
  - destruct (c =? 32)%N eqn:E32; [|reflexivity].
    apply N.eqb_eq in E32. subst c. discriminate Esp.
Qed.

Lemma filter_nonempty (l : list jsstring) :
  Forall (fun w => w <> []) l ->
  List.filter (fun w => negb (jsstring_eqb w [])) l = l.
Proof.
  induction 1 as [|w l Hw Hl IH]; [reflexivity|].
  cbn [List.filter]. rewrite IH.
  destruct (jsstring_eqb w []) eqn:E; [|reflexivity].
  apply jsstring_eqb_eq in E. contradiction.
Qed.

Lemma words_single_spaced (str : jsstring) :
  single_spaced str -> words str = split 32 str.
Proof.
  intros [Honly Hne]. unfold words.
  rewrite split_by_space by assumption. now apply filter_nonempty.
Qed.

Lemma split_characters (sep : N) (str piece : jsstring) (c : N) :
  In piece (split sep str) -> In c piece -> In c str.
Proof.
  revert piece. induction str as [|x str IH]; intros piece Hpiece Hc.
  - destruct Hpiece as [<- | []]. exact Hc.
  - cbn [split] in Hpiece. destruct (x =? sep)%N.
    + destruct Hpiece as [<- | Hpiece]; [destruct Hc|].
      right. exact (IH piece Hpiece Hc).
    + destruct (split sep str) as [|w ws] eqn:E.
      * destruct Hpiece as [<- | []]. destruct Hc as [<- | []]. now left.
      * destruct Hpiece as [<- | Hpiece].
        -- destruct Hc as [<- | Hc]; [now left|].
           right. apply (IH w); [now left | exact Hc].
        -- right. apply (IH piece); [now right | exact Hc].
Qed.

Lemma join_characters (sep : jsstring) (l : list jsstring) (c : N) :
  In c (join sep l) -> In c sep \/ exists piece, In piece l /\ In c piece.
Proof.
  induction l as [|x l IH]; intro Hc.
  - destruct Hc.
  - cbn [join] in Hc. destruct l as [|y l].
    + right. exists x. split; [now left | exact Hc].
    + apply in_app_or in Hc. destruct Hc as [Hc | Hc].
      * right. exists x. split; [now left | exact Hc].
      * apply in_app_or in Hc. destruct Hc as [Hc | Hc]; [now left|].
        destruct (IH Hc) as [Hsep | [piece [Hpiece Hin]]]; [now left|].
        right. exists piece. split; [now right | exact Hin].
Qed.

Lemma split_nonempty (sep : N) (str : jsstring) : split sep str <> [].
Proof.
  destruct str as [|c rest]; cbn [split]; [discriminate|].
  destruct (c =? sep)%N; [discriminate|].
  destruct (split sep rest); discriminate.
Qed.

Lemma split_one_empty_piece (sep : N) (str : jsstring) :
  split sep str = [[]] -> str = [].
Proof.
  destruct str as [|c rest]; [reflexivity|]. cbn [split].
  destruct (c =? sep)%N.
  - intro H. exfalso. apply (@split_nonempty sep rest).
    apply (f_equal (@tl jsstring)) in H. exact H.
  - destruct (split sep rest); intro H; discriminate H.
Qed.

(** A character that is not the separator stays in a piece. *)
Lemma split_keeps (sep : N) (str : jsstring) (c : N) :
  In c str -> c <> sep ->
  exists piece, In piece (split sep str) /\ In c piece.
Proof.
  intros Hin Hsep. induction str as [|x rest IH]; [destruct Hin|].
  cbn [split]. destruct (x =? sep)%N eqn:Ex.
  - apply N.eqb_eq in Ex. destruct Hin as [-> | Hin]; [contradiction|].
    destruct (IH Hin) as [piece [Hpiece Hc]].
    exists piece. split; [now right | exact Hc].
  - destruct (split sep rest) as [|w ws] eqn:E.
    + exfalso. exact (split_nonempty sep rest E).
    + destruct Hin as [-> | Hin].
      * exists (c :: w). split; now left.
      * destruct (IH Hin) as [piece [[<- | Hpiece] Hc]].
        -- exists (x :: w). split; [now left | now right].
        -- exists piece. split; [now right | exact Hc].
Qed.

Lemma join_keeps (sep : jsstring) (l : list jsstring) (piece : jsstring)
  (c : N) :
  In piece l -> In c piece -> In c (join sep l).
Proof.
  intros Hpiece Hc. induction l as [|x l IH]; [destruct Hpiece|].
  cbn [join]. destruct l as [|y l].
  - destruct Hpiece as [-> | []]. exact Hc.
  - apply in_or_app. destruct Hpiece as [-> | Hpiece]; [now left|].
    right. apply in_or_app. right. now apply IH.
Qed.

(** No piece of [split_by p] holds a character that [p] selects. *)
Lemma split_by_clean (p : N -> bool) (str piece : jsstring) (c : N) :
  In piece (split_by p str) -> In c piece -> p c = false.
Proof.
  revert piece. induction str as [|x rest IH]; intros piece Hpiece Hc.
  - destruct Hpiece as [<- | []]. destruct Hc.
  - cbn [split_by] in Hpiece. destruct (p x) eqn:Ex.
    + destruct Hpiece as [<- | Hpiece]; [destruct Hc|].
      exact (IH piece Hpiece Hc).
    + destruct (split_by p rest) as [|w ws] eqn:E.
      * destruct Hpiece as [<- | []]. destruct Hc as [<- | []]. exact Ex.
      * destruct Hpiece as [<- | Hpiece].
        -- destruct Hc as [<- | Hc]; [exact Ex|].
           apply (IH w); [now left | exact Hc].
        -- apply (IH piece); [now right | exact Hc].
Qed.

Lemma join_length (sep : jsstring) (l : list jsstring) :
  length (join sep l)
  = (length (concat l) + pred (length l) * length sep)%nat.
Proof.
  induction l as [|x l IH]; [reflexivity|].
  cbn [join]. destruct l as [|y l].
  - cbn [concat length pred]. rewrite app_nil_r. lia.
  - rewrite !length_app, IH. cbn [concat length pred].
    rewrite !length_app. lia.
Qed.

Lemma filter_nonempty_concat (l : list jsstring) :
  length (concat (List.filter (fun w => negb (jsstring_eqb w [])) l))
  = length (concat l).
Proof.
  induction l as [|w l IH]; [reflexivity|].
  cbn [List.filter]. destruct (jsstring_eqb w []) eqn:E; cbn [negb concat].
  - apply jsstring_eqb_eq in E. subst w. exact IH.
  - rewrite !length_app, IH. reflexivity.
Qed.

Lemma filter_nonempty_length (l : list jsstring) :
  (length (List.filter (fun w => negb (jsstring_eqb w [])) l) <= length l)%nat
  /\ (length (List.filter (fun w => negb (jsstring_eqb w [])) l) = length l ->
      Forall (fun w => w <> []) l).
Proof.
  induction l as [|w l [IHle IHall]].
  - cbn [List.filter length]. split; [lia | constructor].
  - cbn [List.filter]. destruct (jsstring_eqb w []) eqn:E; cbn [negb length].
    + split; [lia|]. intro H. exfalso. lia.
    + split; [lia|]. intro H. constructor.
      * intros ->. discriminate E.
      * apply IHall. lia.
Qed.

(** The pattern of the code is the words of the query joined with [OR]
    only for a stripped query that is empty or single-spaced. *)
Lemma pattern_is_words (str : jsstring) :
  join (lit " OR ") (split 32 str) = join (lit " OR ") (words str)
  <-> str = [] \/ single_spaced str.
Proof.
  split.
  - intro H.
    destruct (existsb (fun c => is_space c && negb (c =? 32)%N) str) eqn:Eother.
    + exfalso. apply existsb_exists in Eother.
      destruct Eother as [c [Hin Hc]]. apply andb_prop in Hc.
      destruct Hc as [Hspace Hnot]. apply negb_true_iff, N.eqb_neq in Hnot.
      destruct (@split_keeps 32%N str c Hin Hnot) as [piece [Hpiece Hcp]].
      pose proof (@join_keeps (lit " OR ") _ piece c Hpiece Hcp) as Hjoin.
      rewrite H in Hjoin. apply join_characters in Hjoin.
      destruct Hjoin as [Hsep | [w [Hw Hcw]]].
      * cbn in Hsep.
        destruct Hsep as [<- | [<- | [<- | [<- | []]]]];
          try (now apply Hnot); discriminate Hspace.
      * unfold words in Hw. apply filter_In in Hw. destruct Hw as [Hw _].
        rewrite (@split_by_clean is_space str w c Hw Hcw) in Hspace.
        discriminate Hspace.
    + assert (Honly : forall c, In c str -> is_space c = true -> c = 32%N).
      { intros c Hin Hspace.
        destruct (c =? 32)%N eqn:E32; [now apply N.eqb_eq|].
        assert (Hex : existsb (fun c => is_space c && negb (c =? 32)%N) str
                      = true).
        { apply existsb_exists. exists c. split; [exact Hin|].
          rewrite Hspace, E32. reflexivity. }
        rewrite Hex in Eother. discriminate Eother. }
      unfold words in H. rewrite (@split_by_space str Honly) in H.
      apply (f_equal (@length N)) in H. rewrite !join_length in H.
      rewrite filter_nonempty_concat in H.
      destruct (filter_nonempty_length (split 32 str)) as [Hle Hall].
      destruct (Nat.eq_dec
                  (length (List.filter (fun w => negb (jsstring_eqb w []))
                             (split 32 str)))
                  (length (split 32 str))) as [Heq | Hneq].
      * right. split; [exact Honly | exact (Hall Heq)].
      * left. apply (@split_one_empty_piece 32).
        change (length (lit " OR ")) with 4%nat in H.
        destruct (split 32 str) as [|x [|y l]] eqn:E.
        -- exfalso. exact (split_nonempty 32 str E).
        -- cbn [List.filter] in Hneq.
           destruct (jsstring_eqb x []) eqn:Ex.
           ++ apply jsstring_eqb_eq in Ex. now subst x.
           ++ exfalso. apply Hneq. reflexivity.
        -- exfalso. cbn [length pred] in *. lia.
  - intros [-> | Hss]; [reflexivity|].
    now rewrite words_single_spaced.
Qed.

(** C9 (the code departs from the claim).  On the query [a - b] the code
    builds the pattern [a OR  OR b], with an empty operand where the
    stripped hyphen stood between two spaces, where the claim has the words
    of the query joined with [OR], that is [a OR b].  For every query, the
    pattern of the code is the words joined with [OR] exactly when the
    query, once stripped, is empty or has single spaces between its words
    and no other white space.  The pattern goes between the quotes of the
    [MATCH] of the query text as it is, followed by the filter clauses and
    the [LIMIT] of [kfts] rows. *)
Theorem fullTextQuery_pattern_empty_operand :
  matchPattern (lit "a - b") = lit "a OR  OR b"
  /\ spec_matchPattern (lit "a - b") = lit "a OR b"
  /\ (forall query : jsstring,
        let stripped :=
          List.filter (fun c => is_alnum c || is_space c) query in
        matchPattern query = spec_matchPattern query
        <-> stripped = [] \/ single_spaced stripped)
  /\ (forall (this : AzionVectorStore) (query : jsstring)
             (options : fullTextSearchOptions),
        exists head : jsstring,
          fullTextQuery this query options
          = head ++ lit "_fts MATCH '" ++ matchPattern query ++ lit "' "
            ++ generateFilters (fts_filter options) ++ LF
            ++ lit "      LIMIT " ++ count_toString (fts_kfts options)).
Proof.
  split; [reflexivity|]. split; [reflexivity|]. split.
  - intros query stripped. unfold matchPattern, spec_matchPattern.
    fold stripped. apply pattern_is_words.
  - intros this query options. unfold fullTextQuery.
    exists (LF ++ lit "      SELECT id, content, "
            ++ generateMetadata this (fts_metadataItems options)
                 (lit "fulltextsearch")
            ++ lit ", rank as bm25_similarity" ++ LF
            ++ lit "      FROM " ++ tableName this ++ lit "_fts  " ++ LF
            ++ lit "      WHERE " ++ tableName this).
    text_eq.
Qed.

(** * Further properties *)

(** *** The chunker, for every input *)

Lemma chunk_fold_nonempty (l : list jsstring) (st : chunker) :
  originalStatements st = l ->
  l <> [] ->
  insertChunk (fold_left chunk_step l st) <> [].
Proof.
  revert st. induction l as [|s l IH]; intros st Horig Hne; [congruence|].
  cbn [fold_left].
  assert (Hnext := chunk_step_originalStatements st s).
  rewrite Horig in Hnext. cbn [tl] in Hnext.
  destruct l as [|s' l].
  - cbn [fold_left]. unfold chunk_step. rewrite Horig.
    destruct (Qlt_bool _ _ || _);
      cbn [insertChunk length Z.of_nat Pos.of_succ_nat Z.eqb Pos.eqb];
      intro H; apply app_eq_nil in H; destruct H as [_ H]; discriminate H.
  - apply IH; [exact Hnext | discriminate].
Qed.

(** X1.  [createInsertChunks] returns for every list of statements, after
    at most one round of its [while] loop, and what it returns is never an
    empty list of chunks: also for no statement at all there is one chunk
    (an empty one). *)
Theorem createInsertChunks_returns_chunks :
  forall (fuel : nat) (statements : list jsstring),
    exists chunks : list (list jsstring),
      createInsertChunks (S fuel) statements = Some chunks
      /\ chunks <> []
      /\ createInsertChunks (S fuel) [] = Some [[]].
Proof.
  intros fuel statements. exists (chunked statements).
  split; [apply createInsertChunks_returns|]. split.
  - unfold chunked. destruct (Qlt_bool _ _ && _) eqn:E; [discriminate|].
    destruct statements as [|s l]; [discriminate E|].
    apply (@chunk_fold_nonempty (s :: l) (mkChunker [] [] (s :: l)));
      [reflexivity | discriminate].
  - rewrite createInsertChunks_returns. reflexivity.
Qed.

(** X2.  The chunks of [createInsertChunks], put end to end, are the input
    in its order, or the input without its last statement: no statement is
    duplicated or moved, and none but the last can be missing. *)
Theorem createInsertChunks_keeps_order :
  forall (fuel : nat) (statements : list jsstring)
         (chunks : list (list jsstring)),
    createInsertChunks (S fuel) statements = Some chunks ->
    concat chunks = statements \/ concat chunks = removelast statements.
Proof.
  intros fuel statements chunks H.
  rewrite createInsertChunks_returns in H. apply Some_inj in H. subst chunks.
  apply chunked_concat.
Qed.

Lemma createInsertChunks_keeps_order_witness :
  createInsertChunks 1 [lit "a"; lit "b"; lit "c"]
  = Some [[lit "a"; lit "b"; lit "c"]]
  /\ (concat [[lit "a"; lit "b"; lit "c"]] = [lit "a"; lit "b"; lit "c"]
      \/ concat [[lit "a"; lit "b"; lit "c"]]
         = removelast [lit "a"; lit "b"; lit "c"]).
Proof.
  assert (H : createInsertChunks 1 [lit "a"; lit "b"; lit "c"]
              = Some [[lit "a"; lit "b"; lit "c"]]) by reflexivity.
  split; [exact H|].
  exact (createInsertChunks_keeps_order 0 [lit "a"; lit "b"; lit "c"] H).
Defined.

(** X3.  No chunk of [createInsertChunks] holds more than 1000 statements. *)
Theorem createInsertChunks_count_bound :
  forall (fuel : nat) (statements : list jsstring)
         (chunks : list (list jsstring)) (chunk : list jsstring),
    createInsertChunks (S fuel) statements = Some chunks ->
    In chunk chunks ->
    (length chunk <= 1000)%nat.
Proof.
  intros fuel statements chunks chunk H Hin.
  rewrite createInsertChunks_returns in H. apply Some_inj in H. subst chunks.
  exact (chunked_count statements chunk Hin).
Qed.

Lemma createInsertChunks_count_bound_witness :
  createInsertChunks 1 (repeat (lit "a") 1000 ++ [lit "b"])
  = Some [repeat (lit "a") 1000]
  /\ In (repeat (lit "a") 1000) [repeat (lit "a") 1000]
  /\ (length (repeat (lit "a") 1000) <= 1000)%nat.
Proof.
  assert (H : createInsertChunks 1 (repeat (lit "a") 1000 ++ [lit "b"])
              = Some [repeat (lit "a") 1000]) by (vm_compute; reflexivity).
  split; [exact H|]. split; [left; reflexivity|].
  exact (createInsertChunks_count_bound 0 _ _ H (or_introl eq_refl)).
Defined.

(** X4.  A chunk of [createInsertChunks] that holds two statements or more
    is at most 838861 bytes long when joined with spaces. *)
Theorem createInsertChunks_size_bound :
  forall (fuel : nat) (statements : list jsstring)
         (chunks : list (list jsstring)) (chunk : list jsstring),
    createInsertChunks (S fuel) statements = Some chunks ->
    In chunk chunks ->
    (2 <= length chunk)%nat ->
    getStringBytes (join (lit " ") chunk) <= 838861.
Proof.
  intros fuel statements chunks chunk H Hin Hlen.
  rewrite createInsertChunks_returns in H. apply Some_inj in H. subst chunks.
  destruct (chunked_size statements chunk Hin) as [Hone | Hsize];
    [lia | exact Hsize].
Qed.

Lemma createInsertChunks_size_bound_witness :
  createInsertChunks 1 [lit "a"; lit "b"; lit "c"]
  = Some [[lit "a"; lit "b"; lit "c"]]
  /\ getStringBytes (join (lit " ") [lit "a"; lit "b"; lit "c"]) <= 838861.
Proof.
  assert (H : createInsertChunks 1 [lit "a"; lit "b"; lit "c"]
              = Some [[lit "a"; lit "b"; lit "c"]]) by reflexivity.
  split; [exact H|].
  apply (createInsertChunks_size_bound 0 _ _ H (or_introl eq_refl)).
  cbn [length]. lia.
Defined.

Lemma getStringBytes_join_prefix (p r : list jsstring) :
  getStringBytes (join (lit " ") p)
  <= getStringBytes (join (lit " ") (p ++ r)).
Proof.
  induction r as [|x r IH] using rev_ind.
  - rewrite app_nil_r. lia.
  - rewrite app_assoc, getStringBytes_join_snoc.
    pose proof (utf8_length_nonneg x) as Hx. fold (getStringBytes x) in Hx.
    destruct (p ++ r) as [|y l] eqn:E; [|lia].
    apply app_eq_nil in E. destruct E as [-> _].
    change (getStringBytes (join (lit " ") [])) with 0. lia.
Qed.

(** The loop on statements that fit together: they all go into one chunk. *)
Lemma chunk_fold_fits (r p : list jsstring) :
  getStringBytes (join (lit " ") (p ++ r)) <= 838860 ->
  (length (p ++ r) <= 1000)%nat ->
  r <> [] ->
  insertChunk (fold_left chunk_step r (mkChunker [] p r)) = [p ++ r].
Proof.
  revert p. induction r as [|s r IH]; intros p Hsize Hcount Hne; [congruence|].
  cbn [fold_left].
  assert (Hstep : chunk_step (mkChunker [] p (s :: r)) s
                  = mkChunker (match r with [] => [p ++ [s]] | _ :: _ => [] end)
                      (p ++ [s]) r).
  { unfold chunk_step. cbn [array insertChunk originalStatements tl app].
    rewrite over_maxMbSize.
    assert (Hfit : getStringBytes s + getStringBytes (join (lit " ") p)
                   <= 838860).
    { pose proof (@getStringBytes_join_prefix (p ++ [s]) r) as Hpre.
      rewrite <- app_assoc in Hpre. cbn [app] in Hpre.
      rewrite getStringBytes_join_snoc in Hpre.
      pose proof (utf8_length_nonneg s) as Hs. fold (getStringBytes s) in Hs.
      destruct p as [|x p].
      - change (getStringBytes (join (lit " ") [])) with 0. lia.
      - lia. }
    replace (838860 <? getStringBytes s + getStringBytes (join (lit " ") p))
      with false by (symmetry; apply Z.ltb_ge; lia).
    replace (maxChunkLength <? Z.of_nat (length p) + 1) with false
      by (symmetry; apply Z.ltb_ge; unfold maxChunkLength;
          rewrite length_app in Hcount; cbn [length] in Hcount; lia).
    cbn [orb]. destruct r as [|s' r].
    - reflexivity.
    - replace (Z.of_nat (length (s :: s' :: r)) =? 1) with false
        by (symmetry; apply Z.eqb_neq; cbn [length]; lia).
      reflexivity. }
  rewrite Hstep. destruct r as [|s' r].
  - reflexivity.
  - replace (p ++ s :: s' :: r) with ((p ++ [s]) ++ s' :: r)
      by (now rewrite <- app_assoc).
    apply IH.
    + now rewrite <- app_assoc.
    + now rewrite <- app_assoc.
    + discriminate.
Qed.

Lemma chunked_within_limits (statements : list jsstring) :
  getStringBytes (join (lit " ") statements) <= 838860 ->
  (length statements <= 1000)%nat ->
  chunked statements = [statements].
Proof.
  intros Hsize Hcount. unfold chunked.
  destruct (Qlt_bool _ _ && _) eqn:E; [reflexivity|].
  destruct statements as [|s l]; [discriminate E|].
  unfold chunk_for_of. cbn [originalStatements].
  apply (@chunk_fold_fits (s :: l) []); [exact Hsize | exact Hcount | discriminate].
Qed.

(** X5.  Statements that are within both limits together (at most 1000 of
    them, at most 838860 bytes when joined with spaces) come back as one
    chunk, the input itself; this covers the batch of exactly 1000
    statements, which the early return leaves to the loop. *)
Theorem createInsertChunks_within_limits :
  forall (fuel : nat) (statements : list jsstring),
    getStringBytes (join (lit " ") statements) <= 838860 ->
    (length statements <= 1000)%nat ->
    createInsertChunks (S fuel) statements = Some [statements].
Proof.
  intros fuel statements Hsize Hcount.
  rewrite createInsertChunks_returns. apply f_equal.
  now apply chunked_within_limits.
Qed.

Lemma createInsertChunks_within_limits_witness :
  getStringBytes (join (lit " ") (repeat (lit "a") 1000)) <= 838860
  /\ (length (repeat (lit "a") 1000) <= 1000)%nat
  /\ createInsertChunks 1 (repeat (lit "a") 1000)
     = Some [repeat (lit "a") 1000].
Proof.
  assert (H1 : getStringBytes (join (lit " ") (repeat (lit "a") 1000))
               <= 838860) by (vm_compute; discriminate).
  assert (H2 : (length (repeat (lit "a") 1000) <= 1000)%nat)
    by (rewrite repeat_length; lia).
  split; [exact H1|]. split; [exact H2|].
  exact (createInsertChunks_within_limits 0 _ H1 H2).
Defined.

(** X6.  A single statement above the size limit is not sent as a chunk of
    its own: [createInsertChunks] returns one empty chunk, and the statement
    is in none. *)
Theorem createInsertChunks_lone_oversized :
  forall (fuel : nat) (statement : jsstring),
    838860 < getStringBytes statement ->
    createInsertChunks (S fuel) [statement] = Some [[]].
Proof.
  intros fuel statement Hbig.
  rewrite createInsertChunks_returns. apply f_equal. unfold chunked.
  cbn [join length]. rewrite under_maxMbSize.
  replace (getStringBytes statement <=? 838860) with false
    by (symmetry; apply Z.leb_gt; lia).
  cbn [andb]. unfold chunk_for_of. cbn [originalStatements fold_left].
  unfold chunk_step. cbn [array insertChunk originalStatements join].
  rewrite over_maxMbSize. change (getStringBytes []) with 0.
  replace (838860 <? getStringBytes statement + 0) with true
    by (symmetry; apply Z.ltb_lt; lia).
  reflexivity.
Qed.

Lemma createInsertChunks_lone_oversized_witness :
  838860 < getStringBytes (repeat 97%N (N.to_nat 838861))
  /\ createInsertChunks 1 [repeat 97%N (N.to_nat 838861)] = Some [[]].
Proof.
  assert (H : 838860 < getStringBytes (repeat 97%N (N.to_nat 838861))).
  { unfold getStringBytes.
    rewrite utf8_length_repeat_ascii by reflexivity. rewrite N_nat_Z. lia. }
  split; [exact H|].
  exact (createInsertChunks_lone_oversized 0 _ H).
Defined.

(** X7.  The byte size of a string is at least its number of code units
    and at most three times that number; for a string of ASCII characters
    it is the number of code units. *)
Theorem getStringBytes_bounds :
  forall str : jsstring,
    Z.of_nat (length str) <= getStringBytes str <= 3 * Z.of_nat (length str)
    /\ (Forall (fun c => (c < 128)%N) str ->
        getStringBytes str = Z.of_nat (length str)).
Proof.
  intro str. split.
  - unfold getStringBytes.
    assert (H : forall n s, (length s <= n)%nat ->
              Z.of_nat (length s) <= utf8_length s <= 3 * Z.of_nat (length s)).
    { intro n. induction n as [|n IH]; intros [|c rest] Hlen;
        cbn [length] in Hlen; try lia; cbn [utf8_length length]; try lia.
      assert (Hr := IH rest ltac:(lia)).
      destruct (c <? 128)%N; [lia|].
      destruct (c <? 2048)%N; [lia|].
      destruct (is_high_surrogate c); [|lia].
      destruct rest as [|d rest']; [cbn [length]; lia|].
      destruct (is_low_surrogate d); [|lia].
      assert (Hr' := IH rest' ltac:(cbn [length] in Hlen; lia)).
      cbn [length] in *. lia. }
    eapply H. reflexivity.
  - intro Hascii. unfold getStringBytes.
    induction Hascii as [|c rest Hc Hrest IH]; [reflexivity|].
    cbn [utf8_length length]. apply N.ltb_lt in Hc. rewrite Hc. lia.
Qed.

Lemma getStringBytes_bounds_witness :
  Forall (fun c => (c < 128)%N) (lit "INSERT INTO documents")
  /\ getStringBytes (lit "INSERT INTO documents") = 21.
Proof.
  assert (H : Forall (fun c => (c < 128)%N) (lit "INSERT INTO documents"))
    by (vm_compute; repeat constructor).
  split; [exact H|].
  exact (proj2 (getStringBytes_bounds (lit "INSERT INTO documents")) H).
Defined.

(** *** The statements of a batch *)

Lemma includes_In (l : list jsstring) (x : jsstring) :
  includes l x = true <-> In x l.
Proof.
  unfold includes. rewrite existsb_exists. split.
  - intros [y [Hin Heq]]. apply jsstring_eqb_eq in Heq. now subst.
  - intro Hin. exists x. split; [assumption | apply jsstring_eqb_refl].
Qed.

(** The inner loop of [extractMetadataColumns]: the keys of one row. *)
Lemma add_keys_spec (ks cols : list jsstring) :
  let cols' :=
    fold_left (fun cols key => if includes cols key then cols else cols ++ [key])
      ks cols in
  (NoDup cols -> NoDup cols')
  /\ (forall x, In x cols' <-> In x cols \/ In x ks)
  /\ (exists added, cols' = cols ++ added).
Proof.
  revert cols. induction ks as [|k ks IH]; intro cols; cbn zeta.
  - cbn [fold_left]. split; [tauto|]. split.
    + intro x. cbn [In]. tauto.
    + exists []. now rewrite app_nil_r.
  - cbn [fold_left]. destruct (includes cols k) eqn:E.
    + destruct (IH cols) as (Hnd & Hin & [added Hadd]).
      split; [exact Hnd|]. split.
      * intro x. rewrite Hin. cbn [In]. apply includes_In in E.
        split; [tauto|]. intros [H | [<- | H]]; tauto.
      * exists added. exact Hadd.
    + destruct (IH (cols ++ [k])) as (Hnd & Hin & [added Hadd]).
      assert (Hk : ~ In k cols).
      { intro H. apply includes_In in H. congruence. }
      split.
      * intro Hcols. apply Hnd. apply NoDup_app.
        -- exact Hcols.
        -- repeat constructor. intros [].
        -- intros x Hx [<- | []]. contradiction.
      * split.
        -- intro x. rewrite Hin, in_app_iff. cbn [In]. tauto.
        -- exists ([k] ++ added). rewrite Hadd. now rewrite <- app_assoc.
Qed.

Section BatchFacts.

Variable number : Type.
Variable Number_toString : number -> jsstring.
Variable Number_isFinite : number -> bool.

Lemma extract_fold_spec (rows : list (rowsInterface number))
  (cols : list jsstring) :
  let cols' :=
    fold_left
      (fun metadataColumns (row : rowsInterface number) =>
         fold_left
           (fun cols key => if includes cols key then cols else cols ++ [key])
           (keys (metadata row)) metadataColumns)
      rows cols in
  (NoDup cols -> NoDup cols')
  /\ (forall x, In x cols'
                <-> In x cols
                    \/ exists row, In row rows /\ In x (keys (metadata row))).
Proof.
  revert cols. induction rows as [|row rows IH]; intro cols; cbn zeta.
  - cbn [fold_left]. split; [tauto|]. intro x. split; [tauto|].
    intros [H | [row [[] _]]]. exact H.
  - cbn [fold_left].
    destruct (add_keys_spec (keys (metadata row)) cols) as (Hnd1 & Hin1 & _).
    cbv zeta in Hnd1, Hin1.
    destruct (IH (fold_left
                    (fun cols key =>
                       if includes cols key then cols else cols ++ [key])
                    (keys (metadata row)) cols)) as (Hnd2 & Hin2).
    cbv zeta in Hnd2, Hin2.
    split; [tauto|]. intro x. rewrite Hin2, Hin1. split.
    + intros [[H | H] | [r [Hr Hx]]].
      * now left.
      * right. exists row. split; [now left | exact H].
      * right. exists r. split; [now right | exact Hx].
    + intros [H | [r [[<- | Hr] Hx]]].
      * left. now left.
      * left. now right.
      * right. exists r. now split.
Qed.

(** X8.  The metadata columns that [extractMetadataColumns] declares for a
    batch hold no name twice, and are exactly the metadata keys of its rows:
    a name is declared if and only if some row has it as a key. *)
Theorem extractMetadataColumns_keys :
  forall rows : list (rowsInterface number),
    NoDup (extractMetadataColumns rows)
    /\ (forall key : jsstring,
          In key (extractMetadataColumns rows)
          <-> exists row, In row rows /\ In key (keys (metadata row))).
Proof.
  intro rows. unfold extractMetadataColumns.
  destruct (extract_fold_spec rows []) as (Hnd & Hin). cbv zeta in Hnd, Hin.
  split; [apply Hnd; constructor|].
  intro key. rewrite Hin. cbn [In]. tauto.
Qed.

Lemma mapi_result_Forall2 (A B : Type) (f : A -> nat -> result B)
  (l : list A) (index : nat) (ys : list B) :
  mapi_result f index l = Ok ys ->
  Forall2 (fun x y => exists i, f x i = Ok y) l ys.
Proof.
  revert index ys. induction l as [|x l IH]; intros index ys H.
  - cbn [mapi_result] in H. apply Ok_inj in H. subst ys. constructor.
  - cbn [mapi_result] in H.
    destruct (f x index) as [y|e] eqn:Ex; cbn [result_bind] in H;
      [|discriminate H].
    destruct (mapi_result f (S index) l) as [ys'|e] eqn:El;
      cbn [result_bind] in H; [|discriminate H].
    apply Ok_inj in H. subst ys. constructor.
    + exists index. exact Ex.
    + eapply IH. exact El.
Qed.

Lemma mapi_result_Throw (A B : Type) (f : A -> nat -> result B)
  (l : list A) (index : nat) (e : exn) :
  mapi_result f index l = Throw e ->
  exists x i, In x l /\ f x i = Throw e.
Proof.
  revert index. induction l as [|x l IH]; intros index H.
  - discriminate H.
  - cbn [mapi_result] in H.
    destruct (f x index) as [y|e'] eqn:Ex; cbn [result_bind] in H.
    + destruct (mapi_result f (S index) l) as [ys'|e'] eqn:El;
        cbn [result_bind] in H; [discriminate H|].
      injection H as ->. destruct (IH _ El) as (x' & i & Hin & Hx).
      exists x', i. split; [now right | exact Hx].
    + injection H as ->. exists x, index. split; [now left | exact Ex].
Qed.

Lemma mapi_result_total (A B : Type) (f : A -> nat -> result B)
  (l : list A) (index : nat) :
  (forall x i, In x l -> exists y, f x i = Ok y) ->
  exists ys, mapi_result f index l = Ok ys.
Proof.
  revert index. induction l as [|x l IH]; intros index Hf.
  - exists []. reflexivity.
  - cbn [mapi_result].
    destruct (Hf x index (or_introl eq_refl)) as [y ->].
    destruct (IH (S index)) as [ys ->];
      [intros x' i Hin; apply Hf; now right|].
    exists (y :: ys). reflexivity.
Qed.

(** X9.  [createStatements] gives one statement per row, in the order of
    the rows, each the statement of its row for the columns declared by the
    whole batch; it throws what the statement of one of its rows throws; and
    in the plain-metadata mode it never throws. *)
Theorem createStatements_rows :
  forall (this : AzionVectorStore) (rows : list (rowsInterface number)),
    (forall statements : list jsstring,
        createStatements Number_toString Number_isFinite this rows
        = Ok statements ->
        Forall2
          (fun row statement =>
             createInsertStatement Number_toString Number_isFinite this row
               (extractMetadataColumns rows) = Ok statement)
          rows statements)
    /\ (forall e : exn,
          createStatements Number_toString Number_isFinite this rows
          = Throw e ->
          exists row,
            In row rows
            /\ createInsertStatement Number_toString Number_isFinite this row
                 (extractMetadataColumns rows) = Throw e)
    /\ (expandedMetadata this = false ->
        exists statements : list jsstring,
          createStatements Number_toString Number_isFinite this rows
          = Ok statements).
Proof.
  intros this rows. unfold createStatements. split; [|split].
  - intros statements H. apply mapi_result_Forall2 in H.
    eapply Forall2_impl; [|exact H].
    intros row statement [i Hi]. exact Hi.
  - intros e H. apply mapi_result_Throw in H.
    destruct H as (row & i & Hin & Hrow). exists row. now split.
  - intro Hplain. apply mapi_result_total. intros row i _.
    destruct this as [tbl dbn expanded]. cbn [expandedMetadata] in Hplain.
    subst expanded.
    destruct (createInsertStatement_plain Number_toString Number_isFinite
                tbl dbn row (extractMetadataColumns rows)) as [json [_ H]].
    eexists. exact H.
Qed.

(** X10.  In the expanded-metadata mode, a row whose metadata holds a
    string for every declared column (none of them named [embedding]) gets
    a statement that lists the columns after [content] and [embedding], and
    whose values are the content and each metadata string with their quotes
    replaced by spaces, between single quotes, and the vector literal. *)
Theorem createInsertStatement_expanded_strings :
  forall (tbl dbn : jsstring) (row : rowsInterface number)
         (metadataColumns texts : list jsstring),
    ~ In (lit "embedding") metadataColumns ->
    map (get (metadata row)) metadataColumns = map JSString texts ->
    createInsertStatement Number_toString Number_isFinite
      (mkStore tbl dbn true) row metadataColumns
    = Ok (lit "INSERT INTO " ++ tbl ++ lit " ("
          ++ join (lit ", ")
               ([lit "content"; lit "embedding"] ++ metadataColumns)
          ++ lit ") " ++ LF ++ lit "      VALUES ("
          ++ join (lit ", ")
               ([SQUOTE ++ strip_quotes (content row) ++ SQUOTE;
                 lit "vector('["
                 ++ vector_text Number_toString (embedding row) ++ lit "]')"]
                ++ map (fun t => SQUOTE ++ strip_quotes t ++ SQUOTE) texts)
          ++ lit ")").
Proof.
  intros tbl dbn row metadataColumns texts Hno Hget.
  now apply createInsertStatement_expanded.
Qed.

(** X11.  In the expanded-metadata mode a metadata column named
    [embedding] is not written as text: its value goes unescaped into a
    vector literal, like the embedding itself. *)
Theorem createInsertStatement_embedding_column :
  forall (tbl dbn : jsstring) (row : rowsInterface number),
    createInsertStatement Number_toString Number_isFinite
      (mkStore tbl dbn true) row [lit "embedding"]
    = Ok (lit "INSERT INTO " ++ tbl
          ++ lit " (content, embedding, embedding) " ++ LF
          ++ lit "      VALUES ('" ++ strip_quotes (content row)
          ++ lit "', vector('["
          ++ vector_text Number_toString (embedding row)
          ++ lit "]'), vector('["
          ++ ToString Number_toString
               (nullish (get (metadata row) (lit "embedding")) JSNull)
          ++ lit "]'))").
Proof.
  intros tbl dbn row.
  unfold createInsertStatement, createInsertString.
  cbn [expandedMetadata tableName app map mapi_result].
  change (column_is [lit "content"; lit "embedding"; lit "embedding"] 0
            (lit "embedding")) with false.
  change (column_is [lit "content"; lit "embedding"; lit "embedding"] 1
            (lit "embedding")) with true.
  change (column_is [lit "content"; lit "embedding"; lit "embedding"] 2
            (lit "embedding")) with true.
  cbn iota. rewrite escapeQuotes_strip. cbn [result_bind].
  apply f_equal. unfold vector_text.
  change (join (lit ", ") [lit "content"; lit "embedding"; lit "embedding"])
    with (lit "content, embedding, embedding").
  cbn [join]. text_eq.
Qed.

End BatchFacts.

Lemma createStatements_rows_witness :
  let this := mkStore (lit "documents") (lit "mydb") false in
  let rows := [mkRow (lit "a") [1] [(lit "topic", JSString (lit "x"))];
               mkRow (lit "b") [2] []] in
  exists statements : list jsstring,
    createStatements Z_toString (fun _ => true) this rows = Ok statements
    /\ Forall2
         (fun row statement =>
            createInsertStatement Z_toString (fun _ => true) this row
              (extractMetadataColumns rows) = Ok statement)
         rows statements.
Proof.
  intros this rows.
  destruct (createStatements_rows Z_toString (fun _ => true) this rows)
    as (Hok & _ & Hplain).
  destruct (Hplain eq_refl) as [statements Hs].
  exists statements. split; [exact Hs | exact (Hok statements Hs)].
Defined.

Lemma createInsertStatement_expanded_strings_witness :
  let row := mkRow (lit "it's") [1; 2]
               [(lit "topic", JSString (lit "a'b"))] in
  ~ In (lit "embedding") [lit "topic"]
  /\ map (get (metadata row)) [lit "topic"] = map JSString [lit "a'b"]
  /\ createInsertStatement Z_toString (fun _ => true)
       (mkStore (lit "documents") (lit "mydb") true) row [lit "topic"]
     = Ok (lit "INSERT INTO documents (content, embedding, topic) " ++ LF
           ++ lit "      VALUES ('it s', vector('[1,2]'), 'a b')").
Proof.
  intro row.
  assert (H1 : ~ In (lit "embedding") [lit "topic"]).
  { intros [H | []]. discriminate H. }
  assert (H2 : map (get (metadata row)) [lit "topic"]
               = map JSString [lit "a'b"]) by reflexivity.
  split; [exact H1|]. split; [exact H2|].
  rewrite (@createInsertStatement_expanded_strings Z Z_toString
             (fun _ => true) (lit "documents") (lit "mydb") row
             [lit "topic"] [lit "a'b"] H1 H2).
  reflexivity.
Defined.

(** *** The merger, beyond its quotas *)

Lemma sublist_nil_l (A : Type) (l : list A) : sublist [] l.
Proof. induction l; constructor; assumption. Qed.

Lemma sublist_refl (A : Type) (l : list A) : sublist l l.
Proof. induction l; constructor; assumption. Qed.

Section MergeMore.

Variable number : Type.

Lemma merge_step_cases (kfts kvector : nat) (st : merger number)
  (result : Document number * number) :
  merge_step kfts kvector st result = st
  \/ (uniqueResults (merge_step kfts kvector st result)
      = uniqueResults st ++ [result]
      /\ (tagged (lit "similarity") result = true
          \/ tagged (lit "fulltextsearch") result = true)).
Proof.
  unfold merge_step, tagged.
  destruct (negb _); [|now left].
  destruct (searchtype_is (fst result) (lit "similarity") && _) eqn:E1.
  - right. apply andb_prop in E1. destruct E1 as [E1 _].
    split; [reflexivity | now left].
  - destruct (searchtype_is (fst result) (lit "fulltextsearch") && _) eqn:E2;
      [|now left].
    right. apply andb_prop in E2. destruct E2 as [E2 _].
    split; [reflexivity | now right].
Qed.

Lemma merge_loop_kept (kfts kvector : nat)
  (results : list (Document number * number)) (st : merger number) :
  exists kept : list (Document number * number),
    uniqueResults (merge_loop kfts kvector results st)
    = uniqueResults st ++ kept
    /\ sublist kept results
    /\ Forall (fun r => tagged (lit "similarity") r = true
                        \/ tagged (lit "fulltextsearch") r = true) kept.
Proof.
  revert st. induction results as [|result rest IH]; intro st.
  - exists []. cbn [merge_loop]. rewrite app_nil_r.
    split; [reflexivity|]. split; constructor.
  - cbn [merge_loop]. cbv zeta.
    destruct (merge_step_cases kfts kvector st result) as [Hsame | [Hadd Htag]].
    + rewrite Hsame. destruct (_ =? _)%nat.
      * exists []. rewrite app_nil_r. split; [reflexivity|].
        split; [apply sublist_nil_l | constructor].
      * destruct (IH st) as (kept & Hk & Hsub & Hall).
        exists kept. split; [exact Hk|].
        split; [now apply sublist_skip | exact Hall].
    + destruct (_ =? _)%nat.
      * exists [result]. split; [exact Hadd|]. split.
        -- apply sublist_keep, sublist_nil_l.
        -- constructor; [exact Htag | constructor].
      * destruct (IH (merge_step kfts kvector st result))
          as (kept & Hk & Hsub & Hall).
        exists (result :: kept). rewrite Hk, Hadd, <- app_assoc.
        split; [reflexivity|].
        split; [now apply sublist_keep | now constructor].
Qed.

(** X12.  The merged output is made of results of the input, in the order
    they have there: [removeDuplicates] leaves results out, it neither
    reorders nor invents any. *)
Theorem removeDuplicates_sublist :
  forall (results : list (Document number * number)) (kfts kvector : nat),
    sublist (removeDuplicates results kfts kvector) results.
Proof.
  intros results kfts kvector. unfold removeDuplicates.
  destruct (merge_loop_kept kfts kvector results (mkMerger [] [] 0 0))
    as (kept & Hk & Hsub & _).
  rewrite Hk. exact Hsub.
Qed.

(** X13.  Only results tagged [similarity] or [fulltextsearch] are merged:
    a result with another tag or none, like the synthetic error result, is
    never in the output. *)
Theorem removeDuplicates_only_tagged :
  forall (results : list (Document number * number)) (kfts kvector : nat)
         (r : Document number * number),
    In r (removeDuplicates results kfts kvector) ->
    searchtype_is (fst r) (lit "similarity") = true
    \/ searchtype_is (fst r) (lit "fulltextsearch") = true.
Proof.
  intros results kfts kvector r Hin. unfold removeDuplicates in Hin.
  destruct (merge_loop_kept kfts kvector results (mkMerger [] [] 0 0))
    as (kept & Hk & _ & Hall).
  rewrite Hk in Hin. cbn [uniqueResults app] in Hin.
  rewrite Forall_forall in Hall. exact (Hall r Hin).
Qed.

Lemma count_tags_nil (l : list (Document number * number)) :
  Forall (fun r => tagged (lit "similarity") r = true
                   \/ tagged (lit "fulltextsearch") r = true) l ->
  length (List.filter (tagged (lit "similarity")) l) = 0%nat ->
  length (List.filter (tagged (lit "fulltextsearch")) l) = 0%nat ->
  l = [].
Proof.
  intros Hall Hs Hf. destruct l as [|r l]; [reflexivity|].
  inversion Hall as [|? ? Hr _]; subst.
  cbn [List.filter] in Hs, Hf.
  destruct Hr as [Hr | Hr]; rewrite Hr in *; cbn [length] in *; lia.
Qed.

(** The loop on results that are all new, tagged and within the quotas
    that remain: every one is accepted. *)
Lemma merge_loop_accepts_all (kfts kvector : nat)
  (results : list (Document number * number)) (st : merger number) :
  NoDup (map (@result_id number) results) ->
  (forall r, In r results -> ~ In (result_id r) (seenIds st)) ->
  Forall (fun r => tagged (lit "similarity") r = true
                   \/ tagged (lit "fulltextsearch") r = true) results ->
  (similarityCount st
   + length (List.filter (tagged (lit "similarity")) results) <= kvector)%nat ->
  (ftsCount st
   + length (List.filter (tagged (lit "fulltextsearch")) results) <= kfts)%nat ->
  uniqueResults (merge_loop kfts kvector results st)
  = uniqueResults st ++ results.
Proof.
  revert st.
  induction results as [|result rest IH];
    intros st Hnd Hfresh Hall Hsim Hfts.
  - cbn [merge_loop]. now rewrite app_nil_r.
  - inversion Hnd as [|? ? Hnotin Hnd']; subst.
    inversion Hall as [|? ? Htag Hall']; subst.
    cbn [merge_loop]. cbv zeta.
    assert (Hhas : has (seenIds st) (id (fst result)) = false).
    { destruct (has (seenIds st) (id (fst result))) eqn:E; [|reflexivity].
      apply has_In in E. exfalso.
      apply (Hfresh result (or_introl eq_refl)). exact E. }
    cbn [List.filter] in Hsim, Hfts.
    assert (Hstep :
              exists st',
                merge_step kfts kvector st result = st'
                /\ uniqueResults st' = uniqueResults st ++ [result]
                /\ seenIds st' = id (fst result) :: seenIds st
                /\ (similarityCount st'
                    + length (List.filter (tagged (lit "similarity")) rest)
                    <= kvector)%nat
                /\ (ftsCount st'
                    + length (List.filter (tagged (lit "fulltextsearch")) rest)
                    <= kfts)%nat).
    { unfold merge_step. rewrite Hhas. cbn [negb].
      destruct (searchtype_is (fst result) (lit "similarity")) eqn:Es.
      - assert (Ef : tagged (lit "fulltextsearch") result = false).
        { unfold tagged.
          destruct (searchtype_is (fst result) (lit "fulltextsearch")) eqn:E;
            [|reflexivity].
          pose proof (searchtype_unique _ _ _ Es E) as Habs. discriminate Habs. }
        unfold tagged at 1 in Hsim. rewrite Es in Hsim. rewrite Ef in Hfts.
        cbn [length] in Hsim.
        replace (similarityCount st <? kvector)%nat with true
          by (symmetry; apply Nat.ltb_lt; lia).
        cbn [andb]. eexists. split; [reflexivity|].
        cbn [uniqueResults seenIds similarityCount ftsCount].
        repeat split; lia.
      - destruct Htag as [Htag | Htag];
          [unfold tagged in Htag; congruence|].
        unfold tagged at 1 in Hsim. rewrite Es in Hsim. rewrite Htag in Hfts.
        unfold tagged in Htag. rewrite Htag.
        cbn [length] in Hfts. cbn [andb].
        replace (ftsCount st <? kfts)%nat with true
          by (symmetry; apply Nat.ltb_lt; lia).
        eexists. split; [reflexivity|].
        cbn [uniqueResults seenIds similarityCount ftsCount].
        repeat split; lia. }
    destruct Hstep as (st' & -> & Hu & Hseen & Hsim' & Hfts').
    destruct (_ =? _)%nat eqn:Estop.
    + apply Nat.eqb_eq in Estop.
      assert (rest = []) as ->.
      { apply count_tags_nil; [exact Hall' | lia | lia]. }
      exact Hu.
    + rewrite IH; try assumption.
      * rewrite Hu, <- app_assoc. reflexivity.
      * intros r Hr. rewrite Hseen. intros [Heq | Hin].
        -- apply Hnotin. change (result_id result) with (id (fst result)).
           rewrite Heq. change (id (fst r)) with (result_id r).
           apply in_map. exact Hr.
        -- apply (Hfresh r (or_intror Hr)). exact Hin.
Qed.

(** X14.  Results that need no merging come out unchanged: when the ids of
    the input are all different, every result is tagged [similarity] or
    [fulltextsearch], and neither tag occurs more often than its quota,
    [removeDuplicates] returns its input. *)
Theorem removeDuplicates_identity :
  forall (results : list (Document number * number)) (kfts kvector : nat),
    NoDup (map (fun r => id (fst r)) results) ->
    Forall (fun r => searchtype_is (fst r) (lit "similarity") = true
                     \/ searchtype_is (fst r) (lit "fulltextsearch") = true)
      results ->
    (length (List.filter
               (fun r => searchtype_is (fst r) (lit "similarity")) results)
     <= kvector)%nat ->
    (length (List.filter
               (fun r => searchtype_is (fst r) (lit "fulltextsearch")) results)
     <= kfts)%nat ->
    removeDuplicates results kfts kvector = results.
Proof.
  intros results kfts kvector Hnd Hall Hsim Hfts. unfold removeDuplicates.
  rewrite merge_loop_accepts_all; try assumption.
  - reflexivity.
  - intros r _ [].
Qed.

End MergeMore.

Lemma removeDuplicates_only_tagged_witness :
  let results := example_fulltext 0 ++ example_similarity 0 in
  In (tagged_result (lit "similarity") 0 (lit "4"))
    (removeDuplicates results 2 2)
  /\ (searchtype_is (fst (tagged_result (lit "similarity") 0 (lit "4")))
        (lit "similarity") = true
      \/ searchtype_is (fst (tagged_result (lit "similarity") 0 (lit "4")))
           (lit "fulltextsearch") = true).
Proof.
  intro results.
  assert (H : In (tagged_result (lit "similarity") 0 (lit "4"))
                (removeDuplicates results 2 2)).
  { vm_compute. right. right. left. reflexivity. }
  split; [exact H|].
  exact (removeDuplicates_only_tagged results 2 2 _ H).
Defined.

Lemma removeDuplicates_identity_witness :
  let results :=
    [tagged_result (lit "fulltextsearch") 0 (lit "1");
     tagged_result (lit "similarity") 0 (lit "2")] in
  removeDuplicates results 1 1 = results.
Proof.
  intro results.
  apply removeDuplicates_identity.
  - vm_compute. constructor; [intros [H | []]; discriminate H|].
    constructor; [intros [] | constructor].
  - constructor; [right; reflexivity|].
    constructor; [left; reflexivity | constructor].
  - vm_compute. lia.
  - vm_compute. lia.
Defined.

(** *** The search operations, beyond the failing query *)

Section SearchFacts.

Variable number : Type.
Variable Number_toString : number -> jsstring.
Variable Number_isFinite : number -> bool.
Variable DB : Type.
Variable sql : AzionSQL number DB.
Variable embedQuery : jsstring -> list number.
Variable Number_of : JSValue number -> number.
Variable Number_literal : Z -> number.
Variable JSON_parse : jsstring -> result (object number).

(** X15.  When the query call answers with neither data nor error, the
    similarity search and the full-text search return one synthetic result:
    a document whose content is the empty string (the serialization of
    [undefined] is [undefined], which the document constructor replaces by
    the empty string) and that has no id, tagged [error], with the score
    0. *)
Theorem search_without_answer :
  forall (this : AzionVectorStore),
    (forall vector k filter metadataItems (w : world DB),
        let answer :=
          fst (useQuery sql (dbName this)
                 [similarityQuery Number_toString this vector k filter
                    metadataItems] (db w)) in
        data answer = None ->
        error answer = None ->
        fst (similaritySearchVectorWithScore Number_toString Number_isFinite
               sql Number_of Number_literal JSON_parse this vector k filter
               metadataItems w)
        = Ok [(mkDocument (Some [])
                 [(lit "searchtype", JSString (lit "error"))] None,
               Number_literal 0)])
    /\ (forall query options (w : world DB),
          let answer :=
            fst (useQuery sql (dbName this)
                   [fullTextQuery this query options] (db w)) in
          data answer = None ->
          error answer = None ->
          fst (AzionFullTextSearch Number_toString Number_isFinite sql
                 Number_of Number_literal JSON_parse this query options w)
          = Ok [(mkDocument (Some [])
                   [(lit "searchtype", JSString (lit "error"))] None,
                 Number_literal 0)]).
Proof.
  intro this. split.
  - intros vector k filter metadataItems w answer Hdata Herror.
    rewrite similaritySearch_run. cbv zeta. fold answer.
    rewrite Hdata, Herror. reflexivity.
  - intros query options w answer Hdata Herror.
    rewrite fullTextSearch_run. cbv zeta. fold answer.
    rewrite Hdata, Herror. reflexivity.
Qed.

(** The synthetic error result never passes the merger. *)
Lemma removeDuplicates_errors (kfts kvector : nat) :
  removeDuplicates
    (searchError Number_toString Number_isFinite Number_literal None
     ++ searchError Number_toString Number_isFinite Number_literal None)
    kfts kvector = [].
Proof.
  unfold removeDuplicates, searchError. cbn [app merge_loop]. cbv zeta.
  assert (Hstep : forall st : merger number,
             merge_step kfts kvector st
               (new_Document (JSON_stringify Number_toString Number_isFinite
                                (error_value number None))
                  [(lit "searchtype", JSString (lit "error"))] None,
                Number_literal 0) = st).
  { intro st. unfold merge_step. destruct (negb _); reflexivity. }
  rewrite !Hstep. cbn [similarityCount ftsCount uniqueResults].
  destruct (0 + 0 =? kfts + kvector)%nat; reflexivity.
Qed.

(** X16.  When both query calls answer with neither data nor error, the
    hybrid search returns no result at all: the two synthetic error results
    are dropped by the merger, whatever the quotas. *)
Theorem hybridSearch_without_answer :
  forall (this : AzionVectorStore),
    (forall (name : jsstring) (statements : list jsstring) (d : DB),
        data (fst (useQuery sql name statements d)) = None
        /\ error (fst (useQuery sql name statements d)) = None) ->
    forall query options (w : world DB),
      fst (AzionHybridSearch Number_toString Number_isFinite sql embedQuery
             Number_of Number_literal JSON_parse this query options w)
      = Ok [].
Proof.
  intros this Hsilent query options w.
  unfold AzionHybridSearch, bind at 1. rewrite fullTextSearch_run. cbv zeta.
  destruct (Hsilent (dbName this)
              [fullTextQuery this query
                 (mkFtsOptions (hyb_kfts options) (hyb_filter options)
                    (hyb_metadataItems options))] (db w)) as [-> ->].
  unfold bind at 1. rewrite similaritySearch_run. cbv zeta. cbn [db].
  match goal with
  | |- context [useQuery sql ?n ?s ?d] =>
      destruct (Hsilent n s d) as [-> ->]
  end.
  unfold ret. cbn [fst]. now rewrite removeDuplicates_errors.
Qed.

(** X17.  A search makes query calls only, and one for each of its
    queries: the similarity search and the full-text search one call,
    whatever the answer; the hybrid search the full-text query first and,
    only if the full-text search returned, the similarity query. *)
Theorem search_calls :
  forall (this : AzionVectorStore),
    (forall vector k filter metadataItems (w : world DB),
        calls (snd (similaritySearchVectorWithScore Number_toString
                      Number_isFinite sql Number_of Number_literal JSON_parse
                      this vector k filter metadataItems w))
        = calls w
          ++ [UseQuery (dbName this)
                [similarityQuery Number_toString this vector k filter
                   metadataItems]])
    /\ (forall query options (w : world DB),
          calls (snd (AzionFullTextSearch Number_toString Number_isFinite sql
                        Number_of Number_literal JSON_parse this query
                        options w))
          = calls w
            ++ [UseQuery (dbName this) [fullTextQuery this query options]])
    /\ (forall query options (w : world DB),
          let ftsOptions :=
            mkFtsOptions (hyb_kfts options) (hyb_filter options)
              (hyb_metadataItems options) in
          calls (snd (AzionHybridSearch Number_toString Number_isFinite sql
                        embedQuery Number_of Number_literal JSON_parse this
                        query options w))
          = calls w
            ++ UseQuery (dbName this) [fullTextQuery this query ftsOptions]
               :: match fst (AzionFullTextSearch Number_toString
                               Number_isFinite sql Number_of Number_literal
                               JSON_parse this query ftsOptions w) with
                  | Ok _ =>
                      [UseQuery (dbName this)
                         [similarityQuery Number_toString this
                            (embedQuery query) (hyb_kvector options)
                            (hyb_filter options) (hyb_metadataItems options)]]
                  | Throw _ => []
                  end).
Proof.
  intro this.
  assert (Hsim : forall vector k filter metadataItems (w : world DB),
             calls (snd (similaritySearchVectorWithScore Number_toString
                           Number_isFinite sql Number_of Number_literal
                           JSON_parse this vector k filter metadataItems w))
             = calls w
               ++ [UseQuery (dbName this)
                     [similarityQuery Number_toString this vector k filter
                        metadataItems]]).
  { intros. rewrite similaritySearch_run. cbv zeta.
    destruct (data _) as [d|]; [destruct (mapRows _ _ _ _) | destruct (error _)];
      reflexivity. }
  assert (Hfts : forall query options (w : world DB),
             calls (snd (AzionFullTextSearch Number_toString Number_isFinite
                           sql Number_of Number_literal JSON_parse this query
                           options w))
             = calls w
               ++ [UseQuery (dbName this) [fullTextQuery this query options]]).
  { intros. rewrite fullTextSearch_run. cbv zeta.
    destruct (data _) as [d|]; [destruct (mapRows _ _ _ _) | destruct (error _)];
      reflexivity. }
  split; [exact Hsim|]. split; [exact Hfts|].
  intros query options w ftsOptions.
  unfold AzionHybridSearch, bind at 1. fold ftsOptions.
  specialize (Hfts query ftsOptions w).
  destruct (AzionFullTextSearch _ _ _ _ _ _ _ _ _ w) as [[docs|e] w1];
    cbn [fst snd] in *.
  - unfold bind at 1.
    specialize (Hsim (embedQuery query) (hyb_kvector options)
                  (hyb_filter options) (hyb_metadataItems options) w1).
    destruct (similaritySearchVectorWithScore _ _ _ _ _ _ _ _ _ _ _ w1)
      as [[docs'|e] w2]; cbn [fst snd] in *; unfold ret; cbn [snd];
      rewrite Hsim, Hfts, <- app_assoc; reflexivity.
  - exact Hfts.
Qed.

(** X18.  Whatever the service answers, a hybrid search that returns gives
    at most [kfts + kvector] results, no two with the same id, and each
    tagged [similarity] or [fulltextsearch]. *)
Theorem hybridSearch_bounds :
  forall (this : AzionVectorStore) query options (w : world DB)
         (docs : list (Document number * number)),
    fst (AzionHybridSearch Number_toString Number_isFinite sql embedQuery
           Number_of Number_literal JSON_parse this query options w)
    = Ok docs ->
    (length docs <= hyb_kfts options + hyb_kvector options)%nat
    /\ NoDup (map (fun r => id (fst r)) docs)
    /\ Forall (fun r => searchtype_is (fst r) (lit "similarity") = true
                        \/ searchtype_is (fst r) (lit "fulltextsearch") = true)
         docs.
Proof.
  intros this query options w docs H.
  unfold AzionHybridSearch, bind at 1 in H.
  destruct (AzionFullTextSearch _ _ _ _ _ _ _ _ _ w) as [[fts|e] w1];
    [|discriminate H].
  unfold bind at 1 in H.
  destruct (similaritySearchVectorWithScore _ _ _ _ _ _ _ _ _ _ _ w1)
    as [[sim|e] w2]; [|discriminate H].
  unfold ret in H. cbn [fst] in H. apply Ok_inj in H. subst docs.
  unfold removeDuplicates.
  destruct (merge_loop_inv (fts ++ sim)
              (merge_inv_init number (hyb_kfts options) (hyb_kvector options)))
    as (Hs & Hf & Hcs & Hcf & Hlen & Hseen & Hnd).
  destruct (merge_loop_kept (hyb_kfts options) (hyb_kvector options)
              (fts ++ sim) (mkMerger [] [] 0 0)) as (kept & Hk & _ & Hall).
  split; [lia|]. split.
  - rewrite Hseen in Hnd. apply NoDup_rev in Hnd.
    now rewrite rev_involutive in Hnd.
  - rewrite Hk. exact Hall.
Qed.

Lemma mapRows_rows (rs : option (list (QueryResult number)))
  (searches : list (SearchEmbeddingsResponse number)) :
  mapRows Number_toString Number_of JSON_parse rs = Ok searches ->
  Forall2 (fun row resp => mapRow Number_toString Number_of JSON_parse row
                           = Ok resp)
    (result_rows rs) searches.
Proof.
  unfold mapRows, result_rows. destruct rs as [queryResults|].
  - destruct (mapi_result _ 0%nat queryResults) as [mapped|e] eqn:Emapped;
      cbn [result_bind]; [|discriminate].
    intro H. apply Ok_inj in H. subst searches.
    apply mapi_result_Forall2 in Emapped.
    induction Emapped as [|qr here qrs mapped [i Hhere] _ IH]; [constructor|].
    cbn [flat_map concat]. apply Forall2_app; [|exact IH].
    destruct (rows qr) as [rws|]; [destruct (columns qr)|].
    + apply mapi_result_Forall2 in Hhere.
      eapply Forall2_impl; [|exact Hhere]. intros a b [j Hj]. exact Hj.
    + apply Ok_inj in Hhere. subst. constructor.
    + apply Ok_inj in Hhere. subst. constructor.
  - intro H. apply Ok_inj in H. subst. constructor.
Qed.

(** X19.  A similarity search that gets data returns one result per row of the query
    results that have both rows and columns, in their order: the document
    has the second column as content, the parsed third column as metadata
    and the first column, as a number printed back, as id, and the score is
    the fourth column. *)
Theorem search_results_rows :
  forall (this : AzionVectorStore) vector k filter metadataItems
         (w : world DB) (d : AzionDatabaseQueryResponse number)
         (docs : list (Document number * number)),
    data (fst (useQuery sql (dbName this)
                 [similarityQuery Number_toString this vector k filter
                    metadataItems] (db w))) = Some d ->
    fst (similaritySearchVectorWithScore Number_toString Number_isFinite sql
           Number_of Number_literal JSON_parse this vector k filter
           metadataItems w) = Ok docs ->
    Forall2
      (fun row r =>
         exists parsed,
           JSON_parse (ToString Number_toString (nth 2 row JSUndefined))
           = Ok parsed
           /\ r = (mkDocument
                     (Some (ToString Number_toString (nth 1 row JSUndefined)))
                     parsed
                     (Some (Number_toString (Number_of (nth 0 row JSUndefined)))),
                   Number_of (nth 3 row JSUndefined)))
      (result_rows (results d)) docs.
Proof.
  intros this vector k filter metadataItems w d docs Hdata H.
  rewrite similaritySearch_run in H. cbv zeta in H. rewrite Hdata in H.
  destruct (mapRows Number_toString Number_of JSON_parse (results d))
    as [searches|e] eqn:Erows; [|discriminate H].
  cbn [fst] in H. apply Ok_inj in H. subst docs.
  apply mapRows_rows in Erows. unfold mapSearches.
  induction Erows as [|row resp rows' resps Hrow _ IH]; [constructor|].
  cbn [map]. constructor; [|exact IH].
  unfold mapRow in Hrow.
  destruct (JSON_parse _) as [parsed|e] eqn:Eparse; cbn [result_bind] in Hrow;
    [|discriminate Hrow].
  apply Ok_inj in Hrow. subst resp. exists parsed. split; reflexivity.
Qed.

End SearchFacts.

Lemma search_without_answer_witness :
  let this := mkStore (lit "documents") (lit "mydb") false in
  let w0 := mkWorld tt [] in
  fst (similaritySearchVectorWithScore Z_toString (fun _ => true)
         (silent_sql Z) Z_of_value (fun z => z) (fun _ => Ok [])
         this [1; 2] 3%nat None None w0)
  = Ok [(mkDocument (Some []) [(lit "searchtype", JSString (lit "error"))]
           None, 0)]
  /\ fst (AzionFullTextSearch Z_toString (fun _ => true)
            (silent_sql Z) Z_of_value (fun z => z) (fun _ => Ok [])
            this (lit "fast database") (mkFtsOptions 3%nat None None) w0)
     = Ok [(mkDocument (Some []) [(lit "searchtype", JSString (lit "error"))]
              None, 0)].
Proof.
  intros this w0.
  destruct (@search_without_answer Z Z_toString (fun _ => true) unit
              (silent_sql Z) Z_of_value (fun z => z) (fun _ => Ok []) this)
    as [Hsim Hfts].
  split.
  - apply Hsim; reflexivity.
  - apply Hfts; reflexivity.
Defined.

Lemma hybridSearch_without_answer_witness :
  fst (AzionHybridSearch Z_toString (fun _ => true) (silent_sql Z)
         (fun _ => [1; 2]) Z_of_value (fun z => z) (fun _ => Ok [])
         (mkStore (lit "documents") (lit "mydb") false)
         (lit "fast database") (mkHybridOptions 2%nat 2%nat None None)
         (mkWorld tt []))
  = Ok [].
Proof.
  apply hybridSearch_without_answer.
  intros name statements d. split; reflexivity.
Defined.

Lemma hybridSearch_bounds_witness :
  let docs : list (Document Z * Z) :=
    [(mkDocument (Some (lit "hello"))
        [(lit "searchtype", JSString (lit "fulltextsearch"))]
        (Some (lit "7")), 1)] in
  (length docs <= 2 + 2)%nat
  /\ NoDup (map (fun r => id (fst r)) docs)
  /\ Forall (fun r => searchtype_is (fst r) (lit "similarity") = true
                      \/ searchtype_is (fst r) (lit "fulltextsearch") = true)
       docs.
Proof.
  intro docs.
  apply (@hybridSearch_bounds Z Z_toString (fun _ => true) unit
           (fixed_sql [[JSNumber 7; JSString (lit "hello");
                        JSString (lit "{}"); JSNumber 1]])
           (fun _ => [1; 2]) Z_of_value (fun z => z)
           (fun _ => Ok [(lit "searchtype", JSString (lit "fulltextsearch"))])
           (mkStore (lit "documents") (lit "mydb") false)
           (lit "fast database") (mkHybridOptions 2%nat 2%nat None None)
           (mkWorld tt [])).
  vm_compute. reflexivity.
Defined.

Lemma search_results_rows_witness :
  let answer : list (list (JSValue Z)) :=
    [[JSNumber 7; JSString (lit "hello"); JSString (lit "{}"); JSNumber 1]] in
  Forall2
    (fun row r =>
       exists parsed : object Z,
         Ok [] = Ok parsed
         /\ r = (mkDocument
                   (Some (ToString Z_toString (nth 1 row JSUndefined)))
                   parsed
                   (Some (Z_toString (Z_of_value (nth 0 row JSUndefined)))),
                 Z_of_value (nth 3 row JSUndefined)))
    answer
    [(mkDocument (Some (lit "hello")) [] (Some (lit "7")), 1)].
Proof.
  intro answer.
  apply (@search_results_rows Z Z_toString (fun _ => true) unit
           (fixed_sql answer) Z_of_value (fun z => z) (fun _ => Ok [])
           (mkStore (lit "documents") (lit "mydb") false)
           [1; 2] 3%nat None None (mkWorld tt [])
           (mkQueryData
              (Some [mkQueryResult
                       (Some [lit "id"; lit "content"; lit "metadata";
                              lit "similarity"])
                       (Some answer)]))).
  - reflexivity.
  - vm_compute. reflexivity.
Defined.

(** *** The setup operations, call by call *)

Lemma includes_name_true (number : Type) (tables : list (JSValue number))
  (name : jsstring) :
  includes_name tables name = true <-> In (JSString name) tables.
Proof.
  split; [|apply includes_name_In].
  unfold includes_name. rewrite existsb_exists.
  intros [t [Hin Ht]]. destruct t; try discriminate Ht.
  apply jsstring_eqb_eq in Ht. now subst.
Qed.

Section SetupFacts.

Variable number : Type.
Variable DB : Type.
Variable sql : AzionSQL number DB.
Variable embedQuery : jsstring -> list number.

(** X20.  The tables count as set up exactly when the listing exists and
    names the store's table and, in hybrid mode, also its [_fts] table:
    nothing but these names is looked at. *)
Theorem areTablesSetup_names :
  forall (this : AzionVectorStore) (tables : option (list (JSValue number)))
         (mode : Mode),
    areTablesSetup this tables mode = true
    <-> exists ts,
          tables = Some ts
          /\ In (JSString (tableName this)) ts
          /\ (mode = ModeHybrid ->
              In (JSString (tableName this ++ lit "_fts")) ts).
Proof.
  intros this tables mode. split.
  - destruct tables as [ts|]; [|discriminate]. intro H. exists ts.
    split; [reflexivity|]. destruct mode; cbn [areTablesSetup] in H.
    + split; [now apply includes_name_true | discriminate].
    + apply andb_prop in H. destruct H as [H1 H2].
      split; [now apply includes_name_true|].
      intros _. now apply includes_name_true.
  - intros (ts & -> & Hmain & Hfts). now apply areTablesSetup_present.
Qed.

(** The run of [handleDatabase], by the answer to the listing. *)
Lemma handleDatabase_cases (this : AzionVectorStore) (w : world DB) :
  let x := getDatabases sql (db w) in
  let w1 := mkWorld (snd x) (calls w ++ [GetDatabases]) in
  let found :=
    match data (fst x) with
    | Some d =>
        match databases d with
        | Some names => includes names (dbName this)
        | None => false
        end
    | None => false
    end in
  handleDatabase sql this w
  = match error (fst x) with
    | Some e => (Throw (Error (message e)), w1)
    | None =>
        if found then (Ok tt, w1)
        else
          let c := createDatabase sql (dbName this) (snd x) in
          (errorHandler (error (fst c)) (lit "Error creating database"),
           mkWorld (snd c)
             (calls w ++ [GetDatabases; CreateDatabase (dbName this)]))
    end.
Proof.
  intros x w1 found. unfold handleDatabase, bind at 1. rewrite invoke_run.
  fold x. fold w1. unfold bind at 1, lift at 1, errorHandler at 1.
  destruct (error (fst x)) as [e|]; [reflexivity|].
  fold found. destruct found; cbn [negb]; [reflexivity|].
  unfold bind, lift. rewrite invoke_run. subst w1. cbn [db calls].
  rewrite <- app_assoc. reflexivity.
Qed.

(** The calls of [handleDatabase]: the listing, then at most the creation. *)
Lemma handleDatabase_calls (this : AzionVectorStore)
  (w : world DB) :
  let run := handleDatabase sql this w in
  exists extra,
    calls (snd run) = calls w ++ GetDatabases :: extra
    /\ (extra = [] \/ extra = [CreateDatabase (dbName this)])
    /\ (fst run = Ok tt \/ exists msg, fst run = Throw (Error msg)).
Proof.
  intro run. subst run. rewrite handleDatabase_cases. cbv zeta.
  destruct (error (fst (getDatabases _ _))) as [e|].
  - exists []. split; [reflexivity|]. split; [now left|].
    right. eexists. reflexivity.
  - destruct (match data _ with Some _ => _ | None => _ end).
    + exists []. split; [reflexivity|]. split; now left.
    + exists [CreateDatabase (dbName this)]. cbn [fst snd calls].
      split; [reflexivity|]. split; [now right|].
      unfold errorHandler. destruct (error _) as [e|];
        [right; eexists; reflexivity | now left].
Qed.

(** X21.  [handleDatabase] lists the databases first and creates the
    store's database exactly when the listing succeeds and does not name
    it; it makes no other call.  A listing error is thrown with its
    message, a database that is listed needs nothing more, and nothing is
    thrown but an [Error]. *)
Theorem handleDatabase_creates_when_missing :
  forall (this : AzionVectorStore) (w : world DB),
    let answer := fst (getDatabases sql (db w)) in
    let run := handleDatabase sql this w in
    let listed :=
      exists d names,
        data answer = Some d /\ databases d = Some names
        /\ In (dbName this) names in
    exists extra,
      calls (snd run) = calls w ++ GetDatabases :: extra
      /\ (extra = [] \/ extra = [CreateDatabase (dbName this)])
      /\ (extra = [CreateDatabase (dbName this)]
          <-> error answer = None /\ ~ listed)
      /\ (forall e, error answer = Some e ->
                    fst run = Throw (Error (message e)))
      /\ (error answer = None -> listed -> fst run = Ok tt)
      /\ (fst run = Ok tt \/ exists msg, fst run = Throw (Error msg)).
Proof.
  intros this w answer run listed. subst run.
  rewrite handleDatabase_cases. cbv zeta. fold answer.
  assert (Hfound :
            match data answer with
            | Some d =>
                match databases d with
                | Some names => includes names (dbName this)
                | None => false
                end
            | None => false
            end = true <-> listed).
  { unfold listed. destruct (data answer) as [d|].
    - destruct (databases d) as [names|] eqn:Ed.
      + rewrite includes_In. split.
        * intro H. exists d, names. now repeat split.
        * intros (d' & names' & Hd & Hn & Hin).
          apply Some_inj in Hd. subst d'. rewrite Ed in Hn.
          apply Some_inj in Hn. now subst names'.
      + split; [discriminate|].
        intros (d' & names' & Hd & Hn & _).
        apply Some_inj in Hd. subst d'. rewrite Ed in Hn. discriminate Hn.
    - split; [discriminate|]. intros (d' & names' & Hd & _). discriminate Hd. }
  destruct (error answer) as [e|].
  - exists []. cbn [fst snd calls]. split; [reflexivity|].
    split; [now left|]. split; [split; [discriminate | intros [H _]; discriminate H]|].
    split; [intros e' He; apply Some_inj in He; now subst e'|].
    split; [discriminate|]. right. eexists. reflexivity.
  - destruct (match data answer with Some _ => _ | None => _ end) eqn:E.
    + exists []. cbn [fst snd calls]. split; [reflexivity|].
      split; [now left|]. split.
      * split; [discriminate|]. intros [_ Hn]. exfalso. apply Hn.
        now apply Hfound.
      * split; [discriminate|]. split; [reflexivity|]. now left.
    + exists [CreateDatabase (dbName this)]. cbn [fst snd calls].
      split; [reflexivity|]. split; [now right|]. split.
      * split; [|reflexivity]. intros _. split; [reflexivity|].
        intro Hl. apply Hfound in Hl. discriminate Hl.
      * split; [discriminate|]. split.
        -- intros _ Hl. apply Hfound in Hl. discriminate Hl.
        -- unfold errorHandler. destruct (error _) as [e|];
             [right; eexists; reflexivity | now left].
Qed.

(** X22.  In hybrid mode, when the listing names the store's table but not
    its [_fts] table, [handleTables] executes the whole batch, the
    unconditional [CREATE TABLE] of the table that exists included. *)
Theorem handleTables_hybrid_half_setup :
  forall (this : AzionVectorStore) (cols : list jsstring) (w : world DB)
         (ts : list (JSValue number)),
    let answer := fst (getTables sql (dbName this) (db w)) in
    error answer = None ->
    listed_tables answer = Some ts ->
    In (JSString (tableName this)) ts ->
    ~ In (JSString (tableName this ++ lit "_fts")) ts ->
    calls (snd (handleTables sql embedQuery this ModeHybrid cols w))
    = calls w
      ++ [GetTables (dbName this);
          UseExecute (dbName this)
            (createTableStatement embedQuery this cols
             :: createIndexStatement this
             :: createFtsStatement this cols
             :: createTriggersStatements this cols)].
Proof.
  intros this cols w ts answer Herror Hlisted Hmain Hfts.
  rewrite handleTables_run. cbv zeta. fold answer.
  rewrite Herror, Hlisted. cbn [areTablesSetup].
  replace (includes_name ts (tableName this ++ lit "_fts")) with false.
  2:{ symmetry. destruct (includes_name ts _) eqn:E; [|reflexivity].
      apply includes_name_true in E. contradiction. }
  rewrite andb_false_r. cbn [db calls].
  destruct (error (fst (useExecute _ _ _ _))); cbn [snd calls];
    rewrite <- app_assoc; reflexivity.
Qed.

(** The calls of [handleTables]: the listing, then at most the batch. *)
Lemma handleTables_calls (this : AzionVectorStore) (mode : Mode)
  (cols : list jsstring) (w : world DB) :
  let run := handleTables sql embedQuery this mode cols w in
  exists extra,
    calls (snd run) = calls w ++ GetTables (dbName this) :: extra
    /\ sublist extra
         [UseExecute (dbName this) (allStatements embedQuery this mode cols)]
    /\ (fst run = Ok tt \/ exists msg, fst run = Throw (Error msg)).
Proof.
  intro run. subst run. rewrite handleTables_run. cbv zeta.
  destruct (error (fst (getTables _ _ _))) as [e|].
  - exists []. split; [reflexivity|].
    split; [apply sublist_nil_l | right; eexists; reflexivity].
  - destruct (areTablesSetup _ _ _).
    + exists []. split; [reflexivity|]. split; [apply sublist_nil_l | now left].
    + exists [UseExecute (dbName this) (allStatements embedQuery this mode cols)].
      cbn [db calls].
      destruct (error (fst (useExecute _ _ _ _))) as [e|]; cbn [fst snd calls];
        rewrite <- app_assoc;
        (split; [reflexivity|]); (split; [apply sublist_refl|]);
        [right; eexists; reflexivity | now left].
Qed.

(** X23.  The calls of [setupDatabase] are, in this order and each at most
    once, the listing of the databases (always), the creation of the
    database, the listing of the tables and the execution of the statement
    batch; it makes no query.  It returns only after the tables were
    listed, and it throws nothing but an [Error]. *)
Theorem setupDatabase_calls :
  forall (this : AzionVectorStore) (setupOptions : AzionSetupOptions)
         (w : world DB),
    let run := setupDatabase sql embedQuery this setupOptions w in
    exists extra,
      calls (snd run) = calls w ++ GetDatabases :: extra
      /\ sublist extra
           [CreateDatabase (dbName this);
            GetTables (dbName this);
            UseExecute (dbName this)
              (allStatements embedQuery this (setup_mode setupOptions)
                 (setup_columns setupOptions))]
      /\ (fst run = Ok tt -> In (GetTables (dbName this)) extra)
      /\ (fst run = Ok tt \/ exists msg, fst run = Throw (Error msg)).
Proof.
  intros this setupOptions w run. subst run.
  unfold setupDatabase, bind.
  destruct (handleDatabase_calls this w)
    as (extra1 & Hcalls1 & Hextra1 & Hout1).
  destruct (handleDatabase sql this w) as [[[]|e] w1] eqn:Erun;
    cbn [fst snd] in *.
  - destruct (handleTables_calls this (setup_mode setupOptions)
                (setup_columns setupOptions) w1)
      as (extra2 & Hcalls2 & Hsub2 & Hout2).
    exists (extra1 ++ GetTables (dbName this) :: extra2).
    rewrite Hcalls2, Hcalls1, <- app_assoc. split; [reflexivity|].
    split; [|split; [|exact Hout2]].
    + destruct Hextra1 as [-> | ->]; cbn [app].
      * apply sublist_skip, sublist_keep, Hsub2.
      * apply sublist_keep, sublist_keep, Hsub2.
    + intros _. apply in_or_app. right. now left.
  - exists extra1. split; [exact Hcalls1|]. split.
    + destruct Hextra1 as [-> | ->];
        [apply sublist_nil_l | apply sublist_keep, sublist_nil_l].
    + split; [discriminate|]. exact Hout1.
Qed.

(** X24.  When the listing of the databases fails, [setupDatabase] throws
    that error after this one call: the database is not created and the
    tables are not looked at. *)
Theorem setupDatabase_stops_at_listing_error :
  forall (this : AzionVectorStore) (setupOptions : AzionSetupOptions)
         (w : world DB) (e : AzionError),
    error (fst (getDatabases sql (db w))) = Some e ->
    setupDatabase sql embedQuery this setupOptions w
    = (Throw (Error (message e)),
       mkWorld (snd (getDatabases sql (db w))) (calls w ++ [GetDatabases])).
Proof.
  intros this setupOptions w e He.
  unfold setupDatabase, bind. rewrite handleDatabase_cases. cbv zeta.
  rewrite He. reflexivity.
Qed.

End SetupFacts.

Lemma handleTables_hybrid_half_setup_witness :
  let this := mkStore (lit "documents") (lit "mydb") false in
  let embed := fun _ : jsstring => [0; 0; 0] in
  let w0 := mkWorld (mkMemory [lit "mydb"] [lit "documents"]) [] in
  calls (snd (handleTables (memory_sql Z) embed this ModeHybrid [] w0))
  = [GetTables (lit "mydb");
     UseExecute (lit "mydb")
       (createTableStatement embed this []
        :: createIndexStatement this
        :: createFtsStatement this []
        :: createTriggersStatements this [])].
Proof.
  intros this embed w0.
  apply (@handleTables_hybrid_half_setup Z memory (memory_sql Z) embed this []
           w0 [JSString (lit "documents")]).
  - reflexivity.
  - reflexivity.
  - left. reflexivity.
  - intros [H | []]. discriminate H.
Defined.

Lemma setupDatabase_stops_at_listing_error_witness :
  let this := mkStore (lit "documents") (lit "mydb") false in
  let e := mkError (lit "unreachable") (lit "list databases") in
  setupDatabase (failing_sql Z e) (fun _ => [0; 0; 0]) this
    (mkSetupOptions [] ModeVector) (mkWorld tt [])
  = (Throw (Error (lit "unreachable")), mkWorld tt [GetDatabases]).
Proof.
  intros this e.
  apply (@setupDatabase_stops_at_listing_error Z unit (failing_sql Z e)
           (fun _ => [0; 0; 0]) this (mkSetupOptions [] ModeVector)
           (mkWorld tt []) e).
  reflexivity.
Defined.

(** *** The write path *)

Section WriteFacts.

Variable number : Type.
Variable Number_toString : number -> jsstring.
Variable Number_isFinite : number -> bool.
Variable DB : Type.
Variable sql : AzionSQL number DB.
Variable embedDocuments : list (option jsstring) -> list (list number).

(** One round of the loop of [insertChunks]. *)
Lemma insertChunks_cons (this : AzionVectorStore) (chunk : list jsstring)
  (chunks : list (list jsstring)) (w : world DB) :
  let x := useExecute sql (dbName this) chunk (db w) in
  let w1 := mkWorld (snd x) (calls w ++ [UseExecute (dbName this) chunk]) in
  insertChunks sql this (chunk :: chunks) w
  = match error (fst x) with
    | Some e => (Throw (Error (message e)), w1)
    | None => insertChunks sql this chunks w1
    end.
Proof.
  intros x w1. cbn [insertChunks]. unfold bind, lift, errorHandler.
  rewrite invoke_run. fold x. destruct (error (fst x)); reflexivity.
Qed.

(** The run of [insertChunks] on chunks that all execute without error. *)
Lemma insertChunks_all (this : AzionVectorStore)
  (chunks : list (list jsstring)) (w : world DB) :
  (forall pre chunk post,
      chunks = pre ++ chunk :: post ->
      error (fst (useExecute sql (dbName this) chunk
                    (fold_left
                       (fun d c => snd (useExecute sql (dbName this) c d))
                       pre (db w)))) = None) ->
  insertChunks sql this chunks w
  = (Ok tt,
     mkWorld
       (fold_left (fun d c => snd (useExecute sql (dbName this) c d))
          chunks (db w))
       (calls w ++ map (UseExecute (dbName this)) chunks)).
Proof.
  revert w. induction chunks as [|chunk chunks IH]; intros w Hall.
  - cbn [insertChunks map fold_left]. rewrite app_nil_r.
    destruct w. reflexivity.
  - rewrite insertChunks_cons. cbv zeta.
    pose proof (Hall [] chunk chunks eq_refl) as Hfirst.
    cbn [fold_left] in Hfirst. rewrite Hfirst. rewrite IH.
    + cbn [db calls map fold_left]. rewrite <- app_assoc. reflexivity.
    + intros pre c post Hsplit. cbn [db].
      apply (Hall (chunk :: pre) c post). rewrite Hsplit. reflexivity.
Qed.

(** The run of [insertChunks] up to the first chunk whose execution
    reports an error. *)
Lemma insertChunks_first_error (this : AzionVectorStore)
  (done : list (list jsstring)) (chunk : list jsstring)
  (rest : list (list jsstring)) (e : AzionError) (w : world DB) :
  (forall pre c post,
      done = pre ++ c :: post ->
      error (fst (useExecute sql (dbName this) c
                    (fold_left
                       (fun d c' => snd (useExecute sql (dbName this) c' d))
                       pre (db w)))) = None) ->
  error (fst (useExecute sql (dbName this) chunk
                (fold_left
                   (fun d c => snd (useExecute sql (dbName this) c d))
                   done (db w)))) = Some e ->
  insertChunks sql this (done ++ chunk :: rest) w
  = (Throw (Error (message e)),
     mkWorld
       (fold_left (fun d c => snd (useExecute sql (dbName this) c d))
          (done ++ [chunk]) (db w))
       (calls w ++ map (UseExecute (dbName this)) (done ++ [chunk]))).
Proof.
  revert w. induction done as [|first done IH]; intros w Hall Herr.
  - cbn [app fold_left map] in *. rewrite insertChunks_cons. cbv zeta.
    rewrite Herr. reflexivity.
  - cbn [app]. rewrite insertChunks_cons. cbv zeta.
    pose proof (Hall [] first done eq_refl) as Hfirst.
    cbn [fold_left] in Hfirst. rewrite Hfirst. rewrite IH.
    + cbn [db calls map fold_left app]. rewrite <- app_assoc. reflexivity.
    + intros pre c post Hsplit. cbn [db].
      apply (Hall (first :: pre) c post). rewrite Hsplit. reflexivity.
    + exact Herr.
Qed.

(** X25.  [insertChunks] executes the chunks in their order, one call
    each, up to and including the first whose execution reports an error:
    when none does, it returns after all of them; else it throws that
    error, the chunks after it are not executed, and the chunks before it
    stay executed. *)
Theorem insertChunks_stops_at_first_error :
  forall (this : AzionVectorStore) (chunks : list (list jsstring))
         (w : world DB),
    let state_after := fun executed : list (list jsstring) =>
      fold_left (fun d chunk => snd (useExecute sql (dbName this) chunk d))
        executed (db w) in
    let succeed := fun executed : list (list jsstring) =>
      forall pre chunk post,
        executed = pre ++ chunk :: post ->
        error (fst (useExecute sql (dbName this) chunk (state_after pre)))
        = None in
    (succeed chunks ->
     insertChunks sql this chunks w
     = (Ok tt,
        mkWorld (state_after chunks)
          (calls w ++ map (UseExecute (dbName this)) chunks)))
    /\ (forall done chunk rest e,
          chunks = done ++ chunk :: rest ->
          succeed done ->
          error (fst (useExecute sql (dbName this) chunk (state_after done)))
          = Some e ->
          insertChunks sql this chunks w
          = (Throw (Error (message e)),
             mkWorld (state_after (done ++ [chunk]))
               (calls w
                ++ map (UseExecute (dbName this)) (done ++ [chunk])))).
Proof.
  intros this chunks w state_after succeed. split.
  - intro Hall. now apply insertChunks_all.
  - intros done chunk rest e -> Hall Herr.
    now apply insertChunks_first_error.
Qed.

(** X26.  Without vectors there is still one call: [addVectors] sends the
    service one empty batch, whatever the documents, and so does
    [addDocuments] when the embeddings provider returns no vector. *)
Theorem addVectors_no_vectors :
  forall (fuel : nat) (this : AzionVectorStore)
         (documents : list (Document number))
         (options : option (list jsstring)) (w : world DB),
    let sent := useExecute sql (dbName this) [] (db w) in
    let run :=
      (errorHandler (error (fst sent)) (lit "Error inserting chunk"),
       mkWorld (snd sent) (calls w ++ [UseExecute (dbName this) []])) in
    addVectors Number_toString Number_isFinite sql fuel this [] documents
      options w = Some run
    /\ (embedDocuments (map (fun doc => pageContent doc) documents) = [] ->
        addDocuments Number_toString Number_isFinite sql embedDocuments fuel
          this documents options w = Some run).
Proof.
  intros fuel this documents options w sent run.
  assert (H : addVectors Number_toString Number_isFinite sql fuel this []
                documents options w = Some run).
  { unfold addVectors, mapRowsFromDocuments, createStatements.
    cbn [mapi_result]. unfold createInsertChunks.
    replace (Qlt_bool _ _ && _) with true by reflexivity.
    apply f_equal. rewrite insertChunks_cons. cbv zeta. fold sent. subst run.
    unfold errorHandler. destruct (error (fst sent)); reflexivity. }
  split; [exact H|].
  intro Hnone. unfold addDocuments. rewrite Hnone. exact H.
Qed.

(** The rows of [mapRowsFromDocuments]: every failure is a [TypeError], and
    only the documents at the indices of the vectors are read. *)
Lemma mapRowsFromDocuments_from (documents : list (Document number))
  (vectors : list (list number)) (index : nat) :
  let f := fun (embedding : list number) idx =>
             match nth_error documents idx with
             | None => Throw TypeError
             | Some doc =>
                 match pageContent doc with
                 | Some text => Ok (mkRow text embedding (doc_metadata doc))
                 | None => Throw TypeError
                 end
             end in
  (exists rows, mapi_result f index vectors = Ok rows)
  \/ mapi_result f index vectors = Throw TypeError.
Proof.
  intro f. revert index. induction vectors as [|v vs IH]; intro index.
  - left. exists []. reflexivity.
  - cbn [mapi_result]. unfold f at 1 3.
    destruct (nth_error documents index) as [doc|]; [|now right].
    destruct (pageContent doc); [|now right]. cbn [result_bind].
    destruct (IH (S index)) as [[rows ->] | ->]; [left; now eexists | now right].
Qed.

Lemma mapRowsFromDocuments_short (documents : list (Document number))
  (vectors : list (list number)) (index : nat) :
  (index <= length documents)%nat ->
  (length documents < index + length vectors)%nat ->
  mapi_result
    (fun (embedding : list number) idx =>
       match nth_error documents idx with
       | None => Throw TypeError
       | Some doc =>
           match pageContent doc with
           | Some text => Ok (mkRow text embedding (doc_metadata doc))
           | None => Throw TypeError
           end
       end) index vectors = Throw TypeError.
Proof.
  revert index. induction vectors as [|v vs IH]; intros index Hle Hlen.
  - cbn [length] in Hlen. lia.
  - cbn [mapi_result length] in *.
    destruct (nth_error documents index) as [doc|] eqn:Edoc; [|reflexivity].
    destruct (pageContent doc); [|reflexivity]. cbn [result_bind].
    assert (Hlt : (index < length documents)%nat).
    { apply nth_error_Some. congruence. }
    rewrite IH; [reflexivity | lia | lia].
Qed.

Lemma mapRowsFromDocuments_firstn (documents : list (Document number))
  (n : nat) (vectors : list (list number)) (index : nat) :
  (index + length vectors <= n)%nat ->
  mapi_result
    (fun (embedding : list number) idx =>
       match nth_error (firstn n documents) idx with
       | None => Throw TypeError
       | Some doc =>
           match pageContent doc with
           | Some text => Ok (mkRow text embedding (doc_metadata doc))
           | None => Throw TypeError
           end
       end) index vectors
  = mapi_result
      (fun (embedding : list number) idx =>
         match nth_error documents idx with
         | None => Throw TypeError
         | Some doc =>
             match pageContent doc with
             | Some text => Ok (mkRow text embedding (doc_metadata doc))
             | None => Throw TypeError
             end
         end) index vectors.
Proof.
  revert index. induction vectors as [|v vs IH]; intros index Hlen.
  - reflexivity.
  - cbn [mapi_result length] in *.
    rewrite nth_error_firstn.
    replace (index <? n)%nat with true by (symmetry; apply Nat.ltb_lt; lia).
    rewrite IH by lia. reflexivity.
Qed.

(** X27.  With fewer documents than vectors, [addVectors] throws a
    [TypeError] before any call to the service: nothing is inserted, not
    even the vectors that have a document. *)
Theorem addVectors_missing_document :
  forall (fuel : nat) (this : AzionVectorStore)
         (vectors : list (list number)) (documents : list (Document number))
         (options : option (list jsstring)) (w : world DB),
    (length documents < length vectors)%nat ->
    addVectors Number_toString Number_isFinite sql fuel this vectors documents
      options w = Some (Throw TypeError, w).
Proof.
  intros fuel this vectors documents options w Hlen.
  unfold addVectors, mapRowsFromDocuments.
  rewrite mapRowsFromDocuments_short; [reflexivity | lia | lia].
Qed.

(** X28.  [addVectors] reads only as many documents as there are vectors:
    the documents after them change nothing. *)
Theorem addVectors_extra_documents :
  forall (fuel : nat) (this : AzionVectorStore)
         (vectors : list (list number)) (documents : list (Document number))
         (options : option (list jsstring)) (w : world DB),
    addVectors Number_toString Number_isFinite sql fuel this vectors
      (firstn (length vectors) documents) options w
    = addVectors Number_toString Number_isFinite sql fuel this vectors
        documents options w.
Proof.
  intros fuel this vectors documents options w.
  unfold addVectors, mapRowsFromDocuments.
  rewrite mapRowsFromDocuments_firstn by lia. reflexivity.
Qed.

(** X29.  When the statements of the rows are within both limits together,
    [addVectors] makes exactly one call, which executes all of them as one
    batch, and returns unless that call reports an error. *)
Theorem addVectors_single_batch :
  forall (fuel : nat) (this : AzionVectorStore)
         (vectors : list (list number)) (documents : list (Document number))
         (options : option (list jsstring)) (w : world DB)
         (rows : list (rowsInterface number)) (statements : list jsstring),
    mapRowsFromDocuments vectors documents = Ok rows ->
    createStatements Number_toString Number_isFinite this rows
    = Ok statements ->
    getStringBytes (join (lit " ") statements) <= 838860 ->
    (length statements <= 1000)%nat ->
    let sent := useExecute sql (dbName this) statements (db w) in
    addVectors Number_toString Number_isFinite sql (S fuel) this vectors
      documents options w
    = Some (errorHandler (error (fst sent)) (lit "Error inserting chunk"),
            mkWorld (snd sent)
              (calls w ++ [UseExecute (dbName this) statements])).
Proof.
  intros fuel this vectors documents options w rows statements
         Hrows Hstatements Hsize Hcount sent.
  unfold addVectors. rewrite Hrows, Hstatements.
  rewrite createInsertChunks_returns, chunked_within_limits by assumption.
  apply f_equal. rewrite insertChunks_cons. cbv zeta. fold sent.
  unfold errorHandler. destruct (error (fst sent)); reflexivity.
Qed.

End WriteFacts.

Lemma insertChunks_stops_at_first_error_witness :
  let this := mkStore (lit "documents") (lit "mydb") false in
  let e := mkError (lit "disk full") (lit "execute") in
  insertChunks (failing_sql Z e) this [[lit "first"]; [lit "second"]]
    (mkWorld tt [])
  = (Throw (Error (lit "disk full")),
     mkWorld tt [UseExecute (lit "mydb") [lit "first"]]).
Proof.
  intros this e.
  apply (proj2 (@insertChunks_stops_at_first_error Z unit (failing_sql Z e)
                  this [[lit "first"]; [lit "second"]] (mkWorld tt []))
           [] [lit "first"] [[lit "second"]] e).
  - reflexivity.
  - intros pre chunk post H. destruct pre; discriminate H.
  - reflexivity.
Defined.

Lemma addVectors_missing_document_witness :
  let this := mkStore (lit "documents") (lit "mydb") false in
  addVectors Z_toString (fun _ => true) (memory_sql Z) 1 this
    [[1; 2]; [3; 4]] [mkDocument (Some (lit "hello")) [] None] None
    (mkWorld (mkMemory [] []) [])
  = Some (Throw TypeError, mkWorld (mkMemory [] []) []).
Proof.
  intro this. apply addVectors_missing_document. cbn [length]. lia.
Defined.

Lemma addVectors_single_batch_witness :
  let this := mkStore (lit "documents") (lit "mydb") false in
  let rows := [mkRow (lit "hello") [1; 2] []] in
  let statements :=
    match createStatements Z_toString (fun _ => true) this rows with
    | Ok statements => statements
    | Throw _ => []
    end in
  addVectors Z_toString (fun _ => true) (silent_sql Z) 1 this
    [[1; 2]] [mkDocument (Some (lit "hello")) [] None] None (mkWorld tt [])
  = Some (Ok tt, mkWorld tt [UseExecute (lit "mydb") statements]).
Proof.
  intros this rows statements.
  apply (@addVectors_single_batch Z Z_toString (fun _ => true) unit
           (silent_sql Z) 0 this [[1; 2]]
           [mkDocument (Some (lit "hello")) [] None] None (mkWorld tt [])
           rows statements).
  - reflexivity.
  - vm_compute. reflexivity.
  - vm_compute. discriminate.
  - apply Nat.leb_le. vm_compute. reflexivity.
Defined.

Lemma addVectors_no_vectors_witness :
  addDocuments Z_toString (fun _ => true) (silent_sql Z) (fun _ => []) 0
    (mkStore (lit "documents") (lit "mydb") false)
    [mkDocument (Some (lit "hello")) [] None] None (mkWorld tt [])
  = Some (Ok tt, mkWorld tt [UseExecute (lit "mydb") []]).
Proof.
  apply (proj2 (@addVectors_no_vectors Z Z_toString (fun _ => true) unit
                  (silent_sql Z) (fun _ => []) 0
                  (mkStore (lit "documents") (lit "mydb") false)
                  [mkDocument (Some (lit "hello")) [] None] None
                  (mkWorld tt []))).
  reflexivity.
Defined.

(** *** The full-text pattern *)

(** X30.  The pattern that [AzionFullTextSearch] puts between the quotes
    of its [MATCH] is made of letters, digits and white space only,
    whatever the query: no quote character of the query reaches the
    statement. *)
Theorem matchPattern_characters :
  forall (query : jsstring),
    Forall (fun c => is_alnum c || is_space c = true) (matchPattern query)
    /\ ~ In 39%N (matchPattern query)
    /\ ~ In 34%N (matchPattern query).
Proof.
  intro query.
  assert (H : Forall (fun c => is_alnum c || is_space c = true)
                (matchPattern query)).
  { apply Forall_forall. intros c Hc. unfold matchPattern in Hc.
    apply join_characters in Hc.
    destruct Hc as [Hsep | [piece [Hpiece Hin]]].
    - cbn in Hsep.
      destruct Hsep as [<- | [<- | [<- | [<- | []]]]]; reflexivity.
    - pose proof (split_characters _ _ _ _ Hpiece Hin) as Hq.
      apply filter_In in Hq. exact (proj2 Hq). }
  split; [exact H|]. rewrite Forall_forall in H.
  split; intro Hin; apply H in Hin; discriminate Hin.
Qed.
